(** * Moon Lander (src/main.c): a shallow embedding and its properties

    The C program keeps one mutable [GameState] that the command loop of
    [main] hands to [handle_game_turn], [update_physics], [check_landing],
    [generate_terrain_data], [calculate_landing_safety] and
    [activate_landing_radar].  Each of those functions is written here as a
    function from the state before to the state after; what the C code
    prints is returned as a list of [Output] events.

    Numbers.  C [int]s are [Z]; every decrement in the program is guarded by
    a [> 0] test, so no signed overflow can arise.  C [double]s are taken
    through the interface [DoubleOps] (and [DoubleRound] for floor, ceil and
    round), which has two instances:
    - [B64_double]: the kernel's binary64 floats, which is what the program
      computes with.  Concrete scenarios run on it bit for bit.
    - [Q_double]: exact rational arithmetic.  General theorems that need the
      order of the numbers are proved over it and say so; rounding,
      infinities and NaN are outside this instance.
    Theorems stated for every instance hold of both, so of the program's
    binary64; where binary64 departs from exact arithmetic, the theorem
    gives the binary64 result beside the exact one. *)

From Stdlib Require Import ZArith QArith Qabs Qround Lqa Lia.
From Stdlib Require Import List Bool Ascii String.
From Stdlib Require Import Floats.
Import ListNotations.

Set Implicit Arguments.

(** ** The arithmetic of [double] *)

Class DoubleOps (D : Type) : Type := {
  d_of_Z : Z -> D;            (* conversion of an int, and integer literals *)
  d_lit : Q -> D;             (* a decimal literal such as 0.3 *)
  d_add : D -> D -> D;
  d_sub : D -> D -> D;
  d_mul : D -> D -> D;
  d_div : D -> D -> D;
  d_abs : D -> D;             (* fabs *)
  d_max : D -> D -> D;        (* fmax *)
  d_ltb : D -> D -> bool;     (* <  *)
  d_leb : D -> D -> bool;     (* <= *)
  d_to_int : D -> Z           (* the cast (int)x: truncation toward zero *)
}.

Definition d_gtb {D} {ops : DoubleOps D} (x y : D) : bool := d_ltb y x.
Definition d_geb {D} {ops : DoubleOps D} (x y : D) : bool := d_leb y x.

Definition INT_MIN : Z := - 2 ^ 31.
Definition INT_MAX : Z := 2 ^ 31 - 1.

(** *** Exact rationals *)

Definition Qltb (x y : Q) : bool := negb (Qle_bool y x).

(** [(int)q] for a rational: the quotient rounded toward zero.  Where that
    quotient does not fit an [int] the C cast is undefined; the model keeps
    the mathematical value, which then lies far outside every array bound, as
    do the values real hardware produces there ([INT_MIN] on x86-64, the
    saturated bound on AArch64). *)
Definition Q_to_int (q : Q) : Z := Z.quot (Qnum q) (Zpos (Qden q)).

#[export] Instance Q_double : DoubleOps Q := {|
  d_of_Z := inject_Z;
  d_lit := fun q => q;
  d_add := Qplus;
  d_sub := Qminus;
  d_mul := Qmult;
  d_div := Qdiv;
  d_abs := Qabs;
  d_max := fun x y => if Qle_bool x y then y else x;
  d_ltb := Qltb;
  d_leb := Qle_bool;
  d_to_int := Q_to_int
|}.

(** *** binary64 *)

Module B64.

Definition of_Z (z : Z) : float :=
  match z with
  | Z0 => PrimFloat.zero
  | Zpos _ => PrimFloat.of_uint63 (Uint63.of_Z z)
  | Zneg p => PrimFloat.opp (PrimFloat.of_uint63 (Uint63.of_Z (Zpos p)))
  end.

(** A decimal literal is the double nearest to it.  Numerator and
    denominator of every literal of the program are small integers, which
    are doubles themselves, so the correctly rounded quotient is that
    nearest double. *)
Definition lit (q : Q) : float :=
  PrimFloat.div (of_Z (Qnum q)) (of_Z (Zpos (Qden q))).

(** fmax: a NaN operand is dropped in favour of the other one. *)
Definition fmax (x y : float) : float :=
  if PrimFloat.is_nan x then y
  else if PrimFloat.is_nan y then x
  else if PrimFloat.ltb x y then y else x.

(** (int)x.  A finite double is [(-1)^s * m * 2^e]; the cast drops the
    fraction.  NaN, the infinities and values that do not fit an [int]
    make the C cast undefined: x86-64 yields [INT_MIN] there, and so does
    the model. *)
Definition to_int (x : float) : Z :=
  match Prim2SF x with
  | S754_zero _ => 0
  | S754_finite s m e =>
      let mag := if (0 <=? e)%Z then (Zpos m * 2 ^ e)%Z
                 else (Zpos m / 2 ^ (- e))%Z in
      let t := if s then (- mag)%Z else mag in
      if ((INT_MIN <=? t) && (t <=? INT_MAX))%Z then t else INT_MIN
  | _ => INT_MIN
  end.

(** (int)floor(x), (int)ceil(x) and (int)round(x), for a finite double
    [(-1)^s * m * 2^e]: floor, ceil and round of <math.h> give the double
    that is the integer below, above and nearest (halves away from zero),
    and the cast converts it as in [to_int]. *)
Definition floor_int (x : float) : Z :=
  match Prim2SF x with
  | S754_zero _ => 0
  | S754_finite s m e =>
      let n := if s then Zneg m else Zpos m in
      let t := if (0 <=? e)%Z then (n * 2 ^ e)%Z else (n / 2 ^ (- e))%Z in
      if ((INT_MIN <=? t) && (t <=? INT_MAX))%Z then t else INT_MIN
  | _ => INT_MIN
  end.

Definition ceil_int (x : float) : Z :=
  match Prim2SF x with
  | S754_zero _ => 0
  | S754_finite s m e =>
      let n := if s then Zneg m else Zpos m in
      let t := if (0 <=? e)%Z then (n * 2 ^ e)%Z
               else (- ((- n) / 2 ^ (- e)))%Z in
      if ((INT_MIN <=? t) && (t <=? INT_MAX))%Z then t else INT_MIN
  | _ => INT_MIN
  end.

Definition round_int (x : float) : Z :=
  match Prim2SF x with
  | S754_zero _ => 0
  | S754_finite s m e =>
      let mag := if (0 <=? e)%Z then (Zpos m * 2 ^ e)%Z
                 else ((Zpos m + 2 ^ (- e - 1)) / 2 ^ (- e))%Z in
      let t := if s then (- mag)%Z else mag in
      if ((INT_MIN <=? t) && (t <=? INT_MAX))%Z then t else INT_MIN
  | _ => INT_MIN
  end.

(** The exact value of a finite double, [(-1)^s * m * 2^e]; 0 for NaN and
    the infinities, which have none. *)
Definition to_Q (x : float) : Q :=
  match Prim2SF x with
  | S754_finite s m e =>
      let mag := if (0 <=? e)%Z then inject_Z (Zpos m * 2 ^ e)
                 else Zpos m # Pos.pow 2 (Z.to_pos (- e)) in
      if s then - mag else mag
  | _ => 0
  end.

End B64.

#[export] Instance B64_double : DoubleOps float := {|
  d_of_Z := B64.of_Z;
  d_lit := B64.lit;
  d_add := PrimFloat.add;
  d_sub := PrimFloat.sub;
  d_mul := PrimFloat.mul;
  d_div := PrimFloat.div;
  d_abs := PrimFloat.abs;
  d_max := B64.fmax;
  d_ltb := PrimFloat.ltb;
  d_leb := PrimFloat.leb;
  d_to_int := B64.to_int
|}.

(** ** The data model *)

(** typedef struct { ... } GameConfig; *)
Record GameConfig (D : Type) : Type := mkGameConfig {
  gravity : D;
  engine_force : D;
  initial_fuel : Z;
  display_delta_v : Z
}.

(** typedef struct { ... } LandingRadar;  [terrain_height] is the array
    [double terrain_height[21]]. *)
Record LandingRadar (D : Type) : Type := mkLandingRadar {
  active : Z;
  turns_remaining : Z;
  terrain_height : list D;
  safe_landing_x : D;
  safe_landing_score : D
}.

(** typedef struct { ... } GameState;  [A] is the horizontal position, [B]
    the altitude, [C] the fuel. *)
Record GameState (D : Type) : Type := mkGameState {
  A : D;
  B : D;
  vel_h : D;
  vel_v : D;
  prev_vel_h : D;
  prev_vel_v : D;
  C : Z;
  engines_on : Z;
  time_step : D;
  radar : LandingRadar D
}.

(** A C [int] used as a condition. *)
Definition truthy (z : Z) : bool := negb (z =? 0)%Z.

(** toupper in the C locale. *)
Definition toupper (c : ascii) : ascii :=
  let n := nat_of_ascii c in
  if ((97 <=? n) && (n <=? 122))%nat then ascii_of_nat (n - 32) else c.

(** The element [terrain_height[i]] of the radar's array.  The program only
    reads indices 0..20 of its 21 samples. *)
Definition terrain_at {D} {ops : DoubleOps D} (state : GameState D) (i : Z) : D :=
  nth (Z.to_nat i) (terrain_height (radar state)) (d_of_Z 0).

(** sin and cos of <math.h>, which no instance computes: a parameter. *)
Class Libm (D : Type) : Type := {
  d_sin : D -> D;
  d_cos : D -> D
}.

(** rand(): the values the generator is going to return, in order. *)
Definition Rng : Type := nat -> Z.

Definition rand (g : Rng) : Z * Rng := (g O, fun n => g (S n)).

(** What the program writes to the terminal and to lander_results.txt.
    Fixed lines are kept as their text (without the line breaks); blocks
    printed from the state carry that state. *)
Inductive Output (D : Type) : Type :=
| Message (text : string)
| RadarData (state : GameState D)                    (* display_landing_radar *)
| StatusReport (state : GameState D) (config : GameConfig D) (* display_status *)
| SaveResult (state : GameState D) (result : string). (* a call of save_result *)

Arguments Message {D} text.

Definition MSG_NO_FUEL_DRIFT : string :=
  "No fuel remaining! Lander is now drifting.".
Definition MSG_CANNOT_BURN : string :=
  "Cannot burn. Main engines are OFF (use 'W' to turn on).".
Definition MSG_RADAR_PREVIOUS : string :=
  "[Radar data from previous position]".
Definition MSG_RADAR_LOST : string :=
  ">>> Landing radar signal lost. Visuals deactivated. <<<".
Definition MSG_LANDED : string :=
  "*** THE EAGLE HAS LANDED! SUCCESSFUL LANDING! ***".
Definition MSG_CRASHED : string :=
  "*** CRASHED! High impact speed. ***".
Definition MSG_FUEL_DEPLETED : string :=
  "*** WARNING: FUEL DEPLETED. ***".
Definition MSG_RADAR_ACTIVATING : string :=
  "=== ACTIVATING LANDING RADAR (1 fuel consumed) ===".
Definition MSG_RADAR_NO_FUEL : string :=
  "No fuel remaining! Cannot activate radar.".
Definition MSG_GAME_OVER : string :=
  "Game over. Press 'V' to start a new game or 'Q' to quit.".
Definition MSG_NEW_GAME : string := "=== NEW GAME STARTED ===".
Definition MSG_CONFIG_UPDATED : string :=
  "Configuration updated. Press 'V' to start a new game with these settings.".
Definition MSG_GOODBYE : string := "Thanks for playing Moon Lander!".
Definition MSG_ENGINES_ON : string := ">>> Main Engines ON. <<<".
Definition MSG_ENGINES_OFF : string := ">>> Main Engines OFF. <<<".
Definition MSG_UNKNOWN : string :=
  "Unknown command. Use: V, W, S, Y, Z, X, R, C, Q".

(** ** The functions of main.c *)

Section Lander.

Context {D : Type} {ops : DoubleOps D} {libm : Libm D}.

Local Open Scope Z_scope.

(** void update_physics(GameState* state, GameConfig* config, char move_command) *)
Definition update_physics (state : GameState D) (config : GameConfig D)
    (move_command : ascii) : GameState D :=
  let dt := time_step state in
  let prev_h := vel_h state in
  let prev_v := vel_v state in
  let v0 := d_sub (vel_v state) (d_mul (gravity config) dt) in
  let '(v1, h1) :=
    if truthy (engines_on state) then
      if (move_command =? "Y")%char then
        (d_add v0 (d_mul (engine_force config) dt),
         d_add (vel_h state)
               (d_mul (d_mul (engine_force config) dt) (d_lit 0.3)))
      else if (move_command =? "Z")%char then
        (d_add v0 (d_mul (engine_force config) dt),
         d_sub (vel_h state)
               (d_mul (d_mul (engine_force config) dt) (d_lit 0.3)))
      else (v0, vel_h state)
    else (v0, vel_h state) in
  let a1 := d_add (A state) (d_mul h1 dt) in
  let b1 := d_add (B state) (d_mul v1 dt) in
  let b2 := if d_ltb b1 (d_of_Z 0) then d_of_Z 0 else b1 in
  {| A := a1; B := b2; vel_h := h1; vel_v := v1;
     prev_vel_h := prev_h; prev_vel_v := prev_v;
     C := C state; engines_on := engines_on state;
     time_step := time_step state; radar := radar state |}.

(** The index computed in check_landing: (int)((A + 100) / 10.0), then
    clamped by the two [if]s. *)
Definition landing_index (state : GameState D) : Z :=
  let index := d_to_int (d_div (d_add (A state) (d_of_Z 100)) (d_lit 10)) in
  let index := if index <? 0 then 0 else index in
  let index := if index >? 20 then 20 else index in
  index.

(** The local [terrain_penalty] of check_landing. *)
Definition terrain_penalty (state : GameState D) : D :=
  if d_geb (A state) (d_of_Z (-100)) && d_leb (A state) (d_of_Z 100) then
    d_mul (d_abs (terrain_at state (landing_index state))) (d_lit 0.2)
  else d_of_Z 0.

(** int check_landing(GameState* state): 1 success, -1 crash, 0 flying. *)
Definition check_landing (state : GameState D) : Z :=
  let SAFE_VERTICAL_SPEED := d_lit 2 in
  let SAFE_HORIZONTAL_SPEED := d_lit 1.5 in
  if d_leb (B state) (d_of_Z 0) then
    let penalty := terrain_penalty state in
    if d_ltb (d_abs (vel_v state)) (d_sub SAFE_VERTICAL_SPEED penalty)
       && d_ltb (d_abs (vel_h state)) (d_sub SAFE_HORIZONTAL_SPEED penalty)
    then 1 else -1
  else 0.

(** The index of calculate_landing_safety: (int)((x_pos + 100) / 10). *)
Definition safety_index (x_pos : D) : Z :=
  d_to_int (d_div (d_add x_pos (d_of_Z 100)) (d_of_Z 10)).

(** double calculate_landing_safety(GameState* state, double x_pos) *)
Definition calculate_landing_safety (state : GameState D) (x_pos : D) : D :=
  let index := safety_index x_pos in
  if (index <? 0) || (index >=? 21) then d_of_Z 0
  else
    let safety := d_lit 100 in
    let safety :=
      d_sub safety (d_mul (d_abs (terrain_at state index)) (d_of_Z 10)) in
    let safety :=
      if (index >? 0) && (index <? 20) then
        let slope_left :=
          d_abs (d_sub (terrain_at state index)
                       (terrain_at state (index - 1))) in
        let slope_right :=
          d_abs (d_sub (terrain_at state (index + 1))
                       (terrain_at state index)) in
        d_sub safety (d_mul (d_add slope_left slope_right) (d_of_Z 5))
      else safety in
    d_max (d_of_Z 0) safety.

(** void display_landing_radar(GameState* state) *)
Definition display_landing_radar (state : GameState D) : list (Output D) :=
  if truthy (active (radar state)) then [RadarData state] else [].

(** void activate_landing_radar(GameState* state) *)
Definition activate_landing_radar (state : GameState D)
    : GameState D * list (Output D) :=
  let r := radar state in
  let state :=
    {| A := A state; B := B state; vel_h := vel_h state;
       vel_v := vel_v state; prev_vel_h := prev_vel_h state;
       prev_vel_v := prev_vel_v state; C := C state;
       engines_on := engines_on state; time_step := time_step state;
       radar := {| active := 1; turns_remaining := 3;
                   terrain_height := terrain_height r;
                   safe_landing_x := safe_landing_x r;
                   safe_landing_score := safe_landing_score r |} |} in
  (state, Message MSG_RADAR_ACTIVATING :: display_landing_radar state).

End Lander.

Section Game.

Context {D : Type} {ops : DoubleOps D} {libm : Libm D}.

Local Open Scope Z_scope.

Definition set_radar (state : GameState D) (r : LandingRadar D)
    : GameState D :=
  {| A := A state; B := B state; vel_h := vel_h state; vel_v := vel_v state;
     prev_vel_h := prev_vel_h state; prev_vel_v := prev_vel_v state;
     C := C state; engines_on := engines_on state;
     time_step := time_step state; radar := r |}.

Definition set_C (state : GameState D) (fuel : Z) : GameState D :=
  {| A := A state; B := B state; vel_h := vel_h state; vel_v := vel_v state;
     prev_vel_h := prev_vel_h state; prev_vel_v := prev_vel_v state;
     C := fuel; engines_on := engines_on state;
     time_step := time_step state; radar := radar state |}.

Definition set_engines_on (state : GameState D) (v : Z) : GameState D :=
  {| A := A state; B := B state; vel_h := vel_h state; vel_v := vel_v state;
     prev_vel_h := prev_vel_h state; prev_vel_v := prev_vel_v state;
     C := C state; engines_on := v;
     time_step := time_step state; radar := radar state |}.

(** The world coordinate of sample [i]: double x_pos = -100 + (i * 10). *)
Definition sample_x (i : Z) : D := d_of_Z (-100 + i * 10).

(** One pass of the first loop of generate_terrain_data: the height stored
    at index [i], and the generator after the one or two calls of rand(). *)
Definition terrain_sample (i : Z) (g : Rng) : D * Rng :=
  let x_pos := sample_x i in
  let base_height := d_lit 0 in
  let variation :=
    d_add (d_mul (d_sin (d_mul x_pos (d_lit 0.1))) (d_of_Z 5))
          (d_mul (d_cos (d_mul x_pos (d_lit 0.05))) (d_of_Z 3)) in
  let '(r1, g) := rand g in
  let '(hazard, g) :=
    if Z.rem r1 100 <? 15 then
      let '(r2, g) := rand g in
      (d_mul (d_of_Z (Z.rem r2 20 - 10)) (d_lit 0.5), g)
    else (d_lit 0, g) in
  (d_add (d_add base_height variation) hazard, g).

(** for (int i = 0; i < 21; i++) ...: the samples from index [i] on, [n] of
    them. *)
Fixpoint terrain_loop (n : nat) (i : Z) (g : Rng) : list D * Rng :=
  match n with
  | O => ([], g)
  | S n' =>
      let '(h, g) := terrain_sample i g in
      let '(rest, g) := terrain_loop n' (i + 1) g in
      (h :: rest, g)
  end.

(** The body of the second loop: one candidate against the best so far,
    kept as (best_safety, best_x). *)
Definition best_step (state : GameState D) (best : D * D) (i : Z) : D * D :=
  let x_pos := sample_x i in
  let safety := calculate_landing_safety state x_pos in
  if d_gtb safety (fst best) then (safety, x_pos) else best.

(** The indices [lo], [lo+1], ... of a counting loop, [n] of them. *)
Definition for_range (lo : Z) (n : nat) : list Z :=
  map (fun k => lo + Z.of_nat k) (seq 0 n).

(** double best_safety = -1, best_x = 0; for (int i = 1; i < 20; i++) ... *)
Definition best_landing (state : GameState D) : D * D :=
  fold_left (best_step state) (for_range 1 19) (d_of_Z (-1), d_of_Z 0).

(** void generate_terrain_data(GameState* state) *)
Definition generate_terrain_data (state : GameState D) (g : Rng)
    : GameState D * Rng :=
  let '(heights, g) := terrain_loop 21 0 g in
  let r := radar state in
  let state :=
    set_radar state
      {| active := active r; turns_remaining := turns_remaining r;
         terrain_height := heights;
         safe_landing_x := safe_landing_x r;
         safe_landing_score := safe_landing_score r |} in
  let '(best_safety, best_x) := best_landing state in
  let r := radar state in
  (set_radar state
     {| active := active r; turns_remaining := turns_remaining r;
        terrain_height := terrain_height r;
        safe_landing_x := best_x;
        safe_landing_score := best_safety |}, g).

(** void init_game(GameState* state, GameConfig* config).  Every field of
    the state is overwritten, apart from the recommendation, which
    generate_terrain_data then sets. *)
Definition init_game (state : GameState D) (config : GameConfig D) (g : Rng)
    : GameState D * Rng :=
  let '(r1, g) := rand g in
  let '(r2, g) := rand g in
  let '(r3, g) := rand g in
  let '(r4, g) := rand g in
  let h := d_div (d_of_Z (Z.rem r3 20 - 10)) (d_lit 2) in
  let v := d_of_Z (Z.rem r4 20 - 15) in
  let r := radar state in
  generate_terrain_data
    {| A := d_of_Z (Z.rem r1 200 - 100);
       B := d_of_Z (Z.rem r2 500 + 100);
       vel_h := h; vel_v := v; prev_vel_h := h; prev_vel_v := v;
       C := initial_fuel config; engines_on := 0; time_step := d_lit 1;
       radar := {| active := 0; turns_remaining := 0;
                   terrain_height := terrain_height r;
                   safe_landing_x := safe_landing_x r;
                   safe_landing_score := safe_landing_score r |} |} g.

(** The radar block at the end of a resolved turn (lines 162-168). *)
Definition radar_decay (state : GameState D)
    : GameState D * list (Output D) :=
  let r := radar state in
  if truthy (active r) && (turns_remaining r >? 0) then
    let t := turns_remaining r - 1 in
    if t <=? 0 then
      (set_radar state
         {| active := 0; turns_remaining := t;
            terrain_height := terrain_height r;
            safe_landing_x := safe_landing_x r;
            safe_landing_score := safe_landing_score r |},
       [Message MSG_RADAR_LOST])
    else
      (set_radar state
         {| active := active r; turns_remaining := t;
            terrain_height := terrain_height r;
            safe_landing_x := safe_landing_x r;
            safe_landing_score := safe_landing_score r |}, [])
  else (state, []).

(** void handle_game_turn(GameState* state, GameConfig* config,
                          char command, int* game_over):
    the state and [*game_over] afterwards, and what was printed. *)
Definition handle_game_turn (state : GameState D) (config : GameConfig D)
    (command : ascii) (game_over : Z) : GameState D * Z * list (Output D) :=
  let '(state, command, out0) :=
    if C state <=? 0 then
      (set_engines_on state 0, "X"%char, [Message MSG_NO_FUEL_DRIFT])
    else (state, command, []) in
  if ((command =? "Y")%char || (command =? "Z")%char)
     && negb (truthy (engines_on state)) then
    (state, game_over, out0 ++ [Message MSG_CANNOT_BURN])
  else
    let out1 :=
      if truthy (active (radar state)) && (turns_remaining (radar state) >? 0)
      then Message MSG_RADAR_PREVIOUS :: display_landing_radar state
      else [] in
    let state := update_physics state config command in
    let state :=
      if negb (command =? "X")%char then set_C state (C state - 1)
      else state in
    let '(state, out2) := radar_decay state in
    let out3 := [StatusReport state config] in
    let landing_result := check_landing state in
    let '(game_over, out4) :=
      if negb (landing_result =? 0) then
        if landing_result =? 1 then
          (1, [Message MSG_LANDED; SaveResult state "SUCCESS"])
        else
          (1, [Message MSG_CRASHED; SaveResult state "CRASHED"])
      else if C state <=? 0 then (game_over, [Message MSG_FUEL_DEPLETED])
      else (game_over, []) in
    (state, game_over, out0 ++ out1 ++ out2 ++ out3 ++ out4).

(** The variables of [main] that outlive one pass of its loop, and the
    random generator of the process. *)
Record Session : Type := mkSession {
  config : GameConfig D;
  state : GameState D;
  game_over : Z;
  rng : Rng
}.

(** One pass of the [while (1)] loop of [main] on the character that
    get_command returned.  [None] is the [return 0] of the Q command.
    configure_game is an interactive menu that edits the configuration in
    place: [menu] is the configuration it leaves behind. *)
Definition main_step (menu : GameConfig D -> GameConfig D)
    (command : ascii) (ss : Session) : option Session * list (Output D) :=
  let c := toupper command in
  if truthy (game_over ss)
     && negb (c =? "V")%char && negb (c =? "Q")%char && negb (c =? "C")%char
  then (Some ss, [Message MSG_GAME_OVER])
  else if (c =? "V")%char then
    let '(st, g) := init_game (state ss) (config ss) (rng ss) in
    (Some {| config := config ss; state := st; game_over := 0; rng := g |},
     [Message MSG_NEW_GAME; StatusReport st (config ss)])
  else if (c =? "C")%char then
    (Some {| config := menu (config ss); state := state ss;
             game_over := game_over ss; rng := rng ss |},
     [Message MSG_CONFIG_UPDATED])
  else if (c =? "Q")%char then (None, [Message MSG_GOODBYE])
  else if (c =? "W")%char then
    if truthy (game_over ss) then (Some ss, [])
    else
      (Some {| config := config ss; state := set_engines_on (state ss) 1;
               game_over := game_over ss; rng := rng ss |},
       [Message MSG_ENGINES_ON])
  else if (c =? "S")%char then
    if truthy (game_over ss) then (Some ss, [])
    else
      (Some {| config := config ss; state := set_engines_on (state ss) 0;
               game_over := game_over ss; rng := rng ss |},
       [Message MSG_ENGINES_OFF])
  else if (c =? "R")%char then
    if truthy (game_over ss) then (Some ss, [])
    else if C (state ss) >? 0 then
      let '(st, out) := activate_landing_radar (state ss) in
      let st := set_C st (C st - 1) in
      (Some {| config := config ss; state := st;
               game_over := game_over ss; rng := rng ss |},
       out ++ [StatusReport st (config ss)]
           ++ (if C st <=? 0 then [Message MSG_FUEL_DEPLETED] else []))
    else (Some ss, [Message MSG_RADAR_NO_FUEL])
  else if (c =? "Y")%char || (c =? "Z")%char || (c =? "X")%char then
    if negb (truthy (game_over ss)) then
      let '(st, over, out) :=
        handle_game_turn (state ss) (config ss) c (game_over ss) in
      (Some {| config := config ss; state := st; game_over := over;
               rng := rng ss |}, out)
    else (Some ss, [])
  else (Some ss, [Message MSG_UNKNOWN]).

End Game.

Arguments Session D : clear implicits.

(** What display_status prints beside the two velocities (lines 335-336). *)
Definition vel_h_arrow {D} {ops : DoubleOps D} (state : GameState D) : string :=
  if d_gtb (vel_h state) (d_of_Z 0) then "->" else "<-".

Definition vel_v_arrow {D} {ops : DoubleOps D} (state : GameState D) : string :=
  if d_ltb (vel_v state) (d_of_Z 0) then "v (Down)" else "^ (Up)".

(** The three results of handle_game_turn. *)
Definition turn_state {D} (r : GameState D * Z * list (Output D)) : GameState D :=
  fst (fst r).
Definition turn_game_over {D} (r : GameState D * Z * list (Output D)) : Z :=
  snd (fst r).
Definition turn_output {D} (r : GameState D * Z * list (Output D))
    : list (Output D) := snd r.

(** handle_game_turn leaves through its early return: a burn with fuel left
    and the engines off.  Any other call resolves a full turn. *)
Definition turn_rejected {D} (state : GameState D) (command : ascii) : bool :=
  (C state >? 0)%Z
  && ((command =? "Y")%char || (command =? "Z")%char)
  && negb (truthy (engines_on state)).

(** A resolved turn as the composition of its steps: the forced drift of an
    empty tank, update_physics and the fuel decrement, then the radar block. *)
Definition pre_decay_state {D} {ops : DoubleOps D} (s : GameState D)
    (cfg : GameConfig D) (cmd : ascii) : GameState D :=
  let s1 := if (C s <=? 0)%Z then set_engines_on s 0 else s in
  let cmd1 := if (C s <=? 0)%Z then "X"%char else cmd in
  let s2 := update_physics s1 cfg cmd1 in
  if negb (cmd1 =? "X")%char then set_C s2 (C s2 - 1) else s2.

Definition resolved_state {D} {ops : DoubleOps D} (s : GameState D)
    (cfg : GameConfig D) (cmd : ascii) : GameState D :=
  fst (radar_decay (pre_decay_state s cfg cmd)).

(** How often the signal-loss line occurs in what was printed. *)
Definition is_radar_lost {D} (o : Output D) : bool :=
  match o with
  | Message text => String.eqb text MSG_RADAR_LOST
  | _ => false
  end.

Definition radar_lost_count {D} (out : list (Output D)) : nat :=
  List.length (filter is_radar_lost out).

(** The radar window: an active radar has between 1 and 3 turns left. *)
Definition radar_window_ok {D} (s : GameState D) : Prop :=
  active (radar s) <> 0%Z -> (1 <= turns_remaining (radar s) <= 3)%Z.

(** The session after one command; the Q command ends the program and
    leaves nothing to continue from. *)
Definition next_session {D} {ops : DoubleOps D} {libm : Libm D}
    (menu : GameConfig D -> GameConfig D) (command : ascii) (ss : Session D)
    : option (Session D) :=
  fst (main_step menu command ss).

(** Sessions of one flight: reached from [ss0] by commands other than V,
    the command that starts the next flight. *)
Inductive same_flight {D} {ops : DoubleOps D} {libm : Libm D} (ss0 : Session D)
    : Session D -> Prop :=
| flight_here : same_flight ss0 ss0
| flight_next ss ss' menu command :
    same_flight ss0 ss ->
    toupper command <> "V"%char ->
    next_session menu command ss = Some ss' ->
    same_flight ss0 ss'.

(** Sessions whose state some V command has initialised. *)
Inductive started {D} {ops : DoubleOps D} {libm : Libm D} : Session D -> Prop :=
| started_new ss ss' menu command :
    toupper command = "V"%char ->
    next_session menu command ss = Some ss' ->
    started ss'
| started_next ss ss' menu command :
    started ss ->
    next_session menu command ss = Some ss' ->
    started ss'.

(** The session [main] begins with: the default configuration (with the
    display flag the command line chose), [game_over = 1], and a state that
    has not been written yet. *)
Definition initial_session {D} {ops : DoubleOps D} (delta_v : Z)
    (garbage : GameState D) (g : Rng) : Session D :=
  {| config := {| gravity := d_lit 1.6; engine_force := d_lit 3;
                  initial_fuel := 50; display_delta_v := delta_v |};
     state := garbage; game_over := 1; rng := g |}.

(** The index the Landing Evaluator is described with: the horizontal
    position shifted by 100 and divided by 10, truncated, then clamped to
    the samples 0..20.  (Stated apart from [landing_index], which is the
    code, to be compared with it.) *)
Definition clamped_index (a : Q) : Z :=
  Z.max 0 (Z.min 20 (Q_to_int ((a + 100) / 10))).

(** Reads the operations of [DoubleOps] at the instance [Q_double]. *)
Ltac q_ops :=
  cbv beta iota delta
    [d_of_Z d_lit d_add d_sub d_mul d_div d_abs d_max d_ltb d_leb d_to_int
     d_gtb d_geb Q_double].

(** Leftward motion: the horizontal position [A] decreases.  The visualizer
    draws A = -100 in its leftmost column and A = 100 in its rightmost, and
    display_status marks a positive horizontal velocity with "->". *)
Definition moves_left {D} {ops : DoubleOps D} (s : GameState D) : Prop :=
  d_ltb (vel_h s) (d_of_Z 0) = true.

(** ** Concrete states, to run the functions on *)

(** A radar that is off, over a terrain of 21 integer heights. *)
Definition demo_radar {D} {ops : DoubleOps D} : LandingRadar D :=
  {| active := 0; turns_remaining := 0;
     terrain_height :=
       map d_of_Z [0; 1; 3; 2; 0; -1; -4; -2; 0; 0; 0; 0; 1; 0; -3; -5; -2;
                   0; 2; 4; 1]%Z;
     safe_landing_x := d_of_Z 0; safe_landing_score := d_of_Z 0 |}.

(** The documented scenario: fuel 5, altitude 100, no velocity, engines on,
    under the default gravity and engine force. *)
Definition scenario_config {D} {ops : DoubleOps D} : GameConfig D :=
  {| gravity := d_lit 1.6; engine_force := d_lit 3;
     initial_fuel := 5; display_delta_v := 0 |}.

Definition scenario_state {D} {ops : DoubleOps D} : GameState D :=
  {| A := d_of_Z 0; B := d_of_Z 100;
     vel_h := d_of_Z 0; vel_v := d_of_Z 0;
     prev_vel_h := d_of_Z 0; prev_vel_v := d_of_Z 0;
     C := 5; engines_on := 1; time_step := d_lit 1;
     radar := demo_radar |}.

(** The scenario's state falling at the vertical velocity [v]. *)
Definition descending {D} {ops : DoubleOps D} (v : D) : GameState D :=
  {| A := d_of_Z 0; B := d_of_Z 100;
     vel_h := d_of_Z 0; vel_v := v;
     prev_vel_h := d_of_Z 0; prev_vel_v := v;
     C := 5; engines_on := 1; time_step := d_lit 1;
     radar := demo_radar |}.

(** Binary64 ground that is flat but for a bump of 2^-60 at sample 10. *)
Definition nearly_flat : GameState float :=
  {| A := d_of_Z 0; B := d_of_Z 100;
     vel_h := d_of_Z 0; vel_v := d_of_Z 0;
     prev_vel_h := d_of_Z 0; prev_vel_v := d_of_Z 0;
     C := 5; engines_on := 1; time_step := d_lit 1;
     radar :=
       {| active := 0; turns_remaining := 0;
          terrain_height :=
            map (fun i => if (i =? 10)%Z
                          then d_div (d_of_Z 1) (d_of_Z (2 ^ 60))
                          else d_of_Z 0)
                (for_range 0 21);
          safe_landing_x := d_of_Z 0; safe_landing_score := d_of_Z 0 |} |}.

(** A rational stand-in for sin and cos (their Taylor polynomials of degree
    3 and 2), only to run terrain generation on concrete values; every
    theorem below holds whatever [Libm] provides. *)
Definition poly_libm : Libm Q :=
  {| d_sin := fun x => x - x * x * x / 6;
     d_cos := fun x => 1 - x * x / 2 |}.

(** A fixed sequence of rand() results. *)
Definition demo_rng : Rng := fun n => ((Z.of_nat n * 7919 + 13) mod 32768)%Z.

(** A flight in progress under the scenario's configuration. *)
Definition demo_session (s : GameState Q) : Session Q :=
  {| config := scenario_config; state := s; game_over := 0; rng := demo_rng |}.

(** The lander on the ground at position [a] with the given velocities. *)
Definition grounded (a vh vv : Q) : GameState Q :=
  {| A := a; B := 0; vel_h := vh; vel_v := vv;
     prev_vel_h := vh; prev_vel_v := vv;
     C := 3; engines_on := 0; time_step := 1; radar := demo_radar |}.

(** The session after a list of commands, or [None] once Q was among them. *)
Fixpoint run_commands {D} {ops : DoubleOps D} {libm : Libm D}
    (menu : GameConfig D -> GameConfig D) (commands : list ascii)
    (ss : Session D) : option (Session D) :=
  match commands with
  | [] => Some ss
  | c :: rest =>
      match next_session menu c ss with
      | Some ss' => run_commands menu rest ss'
      | None => None
      end
  end.

(** The scenario's state with the radar switched on one turn ago: active,
    2 turns left. *)
Definition radar_running_state : GameState Q :=
  turn_state
    (handle_game_turn (fst (activate_landing_radar scenario_state))
       scenario_config "X" 0).

(** The scenario with one unit of fuel after the R command: the radar is
    active, with 3 turns left, and the tank is empty. *)
Definition radar_on_empty_tank : Session Q :=
  demo_session
    (set_C (fst (activate_landing_radar (set_C scenario_state 1))) 0).

(** A touchdown in binary64 at A = -75, over the sample of height 3, with
    the horizontal velocity one left burn gives from rest (3.0 * 1.0 * 0.3)
    and no vertical velocity. *)
Definition touchdown_after_burn : GameState float :=
  {| A := d_of_Z (-75); B := d_of_Z 0;
     vel_h := d_mul (d_mul (d_lit 3) (d_lit 1)) (d_lit 0.3);
     vel_v := d_of_Z 0;
     prev_vel_h := d_of_Z 0; prev_vel_v := d_of_Z 0;
     C := 4; engines_on := 1; time_step := d_lit 1;
     radar := demo_radar |}.

(** A first flight: the V command on the session [main] starts with. *)
Definition first_flight : option (Session Q) :=
  next_session (libm := poly_libm) (fun c => c) "v"
    (initial_session 0 scenario_state demo_rng).

(** ** More of handle_game_turn and update_physics *)

(** A turn that fires the engine: a burn command with fuel left and the
    engines on. *)
Definition powered_burn {D} (s : GameState D) (cmd : ascii) : bool :=
  (C s >? 0)%Z
  && ((cmd =? "Y")%char || (cmd =? "Z")%char)
  && truthy (engines_on s).

(** The calls of save_result during a turn, by their label.  (What a call
    writes is up to fopen, lines 405-423: the record, or nothing but an
    error line when the file cannot be opened.) *)
Definition save_result_calls {D} (out : list (Output D)) : list string :=
  flat_map (fun o => match o with
                     | SaveResult _ label => [label]
                     | _ => []
                     end) out.

(** The two numbers display_status prints in Delta V mode (lines 330-331). *)
Definition status_delta_h {D} {ops : DoubleOps D} (s : GameState D) : D :=
  d_sub (vel_h s) (prev_vel_h s).

Definition status_delta_v {D} {ops : DoubleOps D} (s : GameState D) : D :=
  d_sub (vel_v s) (prev_vel_v s).

(** ** The start of the program *)

(** The loop of [main] over argv[1..] (lines 56-65), from the display flag so
    far: [None] is the [return 0] after the help text, [Some flag] the
    value of config.display_delta_v the program goes on with. *)
Fixpoint parse_args (args : list string) (flag : Z) : option Z :=
  match args with
  | [] => Some flag
  | a :: rest =>
      if (a =? "--delta-v")%string || (a =? "-d")%string then
        parse_args rest 1
      else if (a =? "--help")%string || (a =? "-h")%string then None
      else parse_args rest flag
  end.

Definition is_delta_v_flag (a : string) : Prop :=
  a = "--delta-v"%string \/ a = "-d"%string.

Definition is_help_flag (a : string) : Prop :=
  a = "--help"%string \/ a = "-h"%string.

(** rand() returns a value between 0 and RAND_MAX. *)
Definition rng_nonneg (g : Rng) : Prop := forall n, (0 <= g n)%Z.

(** The generator after [k] calls of rand(). *)
Definition rng_skip (k : nat) (g : Rng) : Rng := fun n => g (k + n)%nat.

(** The nine commands of the main loop, upper case. *)
Definition known_command (c : ascii) : bool :=
  existsb (Ascii.eqb c) ["V"; "C"; "Q"; "W"; "S"; "R"; "Y"; "Z"; "X"]%char.

(** Sessions the program can be in: from its first session, with the state
    not yet written, by any commands. *)
Inductive program_reachable {D} {ops : DoubleOps D} {libm : Libm D}
    (delta_v : Z) (garbage : GameState D) (g : Rng) : Session D -> Prop :=
| reach_start : program_reachable delta_v garbage g
                  (initial_session delta_v garbage g)
| reach_step ss ss' menu command :
    program_reachable delta_v garbage g ss ->
    next_session menu command ss = Some ss' ->
    program_reachable delta_v garbage g ss'.

(** What a flight is played on: the terrain, the recommendation and the
    turn duration of [s2] are those of [s1]. *)
Definition same_ground {D} (s1 s2 : GameState D) : Prop :=
  terrain_height (radar s2) = terrain_height (radar s1)
  /\ safe_landing_x (radar s2) = safe_landing_x (radar s1)
  /\ safe_landing_score (radar s2) = safe_landing_score (radar s1)
  /\ time_step s2 = time_step s1.

(** The radar is either off with no turns left or on with 1 to 3. *)
Definition radar_consistent {D} (s : GameState D) : Prop :=
  (active (radar s) = 0%Z /\ turns_remaining (radar s) = 0%Z)
  \/ (active (radar s) = 1%Z /\ (1 <= turns_remaining (radar s) <= 3)%Z).

(** What holds of the state of every flight, whatever the arithmetic. *)
Definition flight_ok {D} {ops : DoubleOps D} (s : GameState D) : Prop :=
  List.length (terrain_height (radar s)) = 21%nat
  /\ (engines_on s = 0%Z \/ engines_on s = 1%Z)
  /\ radar_consistent s
  /\ time_step s = d_lit 1.

(** ** display_visualizer (lines 257-318) *)

(** What display_visualizer uses beyond [DoubleOps]: floor, ceil and round
    of <math.h>, each followed by the conversion to [int]. *)
Class DoubleRound (D : Type) : Type := {
  d_floor : D -> Z;           (* (int)floor(x) *)
  d_ceil : D -> Z;            (* (int)ceil(x) *)
  d_round : D -> Z            (* (int)round(x): halves away from zero *)
}.

(** round() on a rational: the nearest integer, halves away from zero.
    floor() and ceil() are [Qfloor] and [Qceiling]. *)
Definition Q_round (q : Q) : Z :=
  if Qle_bool 0 q then Qfloor (q + (1 # 2))
  else (- Qfloor (- q + (1 # 2)))%Z.

#[export] Instance Q_rounding : DoubleRound Q := {|
  d_floor := Qfloor;
  d_ceil := Qceiling;
  d_round := Q_round
|}.

#[export] Instance B64_rounding : DoubleRound float := {|
  d_floor := B64.floor_int;
  d_ceil := B64.ceil_int;
  d_round := B64.round_int
|}.

(** Reads the rounding operations at the instance [Q_rounding]. *)
Ltac q_round_ops :=
  cbv beta iota delta [d_floor d_ceil d_round Q_rounding].

Definition VIS_WIDTH : Z := 61.
Definition VIS_HEIGHT : Z := 16.

(** char canvas[VIS_HEIGHT][VIS_WIDTH + 1]: the rows, top first, each with
    its VIS_WIDTH characters (the terminating NUL of each row is left
    out). *)
Definition Canvas : Type := list (list ascii).

Definition blank_canvas : Canvas :=
  repeat (repeat " "%char (Z.to_nat VIS_WIDTH)) (Z.to_nat VIS_HEIGHT).

Fixpoint list_set {T : Type} (l : list T) (n : nat) (v : T) : list T :=
  match l, n with
  | [], _ => []
  | _ :: t, O => v :: t
  | h :: t, S n' => h :: list_set t n' v
  end.

(** canvas[y][x], read and written.  The program only uses rows 0..15 and
    columns 0..60, which its [if]s and loop bounds make sure of. *)
Definition get_cell (canvas : Canvas) (y x : Z) : ascii :=
  nth (Z.to_nat x) (nth (Z.to_nat y) canvas []) " "%char.

Definition set_cell (canvas : Canvas) (y x : Z) (c : ascii) : Canvas :=
  list_set canvas (Z.to_nat y)
    (list_set (nth (Z.to_nat y) canvas []) (Z.to_nat x) c).

Section Visualizer.

Context {D : Type} {ops : DoubleOps D} {rnd : DoubleRound D}.

Definition WORLD_X_MIN : D := d_lit (-100).
Definition WORLD_X_MAX : D := d_lit 100.

(** The vertical window: (world_view_height_m, world_y_min). *)
Definition view_window (state : GameState D) : D * D :=
  if d_ltb (B state) (d_lit 60) then (d_lit 40, d_lit (-15))
  else
    let world_view_height_m := d_lit 150 in
    let world_y_max := d_add (B state) (d_lit 30) in
    (world_view_height_m, d_sub world_y_max world_view_height_m).

(** The row a world height is drawn in. *)
Definition canvas_row (window : D * D) (height : D) : Z :=
  let '(world_view_height_m, world_y_min) := window in
  ((VIS_HEIGHT - 1)
   - d_round (d_mul (d_div (d_sub height world_y_min) world_view_height_m)
                    (d_of_Z (VIS_HEIGHT - 1))))%Z.

(** The interpolated terrain height of screen column [x]. *)
Definition column_height (state : GameState D) (x : Z) : D :=
  let world_x :=
    d_add WORLD_X_MIN
      (d_mul (d_div (d_of_Z x) (d_of_Z (VIS_WIDTH - 1)))
             (d_sub WORLD_X_MAX WORLD_X_MIN)) in
  let pos_in_array := d_div (d_sub world_x WORLD_X_MIN) (d_lit 10) in
  let index1 := Z.max 0 (Z.min 20 (d_floor pos_in_array)) in
  let index2 := Z.max 0 (Z.min 20 (d_ceil pos_in_array)) in
  if (index1 =? index2)%Z then terrain_at state index1
  else d_add (terrain_at state index1)
         (d_mul (d_sub (terrain_at state index2) (terrain_at state index1))
                (d_sub pos_in_array (d_of_Z index1))).

(** One pass of the loop over the columns, on the canvas and
    prev_terrain_h. *)
Definition draw_column (state : GameState D) (acc : Canvas * D) (x : Z)
    : Canvas * D :=
  let '(canvas, prev_terrain_h) := acc in
  let terrain_h := column_height state x in
  let canvas_y := canvas_row (view_window state) terrain_h in
  if ((canvas_y >=? 0) && (canvas_y <? VIS_HEIGHT))%Z then
    let terrain_char := "_"%char in
    let terrain_char :=
      if (x >? 0)%Z && d_gtb terrain_h (d_add prev_terrain_h (d_lit 0.5))
      then "/"%char else terrain_char in
    let terrain_char :=
      if (x >? 0)%Z && d_ltb terrain_h (d_sub prev_terrain_h (d_lit 0.5))
      then "\"%char else terrain_char in
    let canvas := set_cell canvas canvas_y x terrain_char in
    let canvas :=
      fold_left (fun cv fill_y => set_cell cv fill_y x "#"%char)
        (for_range (canvas_y + 1) (Z.to_nat (VIS_HEIGHT - (canvas_y + 1))))
        canvas in
    (canvas, terrain_h)
  else (canvas, prev_terrain_h).

(** The canvas after the terrain loop. *)
Definition terrain_canvas (state : GameState D) : Canvas :=
  fst (fold_left (draw_column state) (for_range 0 (Z.to_nat VIS_WIDTH))
         (blank_canvas, d_lit 0)).

Definition lander_x (state : GameState D) : Z :=
  d_round (d_mul (d_div (d_sub (A state) WORLD_X_MIN)
                        (d_sub WORLD_X_MAX WORLD_X_MIN))
                 (d_of_Z (VIS_WIDTH - 1))).

Definition lander_y (state : GameState D) : Z :=
  canvas_row (view_window state) (B state).

(** The two overlays: the lander 'A' and, with the engines on, the exhaust
    '*' below it, each only on a blank cell. *)
Definition draw_lander (state : GameState D) (canvas : Canvas) : Canvas :=
  let lx := lander_x state in
  let ly := lander_y state in
  if ((ly >=? 0) && (ly <? VIS_HEIGHT) && (lx >=? 0) && (lx <? VIS_WIDTH))%Z
  then
    let canvas :=
      if (get_cell canvas ly lx =? " ")%char
      then set_cell canvas ly lx "A"%char else canvas in
    if truthy (engines_on state) && (ly <? VIS_HEIGHT - 1)%Z
       && (get_cell canvas (ly + 1) lx =? " ")%char
    then set_cell canvas (ly + 1) lx "*"%char else canvas
  else canvas.

(** The canvas display_visualizer prints. *)
Definition visualizer_canvas (state : GameState D) : Canvas :=
  draw_lander state (terrain_canvas state).

(** The altitude printed beside row [i]. *)
Definition row_altitude (state : GameState D) (i : Z) : D :=
  let '(world_view_height_m, world_y_min) := view_window state in
  d_sub (d_add world_y_min world_view_height_m)
        (d_mul (d_div (d_of_Z i) (d_of_Z (VIS_HEIGHT - 1)))
               world_view_height_m).

(** void display_visualizer(GameState* state): the 16 rows between the two
    frame lines, each with its altitude. *)
Definition display_visualizer (state : GameState D) : list (string * D) :=
  let canvas := visualizer_canvas state in
  map (fun i => (string_of_list_ascii (nth (Z.to_nat i) canvas []),
                 row_altitude state i))
      (for_range 0 (Z.to_nat VIS_HEIGHT)).

(** The row of the terrain surface in screen column [x]. *)
Definition surface_row (state : GameState D) (x : Z) : Z :=
  canvas_row (view_window state) (column_height state x).

(** The test guarding the two overlays. *)
Definition lander_on_canvas (state : GameState D) : bool :=
  ((lander_y state >=? 0) && (lander_y state <? VIS_HEIGHT)
   && (lander_x state >=? 0) && (lander_x state <? VIS_WIDTH))%Z.

End Visualizer.

(** A canvas of the right size: 16 rows of 61 characters. *)
Definition canvas_shape (canvas : Canvas) : Prop :=
  List.length canvas = Z.to_nat VIS_HEIGHT
  /\ Forall (fun row => List.length row = Z.to_nat VIS_WIDTH) canvas.

(** The seven characters the visualizer draws with. *)
Definition glyph (c : ascii) : Prop :=
  In c [" "; "_"; "/"; "\"; "#"; "A"; "*"]%char.

Definition surface_glyph (c : ascii) : Prop :=
  c = "_"%char \/ c = "/"%char \/ c = "\"%char.

(** What a cell without terrain can hold. *)
Definition overlay_glyph (c : ascii) : Prop :=
  c = " "%char \/ c = "A"%char \/ c = "*"%char.

(** How a finished column of the terrain canvas looks: with the surface
    row on the canvas, blank above it, a surface glyph in it and '#' below;
    with the surface row off the canvas, blank throughout. *)
Definition column_drawn {D} {ops : DoubleOps D} {rnd : DoubleRound D}
    (state : GameState D) (canvas : Canvas) (x : Z) : Prop :=
  let cy := surface_row state x in
  if ((cy >=? 0) && (cy <? VIS_HEIGHT))%Z then
    (forall y, (0 <= y < cy)%Z -> get_cell canvas y x = " "%char)
    /\ surface_glyph (get_cell canvas cy x)
    /\ (forall y, (cy < y < VIS_HEIGHT)%Z -> get_cell canvas y x = "#"%char)
  else forall y, (0 <= y < VIS_HEIGHT)%Z -> get_cell canvas y x = " "%char.

(** The lander at position [a] and altitude [b] over the sample terrain,
    at rest with the engines on. *)
Definition hovering (a b : Q) : GameState Q :=
  {| A := a; B := b; vel_h := 0; vel_v := 0;
     prev_vel_h := 0; prev_vel_v := 0;
     C := 3; engines_on := 1; time_step := 1; radar := demo_radar |}.

(** The same in binary64, at integer coordinates. *)
Definition hovering64 (a b : Z) : GameState float :=
  {| A := d_of_Z a; B := d_of_Z b; vel_h := d_of_Z 0; vel_v := d_of_Z 0;
     prev_vel_h := d_of_Z 0; prev_vel_v := d_of_Z 0;
     C := 3; engines_on := 1; time_step := d_lit 1; radar := demo_radar |}.

Unset Implicit Arguments.

(** ** Control-flow properties, for every arithmetic *)

Section ControlFlow.

Context {D : Type} {ops : DoubleOps D} {libm : Libm D}.

Local Open Scope Z_scope.

Lemma truthy_0 : truthy 0 = false.
Proof. reflexivity. Qed.

Lemma truthy_false z : truthy z = false <-> z = 0.
Proof.
  unfold truthy. rewrite negb_false_iff. apply Z.eqb_eq.
Qed.

Lemma truthy_true z : truthy z = true <-> z <> 0.
Proof.
  unfold truthy. rewrite negb_true_iff. apply Z.eqb_neq.
Qed.

Lemma update_physics_frame (s : GameState D) cfg cmd :
  C (update_physics s cfg cmd) = C s
  /\ engines_on (update_physics s cfg cmd) = engines_on s
  /\ radar (update_physics s cfg cmd) = radar s
  /\ time_step (update_physics s cfg cmd) = time_step s.
Proof.
  unfold update_physics.
  destruct (truthy (engines_on s)), (cmd =? "Y")%char, (cmd =? "Z")%char;
    cbn; auto.
Qed.

Lemma radar_decay_frame (s : GameState D) :
  C (fst (radar_decay s)) = C s
  /\ engines_on (fst (radar_decay s)) = engines_on s
  /\ vel_h (fst (radar_decay s)) = vel_h s
  /\ vel_v (fst (radar_decay s)) = vel_v s.
Proof.
  unfold radar_decay.
  destruct (truthy (active (radar s)) && (turns_remaining (radar s) >? 0));
    [destruct (turns_remaining (radar s) - 1 <=? 0)|]; cbn; auto.
Qed.

Lemma handle_game_turn_rejected (s : GameState D) cfg cmd over :
  turn_rejected s cmd = true ->
  handle_game_turn s cfg cmd over = (s, over, [Message MSG_CANNOT_BURN]).
Proof.
  unfold turn_rejected, handle_game_turn. intros H.
  apply andb_true_iff in H as [H Heng].
  apply andb_true_iff in H as [Hfuel Hcmd].
  assert (Hle : (C s <=? 0) = false) by (apply Z.leb_gt; lia).
  rewrite Hle, Hcmd, Heng. reflexivity.
Qed.

Lemma handle_game_turn_resolved (s : GameState D) cfg cmd over :
  turn_rejected s cmd = false ->
  turn_state (handle_game_turn s cfg cmd over) = resolved_state s cfg cmd.
Proof.
  unfold turn_rejected, handle_game_turn, resolved_state, pre_decay_state,
    turn_state.
  intros H. destruct (C s <=? 0) eqn:Hle.
  - cbn [andb orb negb Ascii.eqb].
    change (("X" =? "Y")%char) with false.
    change (("X" =? "Z")%char) with false.
    change (("X" =? "X")%char) with true. cbn [orb andb negb].
    destruct (radar_decay _) as [s3 o3].
    destruct (check_landing s3 =? 0), (check_landing s3 =? 1), (C s3 <=? 0);
      reflexivity.
  - assert (Hgt : (C s >? 0) = true) by (apply Z.leb_gt in Hle; lia).
    rewrite Hgt in H. cbn [andb] in H. rewrite H.
    destruct (radar_decay _) as [s3 o3].
    destruct (check_landing s3 =? 0), (check_landing s3 =? 1), (C s3 <=? 0);
      reflexivity.
Qed.

Lemma main_step_turn menu (command : ascii) (ss : Session D) :
  (toupper command = "Y" \/ toupper command = "Z" \/ toupper command = "X")%char ->
  game_over ss = 0 ->
  main_step menu command ss =
  (Some {| config := config ss;
           state := turn_state (handle_game_turn (state ss) (config ss)
                                  (toupper command) (game_over ss));
           game_over := turn_game_over (handle_game_turn (state ss) (config ss)
                                  (toupper command) (game_over ss));
           rng := rng ss |},
   turn_output (handle_game_turn (state ss) (config ss)
                                  (toupper command) (game_over ss))).
Proof.
  intros Hc Hover. unfold main_step. rewrite Hover.
  destruct Hc as [Hc | [Hc | Hc]]; rewrite Hc; cbn -[handle_game_turn];
    destruct (handle_game_turn (state ss) (config ss) _ 0) as [[st over] out];
    reflexivity.
Qed.

Lemma main_step_radar_fuel menu (command : ascii) (ss : Session D) :
  toupper command = "R"%char ->
  game_over ss = 0 ->
  0 < C (state ss) ->
  exists out,
    main_step menu command ss =
    (Some {| config := config ss;
             state := set_C (fst (activate_landing_radar (state ss)))
                            (C (state ss) - 1);
             game_over := game_over ss; rng := rng ss |}, out)
    /\ ~ In (Message MSG_RADAR_NO_FUEL) out.
Proof.
  intros Hc Hover Hfuel. unfold main_step. rewrite Hc, Hover. cbn.
  assert (Hgt : (C (state ss) >? 0) = true) by lia.
  rewrite Hgt. eexists. split; [reflexivity|].
  intros Hin. cbn in Hin.
  destruct (C (state ss) - 1 <=? 0); cbn in Hin;
    repeat (destruct Hin as [Hin | Hin]; [discriminate Hin|]); exact Hin.
Qed.

(** C7.  With fuel left and the engines off, a burn command (Y or Z, in
    either case) is turned away before anything happens: handle_game_turn
    takes its early return, and after the pass of the main loop the whole
    session - state, fuel, radar, game_over - is the one before.  The only
    effect is the line that says the engines are off. *)
Theorem burn_with_engines_off_is_rejected menu (command : ascii)
    (ss : Session D) :
  (toupper command = "Y" \/ toupper command = "Z")%char ->
  game_over ss = 0 ->
  0 < C (state ss) ->
  engines_on (state ss) = 0 ->
  handle_game_turn (state ss) (config ss) (toupper command) (game_over ss)
  = (state ss, game_over ss, [Message MSG_CANNOT_BURN])
  /\ main_step menu command ss = (Some ss, [Message MSG_CANNOT_BURN]).
Proof.
  intros Hc Hover Hfuel Heng.
  assert (Hrej : turn_rejected (state ss) (toupper command) = true).
  { unfold turn_rejected. rewrite Heng.
    assert (Hgt : (C (state ss) >? 0) = true) by lia. rewrite Hgt.
    destruct Hc as [Hc | Hc]; rewrite Hc; reflexivity. }
  assert (Hturn := handle_game_turn_rejected _ (config ss) _ (game_over ss) Hrej).
  split; [exact Hturn|].
  rewrite main_step_turn by tauto.
  rewrite Hturn. destruct ss; reflexivity.
Qed.

(** C8.  With the engines off the integrator leaves the horizontal velocity
    and the fuel alone whatever the command, and takes gravity times the
    turn duration off the vertical velocity.  A resolved drift turn (command
    X) keeps all three facts, at any altitude and any fuel level. *)
Theorem drift_with_engines_off (s : GameState D) (cfg : GameConfig D)
    (cmd : ascii) (over : Z) :
  engines_on s = 0 ->
  (vel_h (update_physics s cfg cmd) = vel_h s
   /\ C (update_physics s cfg cmd) = C s
   /\ vel_v (update_physics s cfg cmd)
      = d_sub (vel_v s) (d_mul (gravity cfg) (time_step s)))
  /\ (vel_h (turn_state (handle_game_turn s cfg "X" over)) = vel_h s
      /\ C (turn_state (handle_game_turn s cfg "X" over)) = C s
      /\ vel_v (turn_state (handle_game_turn s cfg "X" over))
         = d_sub (vel_v s) (d_mul (gravity cfg) (time_step s))).
Proof.
  intros Heng.
  assert (Hphys : forall c,
    vel_h (update_physics s cfg c) = vel_h s
    /\ C (update_physics s cfg c) = C s
    /\ vel_v (update_physics s cfg c)
       = d_sub (vel_v s) (d_mul (gravity cfg) (time_step s))).
  { intros c. unfold update_physics. rewrite Heng. cbn. auto. }
  split; [apply Hphys|].
  rewrite handle_game_turn_resolved
    by (unfold turn_rejected; cbn; rewrite andb_false_r; reflexivity).
  unfold resolved_state, pre_decay_state.
  assert (Hs1 : update_physics (if C s <=? 0 then set_engines_on s 0 else s)
                  cfg "X" = update_physics s cfg "X").
  { destruct (C s <=? 0); [|reflexivity].
    unfold update_physics, set_engines_on. cbn. rewrite Heng. reflexivity. }
  assert (Hx : (if C s <=? 0 then "X"%char else "X"%char) = "X"%char)
    by (destruct (C s <=? 0); reflexivity).
  rewrite Hx, Hs1.
  change (("X" =? "X")%char) with true. cbn [negb].
  destruct (radar_decay_frame (update_physics s cfg "X"))
    as (HC & _ & Hh & Hv).
  destruct (Hphys "X"%char) as (Hh' & HC' & Hv').
  rewrite Hh, HC, Hv. auto.
Qed.

(** What one pass of the main loop can do to the state. *)
Lemma next_session_cases menu (command : ascii) (ss ss' : Session D) :
  next_session menu command ss = Some ss' ->
  state ss' = state ss
  \/ (toupper command = "V"%char
      /\ state ss' = fst (init_game (state ss) (config ss) (rng ss)))
  \/ (exists v, state ss' = set_engines_on (state ss) v)
  \/ (toupper command = "R"%char /\ game_over ss = 0 /\ 0 < C (state ss)
      /\ state ss' = set_C (fst (activate_landing_radar (state ss)))
                           (C (state ss) - 1))
  \/ (game_over ss = 0
      /\ state ss' = turn_state (handle_game_turn (state ss) (config ss)
                                   (toupper command) (game_over ss))).
Proof.
  unfold next_session, main_step.
  destruct (truthy (game_over ss)) eqn:Hover; cbn [andb negb].
  - destruct ((toupper command =? "V")%char) eqn:HV; cbn [andb negb].
    + destruct (init_game _ _ _) as [st g] eqn:Hinit. cbn.
      intros [= <-]. right; left. cbn. split; [now apply Ascii.eqb_eq|].
      reflexivity.
    + destruct ((toupper command =? "Q")%char) eqn:HQ; cbn [andb negb].
      * destruct ((toupper command =? "C")%char); cbn; [|discriminate].
        intros [= <-]. now left.
      * destruct ((toupper command =? "C")%char); cbn;
          intros [= <-]; now left.
  - apply truthy_false in Hover.
    destruct ((toupper command =? "V")%char) eqn:HV.
    { destruct (init_game _ _ _) as [st g] eqn:Hinit. cbn.
      intros [= <-]. right; left. cbn. split; [now apply Ascii.eqb_eq|].
      reflexivity. }
    destruct ((toupper command =? "C")%char).
    { cbn. intros [= <-]. now left. }
    destruct ((toupper command =? "Q")%char); [discriminate|].
    destruct ((toupper command =? "W")%char).
    { cbn. intros [= <-]. right; right; left. now exists 1. }
    destruct ((toupper command =? "S")%char).
    { cbn. intros [= <-]. right; right; left. now exists 0. }
    destruct ((toupper command =? "R")%char) eqn:HR.
    { apply Ascii.eqb_eq in HR.
      destruct (C (state ss) >? 0) eqn:Hfuel.
      - cbn. intros [= <-]. right; right; right; left. cbn.
        repeat split; auto; lia.
      - cbn. intros [= <-]. now left. }
    destruct ((toupper command =? "Y")%char || (toupper command =? "Z")%char
              || (toupper command =? "X")%char).
    + cbn [negb]. destruct (handle_game_turn _ _ _ _) as [[st over] out].
      cbn. intros [= <-]. right; right; right; right. cbn. auto.
    + cbn. intros [= <-]. now left.
Qed.

Lemma pre_decay_state_radar (s : GameState D) cfg cmd :
  radar (pre_decay_state s cfg cmd) = radar s.
Proof.
  unfold pre_decay_state.
  destruct (C s <=? 0);
    match goal with
    | |- context [negb ?b] => destruct b
    end; cbn [negb set_C radar];
    match goal with
    | |- context [update_physics ?a ?b ?c] =>
        destruct (update_physics_frame a b c) as (_ & _ & -> & _)
    end; reflexivity.
Qed.

Lemma pre_decay_state_fuel (s : GameState D) cfg cmd :
  (C s <= 0 -> C (pre_decay_state s cfg cmd) = C s)
  /\ (0 < C s ->
      C (pre_decay_state s cfg cmd) = C s
      \/ C (pre_decay_state s cfg cmd) = C s - 1).
Proof.
  unfold pre_decay_state. split; intros Hfuel.
  - assert (Hle : (C s <=? 0) = true) by lia. rewrite Hle.
    change (("X" =? "X")%char) with true. cbn [negb].
    destruct (update_physics_frame (set_engines_on s 0) cfg "X") as (-> & _).
    reflexivity.
  - assert (Hle : (C s <=? 0) = false) by lia. rewrite Hle.
    destruct (update_physics_frame s cfg cmd) as (HC & _).
    destruct ((cmd =? "X")%char); cbn [negb set_C C]; rewrite HC; auto.
Qed.

(** The radar block, case by case. *)
Lemma radar_decay_cases (s : GameState D) :
  (active (radar s) = 0 -> radar_decay s = (s, []))
  /\ (active (radar s) <> 0 -> turns_remaining (radar s) = 1 ->
      active (radar (fst (radar_decay s))) = 0
      /\ turns_remaining (radar (fst (radar_decay s))) = 0
      /\ snd (radar_decay s) = [Message MSG_RADAR_LOST])
  /\ (active (radar s) <> 0 -> 1 < turns_remaining (radar s) ->
      active (radar (fst (radar_decay s))) = active (radar s)
      /\ turns_remaining (radar (fst (radar_decay s)))
         = turns_remaining (radar s) - 1
      /\ snd (radar_decay s) = []).
Proof.
  unfold radar_decay. repeat split.
  - intros ->. reflexivity.
  - apply truthy_true in H. rewrite H, H0. reflexivity.
  - apply truthy_true in H. rewrite H, H0. reflexivity.
  - apply truthy_true in H. rewrite H, H0. reflexivity.
  - apply truthy_true in H. rewrite H.
    assert (H1 : (turns_remaining (radar s) >? 0) = true) by lia.
    assert (H2 : (turns_remaining (radar s) - 1 <=? 0) = false) by lia.
    rewrite H1, H2. reflexivity.
  - apply truthy_true in H. rewrite H.
    assert (H1 : (turns_remaining (radar s) >? 0) = true) by lia.
    assert (H2 : (turns_remaining (radar s) - 1 <=? 0) = false) by lia.
    rewrite H1, H2. reflexivity.
  - apply truthy_true in H. rewrite H.
    assert (H1 : (turns_remaining (radar s) >? 0) = true) by lia.
    assert (H2 : (turns_remaining (radar s) - 1 <=? 0) = false) by lia.
    rewrite H1, H2. reflexivity.
Qed.

Lemma radar_decay_window (s : GameState D) :
  radar_window_ok s -> radar_window_ok (fst (radar_decay s)).
Proof.
  unfold radar_window_ok. intros Hok.
  destruct (radar_decay_cases s) as (Hoff & Hlast & Hmore).
  destruct (Z.eq_dec (active (radar s)) 0) as [H0 | H0].
  - rewrite (Hoff H0). cbn. exact Hok.
  - specialize (Hok H0).
    destruct (Z.eq_dec (turns_remaining (radar s)) 1) as [H1 | H1].
    + destruct (Hlast H0 H1) as (-> & _). intros Hne. now elim Hne.
    + destruct (Hmore H0 ltac:(lia)) as (_ & -> & _). lia.
Qed.

Lemma radar_lost_count_app (l1 l2 : list (Output D)) :
  radar_lost_count (l1 ++ l2) = (radar_lost_count l1 + radar_lost_count l2)%nat.
Proof.
  unfold radar_lost_count. rewrite filter_app, length_app. reflexivity.
Qed.

(** Of everything a resolved turn prints, only the radar block can hold the
    signal-loss line. *)
Lemma turn_output_radar_lost (s : GameState D) cfg cmd over :
  turn_rejected s cmd = false ->
  radar_lost_count (turn_output (handle_game_turn s cfg cmd over))
  = radar_lost_count (snd (radar_decay (pre_decay_state s cfg cmd))).
Proof.
  unfold turn_rejected, handle_game_turn, pre_decay_state, turn_output.
  intros H. destruct (C s <=? 0) eqn:Hle.
  - change (("X" =? "Y")%char) with false.
    change (("X" =? "Z")%char) with false.
    change (("X" =? "X")%char) with true. cbn [orb andb negb].
    destruct (radar_decay _) as [s3 o3]. cbn [snd].
    destruct (truthy (active (radar (set_engines_on s 0)))
              && (turns_remaining (radar (set_engines_on s 0)) >? 0));
      unfold display_landing_radar;
      destruct (truthy (active (radar (set_engines_on s 0))));
      destruct (check_landing s3 =? 0), (check_landing s3 =? 1),
               (C s3 <=? 0);
      cbn [negb snd]; rewrite ?radar_lost_count_app;
      unfold radar_lost_count; cbn; lia.
  - assert (Hgt : (C s >? 0) = true) by (apply Z.leb_gt in Hle; lia).
    rewrite Hgt in H. cbn [andb] in H. rewrite H.
    destruct (radar_decay _) as [s3 o3]. cbn [snd].
    destruct (truthy (active (radar s)) && (turns_remaining (radar s) >? 0));
      unfold display_landing_radar;
      destruct (truthy (active (radar s)));
      destruct (check_landing s3 =? 0), (check_landing s3 =? 1),
               (C s3 <=? 0);
      cbn [negb snd]; rewrite ?radar_lost_count_app;
      unfold radar_lost_count; cbn; lia.
Qed.

Lemma activate_landing_radar_state (s : GameState D) :
  active (radar (fst (activate_landing_radar s))) = 1
  /\ turns_remaining (radar (fst (activate_landing_radar s))) = 3
  /\ C (fst (activate_landing_radar s)) = C s.
Proof. cbn. auto. Qed.

(** C5, as the code has it.  The R command during a flight.  With fuel 0
    it is refused: the program prints that no fuel is left and the whole
    session stays exactly as it was, so the radar stays as it was, inactive
    if it was inactive and active, with the turns it had left, if it had
    been switched on with the last unit of fuel.  With fuel 1 or more the
    command takes exactly one unit of fuel, sets the radar active and its
    remaining turns to 3. *)
Theorem radar_activation_costs_one_fuel menu (command : ascii)
    (ss : Session D) :
  toupper command = "R"%char ->
  game_over ss = 0 ->
  (C (state ss) = 0 ->
   main_step menu command ss = (Some ss, [Message MSG_RADAR_NO_FUEL])
   /\ forall ss', next_session menu command ss = Some ss' ->
        ss' = ss
        /\ active (radar (state ss')) = active (radar (state ss))
        /\ turns_remaining (radar (state ss'))
           = turns_remaining (radar (state ss)))
  /\ (1 <= C (state ss) ->
      exists ss' out,
        main_step menu command ss = (Some ss', out)
        /\ C (state ss') = C (state ss) - 1
        /\ active (radar (state ss')) = 1
        /\ turns_remaining (radar (state ss')) = 3).
Proof.
  intros Hc Hover. split.
  - intros Hfuel.
    assert (Hstep : main_step menu command ss
                    = (Some ss, [Message MSG_RADAR_NO_FUEL])).
    { unfold main_step. rewrite Hc, Hover, Hfuel. reflexivity. }
    split; [exact Hstep|].
    intros ss' Hnext. unfold next_session in Hnext.
    rewrite Hstep in Hnext. injection Hnext as <-. auto.
  - intros Hfuel.
    destruct (main_step_radar_fuel menu command ss Hc Hover ltac:(lia))
      as (out & Hstep & _).
    eexists; exists out. split; [exact Hstep|]. cbn. auto.
Qed.

(** C10.  The R command while the radar is already active, with fuel left:
    it is not refused, it takes one more unit of fuel, and the remaining
    turns are 3 afterwards whatever they were before. *)
Theorem radar_reactivation_rewinds_window menu (command : ascii)
    (ss : Session D) :
  toupper command = "R"%char ->
  game_over ss = 0 ->
  active (radar (state ss)) <> 0 ->
  1 <= C (state ss) ->
  exists ss' out,
    main_step menu command ss = (Some ss', out)
    /\ ~ In (Message MSG_RADAR_NO_FUEL) out
    /\ C (state ss') = C (state ss) - 1
    /\ active (radar (state ss')) = 1
    /\ turns_remaining (radar (state ss')) = 3.
Proof.
  intros Hc Hover _ Hfuel.
  destruct (main_step_radar_fuel menu command ss Hc Hover ltac:(lia))
    as (out & Hstep & Hout).
  eexists; exists out. split; [exact Hstep|]. cbn. auto.
Qed.

Lemma generate_terrain_data_frame (s : GameState D) (g : Rng) :
  active (radar (fst (generate_terrain_data s g))) = active (radar s)
  /\ turns_remaining (radar (fst (generate_terrain_data s g)))
     = turns_remaining (radar s)
  /\ C (fst (generate_terrain_data s g)) = C s
  /\ engines_on (fst (generate_terrain_data s g)) = engines_on s.
Proof.
  unfold generate_terrain_data.
  destruct (terrain_loop 21 0 g) as [hs g'].
  destruct (best_landing _) as [bs bx]. cbn. auto.
Qed.

Lemma init_game_state (s : GameState D) cfg (g : Rng) :
  active (radar (fst (init_game s cfg g))) = 0
  /\ turns_remaining (radar (fst (init_game s cfg g))) = 0
  /\ C (fst (init_game s cfg g)) = initial_fuel cfg
  /\ engines_on (fst (init_game s cfg g)) = 0.
Proof.
  unfold init_game. cbn [rand].
  match goal with
  | |- context [generate_terrain_data ?a ?b] =>
      destruct (generate_terrain_data_frame a b) as (-> & -> & -> & ->)
  end.
  cbn. auto.
Qed.

Lemma next_session_new_game menu (command : ascii) (ss ss' : Session D) :
  toupper command = "V"%char ->
  next_session menu command ss = Some ss' ->
  state ss' = fst (init_game (state ss) (config ss) (rng ss))
  /\ config ss' = config ss /\ game_over ss' = 0.
Proof.
  intros HV. unfold next_session, main_step. rewrite HV.
  change (("V" =? "V")%char) with true. cbn [negb andb].
  rewrite andb_false_r. cbn [andb].
  destruct (init_game _ _ _) as [st g]. cbn. intros [= <-]. cbn. auto.
Qed.

Lemma next_session_window menu (command : ascii) (ss ss' : Session D) :
  next_session menu command ss = Some ss' ->
  toupper command = "V"%char \/ radar_window_ok (state ss) ->
  radar_window_ok (state ss').
Proof.
  intros Hstep [HV | Hok].
  { destruct (next_session_new_game menu command ss ss' HV Hstep) as (-> & _).
    unfold radar_window_ok.
    destruct (init_game_state (state ss) (config ss) (rng ss)) as (-> & _).
    intros Hact. now elim Hact. }
  destruct (next_session_cases menu command ss ss' Hstep)
    as [Hs | [(HV & Hs) | [(v & Hs) | [(_ & _ & _ & Hs) | (Hover & Hs)]]]];
    rewrite Hs.
  - exact Hok.
  - unfold radar_window_ok.
    destruct (init_game_state (state ss) (config ss) (rng ss)) as (-> & _).
    intros Hact. now elim Hact.
  - exact Hok.
  - unfold radar_window_ok. cbn. lia.
  - destruct (turn_rejected (state ss) (toupper command)) eqn:Hrej.
    + rewrite handle_game_turn_rejected by exact Hrej. exact Hok.
    + rewrite handle_game_turn_resolved by exact Hrej.
      unfold resolved_state. apply radar_decay_window.
      unfold radar_window_ok. rewrite pre_decay_state_radar. exact Hok.
Qed.

Lemma started_window (ss : Session D) :
  started ss -> radar_window_ok (state ss).
Proof.
  induction 1 as [ss ss' menu command HV Hstep
                 | ss ss' menu command _ IH Hstep].
  - apply (next_session_window menu command ss ss' Hstep). now left.
  - apply (next_session_window menu command ss ss' Hstep). now right.
Qed.

(** The radar after a resolved turn, and the signal-loss lines printed. *)
Lemma resolved_turn_radar (s : GameState D) cfg cmd over :
  turn_rejected s cmd = false ->
  let r := handle_game_turn s cfg cmd over in
  (active (radar s) = 0 ->
   radar (turn_state r) = radar s /\ radar_lost_count (turn_output r) = 0%nat)
  /\ (active (radar s) <> 0 -> turns_remaining (radar s) = 1 ->
      active (radar (turn_state r)) = 0
      /\ turns_remaining (radar (turn_state r)) = 0
      /\ radar_lost_count (turn_output r) = 1%nat)
  /\ (active (radar s) <> 0 -> 1 < turns_remaining (radar s) ->
      active (radar (turn_state r)) = active (radar s)
      /\ turns_remaining (radar (turn_state r)) = turns_remaining (radar s) - 1
      /\ radar_lost_count (turn_output r) = 0%nat).
Proof.
  intros Hres r. subst r.
  rewrite (turn_output_radar_lost s cfg cmd over Hres).
  rewrite (handle_game_turn_resolved s cfg cmd over Hres).
  unfold resolved_state.
  pose proof (pre_decay_state_radar s cfg cmd) as Hr.
  destruct (radar_decay_cases (pre_decay_state s cfg cmd))
    as (Hoff & Hlast & Hmore).
  rewrite Hr in Hoff, Hlast, Hmore.
  repeat split.
  - rewrite (Hoff H). exact Hr.
  - rewrite (Hoff H). reflexivity.
  - apply (Hlast H H0).
  - apply (Hlast H H0).
  - destruct (Hlast H H0) as (_ & _ & ->). reflexivity.
  - apply (Hmore H H0).
  - apply (Hmore H H0).
  - destruct (Hmore H H0) as (_ & _ & ->). reflexivity.
Qed.

(** A turn that starts with the radar off prints no signal-loss line and
    leaves the radar off. *)
Lemma turn_with_radar_off (s : GameState D) cfg cmd over :
  active (radar s) = 0 ->
  active (radar (turn_state (handle_game_turn s cfg cmd over))) = 0
  /\ radar_lost_count (turn_output (handle_game_turn s cfg cmd over)) = 0%nat.
Proof.
  intros Hoff. destruct (turn_rejected s cmd) eqn:Hrej.
  - rewrite (handle_game_turn_rejected s cfg cmd over Hrej). cbn. auto.
  - destruct (resolved_turn_radar s cfg cmd over Hrej) as (H0 & _).
    destruct (H0 Hoff) as (-> & ->). auto.
Qed.

(** C6.  From a state whose radar is active with 3 turns left, three
    resolved turns in a row leave the radar active with 2 and then 1 turns
    left and switch it off at the third, which is the only one of them to
    print the signal-loss line; no later turn prints it again while the
    radar stays off.  And in every session whose state a V command has
    initialised, the radar is never active with 0 turns left. *)
Theorem radar_window_lasts_three_turns :
  (forall (s0 : GameState D) cfg1 cfg2 cfg3 c1 c2 c3 over,
     active (radar s0) <> 0 ->
     turns_remaining (radar s0) = 3 ->
     let r1 := handle_game_turn s0 cfg1 c1 over in
     let r2 := handle_game_turn (turn_state r1) cfg2 c2 (turn_game_over r1) in
     let r3 := handle_game_turn (turn_state r2) cfg3 c3 (turn_game_over r2) in
     turn_rejected s0 c1 = false ->
     turn_rejected (turn_state r1) c2 = false ->
     turn_rejected (turn_state r2) c3 = false ->
     (active (radar (turn_state r1)) <> 0
      /\ turns_remaining (radar (turn_state r1)) = 2
      /\ radar_lost_count (turn_output r1) = 0%nat)
     /\ (active (radar (turn_state r2)) <> 0
         /\ turns_remaining (radar (turn_state r2)) = 1
         /\ radar_lost_count (turn_output r2) = 0%nat)
     /\ (active (radar (turn_state r3)) = 0
         /\ radar_lost_count (turn_output r3) = 1%nat)
     /\ (forall cfg4 c4 over4,
           let r4 := handle_game_turn (turn_state r3) cfg4 c4 over4 in
           active (radar (turn_state r4)) = 0
           /\ radar_lost_count (turn_output r4) = 0%nat))
  /\ (forall ss : Session D,
        started ss ->
        ~ (active (radar (state ss)) <> 0
           /\ turns_remaining (radar (state ss)) = 0)).
Proof.
  split.
  - intros s0 cfg1 cfg2 cfg3 c1 c2 c3 over Hact Hturns r1 r2 r3 H1 H2 H3.
    destruct (resolved_turn_radar s0 cfg1 c1 over H1) as (_ & _ & Hm1).
    destruct (Hm1 Hact ltac:(lia)) as (Ha1 & Ht1 & Ho1).
    fold r1 in Ha1, Ht1, Ho1. rewrite Hturns in Ht1.
    assert (Hact1 : active (radar (turn_state r1)) <> 0) by congruence.
    destruct (resolved_turn_radar (turn_state r1) cfg2 c2 (turn_game_over r1) H2)
      as (_ & _ & Hm2).
    destruct (Hm2 Hact1 ltac:(lia)) as (Ha2 & Ht2 & Ho2).
    fold r2 in Ha2, Ht2, Ho2. rewrite Ht1 in Ht2.
    assert (Hact2 : active (radar (turn_state r2)) <> 0) by congruence.
    destruct (resolved_turn_radar (turn_state r2) cfg3 c3 (turn_game_over r2) H3)
      as (_ & Hl3 & _).
    destruct (Hl3 Hact2 ltac:(lia)) as (Ha3 & Ht3 & Ho3).
    fold r3 in Ha3, Ht3, Ho3.
    repeat split; auto; try lia;
      apply (turn_with_radar_off (turn_state r3) cfg4 c4 over4 Ha3).
  - intros ss Hst [Hact Hzero].
    pose proof (started_window ss Hst Hact). lia.
Qed.

Lemma turn_fuel (s : GameState D) cfg cmd over :
  C (turn_state (handle_game_turn s cfg cmd over)) = C s
  \/ (0 < C s /\ C (turn_state (handle_game_turn s cfg cmd over)) = C s - 1).
Proof.
  destruct (turn_rejected s cmd) eqn:Hrej.
  - rewrite (handle_game_turn_rejected s cfg cmd over Hrej). now left.
  - rewrite (handle_game_turn_resolved s cfg cmd over Hrej).
    unfold resolved_state.
    destruct (radar_decay_frame (pre_decay_state s cfg cmd)) as (-> & _).
    destruct (pre_decay_state_fuel s cfg cmd) as (Hle & Hgt).
    destruct (Z_le_gt_dec (C s) 0) as [H0 | H0].
    + left. auto.
    + destruct (Hgt ltac:(lia)); [now left | right; split; [lia | assumption]].
Qed.

(** Within a flight, one pass of the main loop keeps the fuel or takes one
    unit from a positive amount. *)
Lemma next_session_fuel menu (command : ascii) (ss ss' : Session D) :
  toupper command <> "V"%char ->
  next_session menu command ss = Some ss' ->
  C (state ss') = C (state ss)
  \/ (0 < C (state ss) /\ C (state ss') = C (state ss) - 1).
Proof.
  intros HV Hstep.
  destruct (next_session_cases menu command ss ss' Hstep)
    as [Hs | [(HV' & _) | [(v & Hs) | [(_ & _ & Hfuel & Hs) | (_ & Hs)]]]];
    try rewrite Hs.
  - now left.
  - contradiction.
  - now left.
  - right. split; [exact Hfuel | reflexivity].
  - apply turn_fuel.
Qed.

Lemma same_flight_fuel (ss0 ss' : Session D) :
  same_flight ss0 ss' ->
  0 <= C (state ss0) ->
  0 <= C (state ss') <= C (state ss0).
Proof.
  induction 1 as [| ss ss' menu command _ IH HV Hstep]; intros H0.
  - lia.
  - specialize (IH H0).
    destruct (next_session_fuel menu command ss ss' HV Hstep) as [-> | [? ->]];
      lia.
Qed.

(** C9.  A flight that a V command starts with a non-negative initial fuel
    keeps its fuel between 0 and that amount after every later command of
    the flight.  Turn by turn the fuel stays or drops by one, and it drops
    only from a positive amount; a turn command that arrives with the tank
    empty is resolved exactly as a drift with the engines switched off, and
    takes no fuel; the R command too takes fuel only from a positive
    amount. *)
Theorem fuel_stays_non_negative :
  (forall menu v (ss ss0 ss' : Session D),
     toupper v = "V"%char ->
     0 <= initial_fuel (config ss) ->
     next_session menu v ss = Some ss0 ->
     same_flight ss0 ss' ->
     C (state ss0) = initial_fuel (config ss)
     /\ 0 <= C (state ss') <= initial_fuel (config ss))
  /\ (forall (s : GameState D) cfg cmd over,
        C (turn_state (handle_game_turn s cfg cmd over)) = C s
        \/ (0 < C s
            /\ C (turn_state (handle_game_turn s cfg cmd over)) = C s - 1))
  /\ (forall (s : GameState D) cfg cmd over,
        C s <= 0 ->
        handle_game_turn s cfg cmd over
        = handle_game_turn (set_engines_on s 0) cfg "X" over
        /\ C (turn_state (handle_game_turn s cfg cmd over)) = C s
        /\ engines_on (turn_state (handle_game_turn s cfg cmd over)) = 0)
  /\ (forall menu command (ss ss' : Session D),
        toupper command = "R"%char ->
        next_session menu command ss = Some ss' ->
        C (state ss') = C (state ss)
        \/ (0 < C (state ss) /\ C (state ss') = C (state ss) - 1)).
Proof.
  split; [|split; [|split]].
  - intros menu v ss ss0 ss' HV Hinit Hstart Hflight.
    destruct (next_session_new_game menu v ss ss0 HV Hstart) as (Hs & _).
    destruct (init_game_state (state ss) (config ss) (rng ss))
      as (_ & _ & HC & _).
    rewrite <- Hs in HC.
    pose proof (same_flight_fuel ss0 ss' Hflight ltac:(lia)). lia.
  - apply turn_fuel.
  - intros s cfg cmd over Hfuel.
    assert (Hle : (C s <=? 0) = true) by lia.
    assert (Heq : handle_game_turn s cfg cmd over
                  = handle_game_turn (set_engines_on s 0) cfg "X" over).
    { unfold handle_game_turn. cbn [set_engines_on C]. rewrite Hle.
      reflexivity. }
    split; [exact Heq|].
    assert (Hres : turn_rejected s cmd = false).
    { unfold turn_rejected.
      assert (Hgt : (C s >? 0) = false) by lia. rewrite Hgt. reflexivity. }
    rewrite (handle_game_turn_resolved s cfg cmd over Hres).
    unfold resolved_state.
    destruct (radar_decay_frame (pre_decay_state s cfg cmd))
      as (-> & -> & _).
    destruct (pre_decay_state_fuel s cfg cmd) as (HC & _).
    split; [auto|].
    unfold pre_decay_state. rewrite Hle.
    change (("X" =? "X")%char) with true. cbn [negb].
    destruct (update_physics_frame (set_engines_on s 0) cfg "X")
      as (_ & -> & _). reflexivity.
  - intros menu command ss ss' HR Hstep.
    apply (next_session_fuel menu command ss ss'); [|exact Hstep].
    rewrite HR. discriminate.
Qed.

End ControlFlow.

(** ** Properties over exact arithmetic *)

Lemma Qltb_lt (x y : Q) : Qltb x y = true <-> x < y.
Proof.
  unfold Qltb. rewrite negb_true_iff. split.
  - intros H. apply Qnot_le_lt. intros Hle.
    apply Qle_bool_iff in Hle. congruence.
  - intros H. destruct (Qle_bool y x) eqn:Hle; [|reflexivity].
    apply Qle_bool_iff in Hle. exfalso. apply (Qlt_not_le _ _ H Hle).
Qed.

Lemma Qltb_ge (x y : Q) : Qltb x y = false <-> y <= x.
Proof.
  unfold Qltb. rewrite negb_false_iff. apply Qle_bool_iff.
Qed.

Lemma Qle_bool_gt (x y : Q) : Qle_bool x y = false <-> y < x.
Proof.
  split.
  - intros H. apply Qnot_le_lt. intros Hle.
    apply Qle_bool_iff in Hle. congruence.
  - intros H. destruct (Qle_bool x y) eqn:Hle; [|reflexivity].
    apply Qle_bool_iff in Hle. exfalso. apply (Qlt_not_le _ _ H Hle).
Qed.

(** Truncation toward zero, bracketed. *)
Lemma Q_to_int_nonneg (q : Q) :
  0 <= q -> (0 <= Q_to_int q)%Z /\ inject_Z (Q_to_int q) <= q
            /\ q < inject_Z (Q_to_int q + 1).
Proof.
  destruct q as [n d]. unfold Q_to_int, Qle, Qlt, inject_Z. cbn.
  intros Hn. rewrite Z.mul_1_r in Hn.
  assert (Hd : (0 < Zpos d)%Z) by lia.
  rewrite Z.quot_div_nonneg by lia.
  pose proof (Z.div_pos n (Zpos d) Hn Hd).
  pose proof (Z.mul_div_le n (Zpos d) Hd).
  pose proof (Z.mul_succ_div_gt n (Zpos d) Hd).
  repeat split; nia.
Qed.

Lemma Q_to_int_nonpos (q : Q) :
  q <= 0 -> (Q_to_int q <= 0)%Z /\ q <= inject_Z (Q_to_int q)
            /\ inject_Z (Q_to_int q - 1) < q.
Proof.
  destruct q as [n d]. unfold Q_to_int, Qle, Qlt, inject_Z. cbn.
  intros Hn. rewrite Z.mul_1_r in Hn.
  assert (Hd : (0 < Zpos d)%Z) by lia.
  replace n with (- (- n))%Z by lia.
  rewrite Z.quot_opp_l by lia.
  rewrite Z.quot_div_nonneg by lia.
  assert (Hm : (0 <= - n)%Z) by lia.
  pose proof (Z.div_pos (- n) (Zpos d) Hm Hd).
  pose proof (Z.mul_div_le (- n) (Zpos d) Hd).
  pose proof (Z.mul_succ_div_gt (- n) (Zpos d) Hd).
  repeat split; nia.
Qed.

(** The code's two clamping [if]s are the usual clamp. *)
Lemma landing_index_clamped (s : GameState Q) :
  landing_index s = clamped_index (A s).
Proof.
  unfold landing_index, clamped_index. cbn.
  set (i := Q_to_int ((A s + inject_Z 100) / 10)).
  change (Q_to_int ((A s + 100) / 10)) with i.
  destruct (i <? 0)%Z eqn:H1.
  - cbn. lia.
  - destruct (i >? 20)%Z eqn:H2; lia.
Qed.

(** Inside the mapped range the truncated index already lies in 0..20: the
    clamp of check_landing never changes it there. *)
Lemma landing_index_in_range (a : Q) :
  -100 <= a -> a <= 100 ->
  (0 <= Q_to_int ((a + 100) / 10) <= 20)%Z
  /\ clamped_index a = Q_to_int ((a + 100) / 10).
Proof.
  intros Hlo Hhi.
  assert (H0 : 0 <= (a + 100) / 10).
  { apply Qle_shift_div_l; [reflexivity|]. lra. }
  assert (H20 : (a + 100) / 10 <= 20).
  { apply Qle_shift_div_r; [reflexivity|]. lra. }
  destruct (Q_to_int_nonneg _ H0) as (Hnn & Hle & _).
  assert (Hz : (Q_to_int ((a + 100) / 10) <= 20)%Z).
  { rewrite Zle_Qle. apply (Qle_trans _ _ _ Hle H20). }
  split; [lia|]. unfold clamped_index. lia.
Qed.

Lemma terrain_penalty_cases (s : GameState Q) :
  (-100 <= A s /\ A s <= 100 ->
   terrain_penalty s == 0.2 * Qabs (terrain_at s (clamped_index (A s))))
  /\ (~ (-100 <= A s /\ A s <= 100) -> terrain_penalty s = 0).
Proof.
  unfold terrain_penalty, d_geb. cbn -[landing_index terrain_at].
  change (inject_Z (-100)) with (-100). change (inject_Z 100) with 100.
  split.
  - intros [Hlo Hhi].
    apply Qle_bool_iff in Hlo. apply Qle_bool_iff in Hhi.
    rewrite Hlo, Hhi. cbn [andb]. rewrite landing_index_clamped.
    apply Qmult_comm.
  - intros Hout.
    destruct (Qle_bool (-100) (A s)) eqn:Hlo;
      destruct (Qle_bool (A s) 100) eqn:Hhi; cbn [andb]; try reflexivity.
    exfalso. apply Hout. split; now apply Qle_bool_iff.
Qed.

Lemma check_landing_ground (s : GameState Q) :
  B s <= 0 ->
  (check_landing s = 1%Z <->
   Qabs (vel_v s) < 2 - terrain_penalty s
   /\ Qabs (vel_h s) < 1.5 - terrain_penalty s)
  /\ (check_landing s = (-1)%Z <->
      2 - terrain_penalty s <= Qabs (vel_v s)
      \/ 1.5 - terrain_penalty s <= Qabs (vel_h s)).
Proof.
  intros Hb. unfold check_landing. cbn -[terrain_penalty].
  change (inject_Z 0) with 0.
  apply Qle_bool_iff in Hb. rewrite Hb.
  destruct (Qltb (Qabs (vel_v s)) (2 - terrain_penalty s)) eqn:Hv;
    destruct (Qltb (Qabs (vel_h s)) (1.5 - terrain_penalty s)) eqn:Hh;
    cbn [andb];
    try apply Qltb_lt in Hv; try apply Qltb_lt in Hh;
    try apply Qltb_ge in Hv; try apply Qltb_ge in Hh;
    (split;
     (split;
      [ intros Heq; try discriminate Heq; auto
      | intros Hp; try reflexivity; exfalso;
        try (destruct Hp as [Hp1 Hp2]); try (destruct Hp as [Hp | Hp]);
        repeat match goal with
               | H1 : ?x < ?y, H2 : ?y <= ?x |- _ =>
                   apply (Qlt_not_le _ _ H1 H2)
               end ])).
Qed.

(** The Landing Evaluator over exact arithmetic.  On the ground
    (altitude <= 0) and with the horizontal position in [-100, 100], the
    result is success (1) exactly when |vertical velocity| < 2.0 - p and
    |horizontal velocity| < 1.5 - p for p = 0.2 * |height of the sample at
    the truncated and clamped index|, and crash (-1) exactly when one of
    the two bounds is violated; outside [-100, 100] the same holds with
    p = 0.  With altitude > 0 the result is still flying (0). *)
Lemma check_landing_exact :
  (forall s : GameState Q,
     B s <= 0 -> -100 <= A s /\ A s <= 100 ->
     let p := 0.2 * Qabs (terrain_at s (clamped_index (A s))) in
     (check_landing s = 1%Z <->
      Qabs (vel_v s) < 2 - p /\ Qabs (vel_h s) < 1.5 - p)
     /\ (check_landing s = (-1)%Z <->
         2 - p <= Qabs (vel_v s) \/ 1.5 - p <= Qabs (vel_h s)))
  /\ (forall s : GameState Q,
        B s <= 0 -> ~ (-100 <= A s /\ A s <= 100) ->
        (check_landing s = 1%Z <->
         Qabs (vel_v s) < 2 /\ Qabs (vel_h s) < 1.5)
        /\ (check_landing s = (-1)%Z <->
            2 <= Qabs (vel_v s) \/ 1.5 <= Qabs (vel_h s)))
  /\ (forall s : GameState Q, 0 < B s -> check_landing s = 0%Z).
Proof.
  split; [|split].
  - intros s Hb Hin p.
    destruct (terrain_penalty_cases s) as (Hp & _). specialize (Hp Hin).
    fold p in Hp.
    destruct (check_landing_ground s Hb) as (H1 & H2).
    rewrite Hp in H1, H2. split; assumption.
  - intros s Hb Hout.
    destruct (terrain_penalty_cases s) as (_ & Hp). specialize (Hp Hout).
    destruct (check_landing_ground s Hb) as (H1 & H2).
    rewrite Hp in H1, H2.
    assert (E2 : 2 - 0 == 2) by ring.
    assert (E15 : 1.5 - 0 == 1.5) by ring.
    rewrite E2, E15 in H1, H2. split; assumption.
  - intros s Hb. unfold check_landing. cbn.
    change (inject_Z 0) with 0.
    apply Qle_bool_gt in Hb. rewrite Hb. reflexivity.
Qed.

(** The two [if]s of check_landing clamp the index to 0..20, in every
    arithmetic. *)
Lemma landing_index_max_min {D} {ops : DoubleOps D} (s : GameState D) :
  landing_index s
  = Z.max 0 (Z.min 20 (d_to_int (d_div (d_add (A s) (d_of_Z 100))
                                       (d_lit 10)))).
Proof.
  unfold landing_index.
  set (i := d_to_int (d_div (d_add (A s) (d_of_Z 100)) (d_lit 10))).
  destruct (i <? 0)%Z eqn:H1.
  - assert (H2 : (0 >? 20)%Z = false) by reflexivity. rewrite H2. lia.
  - destruct (i >? 20)%Z eqn:H2; lia.
Qed.

(** C1, as the code has it, in every arithmetic and so in binary64.  Let p
    be |height of the sample at the truncated and clamped index| * 0.2 when
    the horizontal position passes the tests A >= -100 and A <= 100, and 0
    otherwise, computed with the program's operations.  When the altitude
    passes the test B <= 0, the result is success (1) exactly when both
    |vertical velocity| < 2.0 - p and |horizontal velocity| < 1.5 - p pass,
    the differences again computed with the program's operations, and crash
    (-1) exactly when one of the two fails.  When the altitude fails the
    test B <= 0, as every altitude above 0 does, the result is still flying
    (0). *)
Theorem check_landing_classifies {D} {ops : DoubleOps D} (s : GameState D) :
  let index :=
    Z.max 0 (Z.min 20 (d_to_int (d_div (d_add (A s) (d_of_Z 100))
                                        (d_lit 10)))) in
  let p :=
    if d_geb (A s) (d_of_Z (-100)) && d_leb (A s) (d_of_Z 100)
    then d_mul (d_abs (terrain_at s index)) (d_lit 0.2)
    else d_of_Z 0 in
  let slow_v := d_ltb (d_abs (vel_v s)) (d_sub (d_lit 2) p) in
  let slow_h := d_ltb (d_abs (vel_h s)) (d_sub (d_lit 1.5) p) in
  (d_leb (B s) (d_of_Z 0) = true ->
   (check_landing s = 1%Z <-> slow_v = true /\ slow_h = true)
   /\ (check_landing s = (-1)%Z <-> slow_v = false \/ slow_h = false))
  /\ (d_leb (B s) (d_of_Z 0) = false -> check_landing s = 0%Z).
Proof.
  intros index p slow_v slow_h.
  assert (Hp : terrain_penalty s = p).
  { unfold terrain_penalty, p, index.
    now rewrite landing_index_max_min. }
  unfold check_landing. rewrite Hp. fold slow_v slow_h. split.
  - intros Hb. rewrite Hb.
    destruct slow_v, slow_h; cbn [andb]; intuition congruence.
  - intros Hb. rewrite Hb. reflexivity.
Qed.

(** Which coordinates reach a sample: truncation toward zero sends every x
    strictly between -110 and 110 to an index in 0..20, and no other x. *)
Lemma safety_index_valid_iff (x : Q) :
  (0 <= safety_index x <= 20)%Z <-> -110 < x /\ x < 110.
Proof.
  unfold safety_index. cbn.
  change (inject_Z 100) with 100. change (inject_Z 10) with 10.
  set (q := (x + 100) / 10).
  assert (Hq : x == 10 * q - 100) by (unfold q; field).
  destruct (Qlt_le_dec q 0) as [Hneg | Hpos].
  - destruct (Q_to_int_nonpos q (Qlt_le_weak _ _ Hneg)) as (Hle & Hup & Hlow).
    split.
    + intros [H0 _]. assert (Hi : Q_to_int q = 0%Z) by lia.
      rewrite Hi in Hlow. change (inject_Z (0 - 1)) with (-1) in Hlow.
      split; lra.
    + intros [Hx _]. assert (Hq1 : -1 < q) by lra.
      assert (Hz : (-1 < Q_to_int q)%Z).
      { rewrite Zlt_Qlt. change (inject_Z (-1)) with (-1).
        apply (Qlt_le_trans _ _ _ Hq1 Hup). }
      lia.
  - destruct (Q_to_int_nonneg q Hpos) as (Hnn & Hle & Hlt).
    split.
    + intros [_ H20].
      assert (Hb : inject_Z (Q_to_int q + 1) <= 21).
      { change 21 with (inject_Z 21). rewrite <- Zle_Qle. lia. }
      split; lra.
    + intros [_ Hx]. assert (Hq21 : q < 21) by lra.
      assert (Hz : (Q_to_int q < 21)%Z).
      { rewrite Zlt_Qlt. change (inject_Z 21) with 21.
        apply (Qle_lt_trans _ _ _ Hle Hq21). }
      lia.
Qed.

(** A coordinate left of the mapped range that still reads sample 0: the
    cast rounds -0.5 to 0. *)
Example safety_left_of_the_map :
  safety_index (D := Q) (-105) = 0%Z
  /\ calculate_landing_safety (D := Q) scenario_state (-105) == 100
  /\ calculate_landing_safety (D := Q) scenario_state (-110) == 0.
Proof. vm_compute. repeat split. Qed.

(** The score is clamped from below by fmax and never gains on 100. *)
Lemma calculate_landing_safety_range (s : GameState Q) (x : Q) :
  0 <= calculate_landing_safety s x /\ calculate_landing_safety s x <= 100.
Proof.
  unfold calculate_landing_safety.
  set (i := safety_index x). q_ops.
  change (inject_Z 0) with 0. change (inject_Z 10) with 10.
  change (inject_Z 5) with 5.
  destruct ((i <? 0)%Z || (i >=? 21)%Z).
  - split; [apply Qle_refl | discriminate].
  - pose proof (Qabs_nonneg (terrain_at s i)) as Ha.
    pose proof (Qabs_nonneg (terrain_at s i - terrain_at s (i - 1))) as Hl.
    pose proof (Qabs_nonneg (terrain_at s (i + 1) - terrain_at s i)) as Hr.
    set (a := Qabs (terrain_at s i)) in *.
    set (l := Qabs (terrain_at s i - terrain_at s (i - 1))) in *.
    set (r := Qabs (terrain_at s (i + 1) - terrain_at s i)) in *.
    destruct ((i >? 0)%Z && (i <? 20)%Z).
    + destruct (Qle_bool 0 (100 - a * 10 - (l + r) * 5)) eqn:Hm.
      * apply Qle_bool_iff in Hm. split; lra.
      * split; [apply Qle_refl | discriminate].
    + destruct (Qle_bool 0 (100 - a * 10)) eqn:Hm.
      * apply Qle_bool_iff in Hm. split; lra.
      * split; [apply Qle_refl | discriminate].
Qed.

(** An index outside the array takes the early [return 0]. *)
Lemma calculate_landing_safety_outside (s : GameState Q) (x : Q) :
  ~ (0 <= safety_index x <= 20)%Z -> calculate_landing_safety s x = 0.
Proof.
  intros Hbad. unfold calculate_landing_safety.
  destruct ((safety_index x <? 0)%Z || (safety_index x >=? 21)%Z) eqn:Hout;
    [reflexivity|].
  apply orb_false_iff in Hout as [H0 H21]. exfalso. apply Hbad. lia.
Qed.

(** C2.  The Safety Scorer, over exact arithmetic: for every state and every
    coordinate the score lies in [0, 100], and a coordinate whose index
    (int)((x + 100) / 10) is not one of 0..20 scores exactly 0. *)
Theorem safety_score_bounds (s : GameState Q) (x : Q) :
  (0 <= calculate_landing_safety s x
   /\ calculate_landing_safety s x <= 100)
  /\ (~ (0 <= safety_index x <= 20)%Z -> calculate_landing_safety s x = 0).
Proof.
  split.
  - apply calculate_landing_safety_range.
  - apply calculate_landing_safety_outside.
Qed.

(** The velocities and the fuel after a resolved burn-left turn, in the
    program's operations. *)
Lemma burn_left_turn {D} {ops : DoubleOps D} (s : GameState D)
    (cfg : GameConfig D) (over : Z) :
  (0 < C s)%Z ->
  engines_on s <> 0%Z ->
  let s' := turn_state (handle_game_turn s cfg "Y" over) in
  vel_v s' = d_add (d_sub (vel_v s) (d_mul (gravity cfg) (time_step s)))
                   (d_mul (engine_force cfg) (time_step s))
  /\ vel_h s' = d_add (vel_h s)
                      (d_mul (d_mul (engine_force cfg) (time_step s))
                             (d_lit 0.3))
  /\ C s' = (C s - 1)%Z.
Proof.
  intros Hfuel Heng s'. subst s'.
  assert (Hon : truthy (engines_on s) = true) by now apply truthy_true.
  rewrite handle_game_turn_resolved
    by (unfold turn_rejected; rewrite Hon; apply andb_false_r).
  unfold resolved_state.
  destruct (radar_decay_frame (pre_decay_state s cfg "Y"))
    as (-> & _ & -> & ->).
  unfold pre_decay_state.
  assert (Hle : (C s <=? 0)%Z = false) by lia. rewrite Hle.
  change (("Y" =? "X")%char) with false. cbn [negb set_C vel_h vel_v C].
  destruct (update_physics_frame s cfg "Y") as (-> & _).
  unfold update_physics. rewrite Hon.
  change (("Y" =? "Y")%char) with true. cbn [vel_h vel_v].
  auto.
Qed.

(** C3, as the code has it.  With gravity 1.6, engine force 3.0, fuel 5, no
    velocity, the engines on and the turn duration 1, one burn-left turn (Y)
    is resolved and leaves the vertical velocity at -1.6 + 3.0 = 1.4
    (upward), the horizontal velocity at 3.0 * 0.3, which is positive and
    points toward growing A (the status shows "->"), and the fuel at 4.
    The program computes in binary64, where 3.0 * 1.0 * 0.3 is
    0.8999999999999999, the double just below 0.9 (first part); in exact
    arithmetic it is 0.9 (second part). *)
Theorem burn_left_first_turn :
  (forall (s : GameState float) (cfg : GameConfig float) (over : Z),
     gravity cfg = d_lit 1.6 ->
     engine_force cfg = d_lit 3 ->
     C s = 5%Z ->
     vel_h s = d_of_Z 0 ->
     vel_v s = d_of_Z 0 ->
     engines_on s <> 0%Z ->
     time_step s = d_lit 1 ->
     let s' := turn_state (handle_game_turn s cfg "Y" over) in
     vel_v s' = d_lit 1.4
     /\ vel_v_arrow s' = "^ (Up)"%string
     /\ vel_h s' = d_mul (d_lit 3) (d_lit 0.3)
     /\ PrimFloat.next_up (vel_h s') = d_lit 0.9
     /\ PrimFloat.ltb (vel_h s') (d_lit 0.9) = true
     /\ PrimFloat.ltb (d_of_Z 0) (vel_h s') = true
     /\ vel_h_arrow s' = "->"%string
     /\ C s' = 4%Z)
  /\ (forall (s : GameState Q) (cfg : GameConfig Q) (over : Z),
        gravity cfg == 1.6 ->
        engine_force cfg == 3 ->
        C s = 5%Z ->
        vel_h s == 0 ->
        vel_v s == 0 ->
        engines_on s <> 0%Z ->
        time_step s == 1 ->
        let s' := turn_state (handle_game_turn s cfg "Y" over) in
        vel_v s' == -1.6 + 3 /\ vel_v s' == 1.4
        /\ vel_v_arrow s' = "^ (Up)"%string
        /\ vel_h s' == 0.9 /\ vel_h s' == 0.3 * engine_force cfg
        /\ vel_h_arrow s' = "->"%string
        /\ C s' = 4%Z).
Proof.
  split.
  - intros s cfg over Hg He HC Hh Hv Heng Hdt s'.
    destruct (burn_left_turn s cfg over ltac:(lia) Heng) as (Hv' & Hh' & HC').
    fold s' in Hv', Hh', HC'.
    rewrite Hg, He, Hv, Hdt in Hv'. rewrite He, Hh, Hdt in Hh'.
    unfold vel_v_arrow, vel_h_arrow. rewrite Hv', Hh', HC', HC.
    vm_compute. repeat split.
  - intros s cfg over Hg He HC Hh Hv Heng Hdt s'.
    destruct (burn_left_turn s cfg over ltac:(lia) Heng) as (Hv' & Hh' & HC').
    fold s' in Hv', Hh', HC'.
    assert (Ev : vel_v s' == 1.4).
    { rewrite Hv'. q_ops. rewrite Hg, He, Hv, Hdt. reflexivity. }
    assert (Eh : vel_h s' == 0.9).
    { rewrite Hh'. q_ops. rewrite He, Hh, Hdt. reflexivity. }
    repeat split.
    + rewrite Ev. reflexivity.
    + exact Ev.
    + unfold vel_v_arrow. q_ops.
      assert (Hup : Qltb (vel_v s') (inject_Z 0) = false).
      { apply Qltb_ge. rewrite Ev. discriminate. }
      rewrite Hup. reflexivity.
    + exact Eh.
    + rewrite Eh, He. reflexivity.
    + unfold vel_h_arrow. q_ops.
      assert (Hright : Qltb (inject_Z 0) (vel_h s') = true).
      { apply Qltb_lt. rewrite Eh. reflexivity. }
      rewrite Hright. reflexivity.
    + lia.
Qed.

(** The scenario run on concrete values, in binary64 and in exact
    arithmetic. *)
Lemma burn_left_first_turn_witness :
  (let s' := turn_state (handle_game_turn (D := float) scenario_state
                           scenario_config "Y" 0) in
   vel_v s' = d_lit 1.4
   /\ vel_v_arrow s' = "^ (Up)"%string
   /\ vel_h s' = d_mul (d_lit 3) (d_lit 0.3)
   /\ PrimFloat.next_up (vel_h s') = d_lit 0.9
   /\ PrimFloat.ltb (vel_h s') (d_lit 0.9) = true
   /\ PrimFloat.ltb (d_of_Z 0) (vel_h s') = true
   /\ vel_h_arrow s' = "->"%string
   /\ C s' = 4%Z)
  /\ (let s' := turn_state (handle_game_turn (D := Q) scenario_state
                              scenario_config "Y" 0) in
      vel_v s' == -1.6 + 3 /\ vel_v s' == 1.4
      /\ vel_v_arrow s' = "^ (Up)"%string
      /\ vel_h s' == 0.9 /\ vel_h s' == 0.3 * engine_force scenario_config
      /\ vel_h_arrow s' = "->"%string
      /\ C s' = 4%Z).
Proof.
  split.
  - apply (proj1 burn_left_first_turn scenario_state scenario_config 0%Z);
      try reflexivity.
    discriminate.
  - apply (proj2 burn_left_first_turn scenario_state scenario_config 0%Z);
      try reflexivity.
    discriminate.
Defined.

(** The claim as worded puts the horizontal velocity of that turn in the
    leftward direction, 0.9 in size.  In the scenario it points the other
    way, in binary64 (where its size is not 0.9 either) as in exact
    arithmetic. *)
Lemma burn_left_is_not_leftward :
  (let s' := turn_state (handle_game_turn (D := float) scenario_state
                           scenario_config "Y" 0) in
   ~ (vel_v s' = d_lit 1.4
      /\ PrimFloat.eqb (d_abs (vel_h s')) (d_lit 0.9) = true
      /\ moves_left s' /\ C s' = 4%Z)
   /\ PrimFloat.eqb (d_abs (vel_h s')) (d_lit 0.9) = false
   /\ ~ moves_left s')
  /\ (let s' := turn_state (handle_game_turn (D := Q) scenario_state
                              scenario_config "Y" 0) in
      ~ (vel_v s' == 1.4 /\ Qabs (vel_h s') == 0.9 /\ moves_left s'
         /\ C s' = 4%Z)).
Proof.
  split.
  - intros s'. split; [|split].
    + intros (_ & _ & Hleft & _). unfold moves_left in Hleft.
      vm_compute in Hleft. discriminate Hleft.
    + vm_compute. reflexivity.
    + intros Hleft. unfold moves_left in Hleft.
      vm_compute in Hleft. discriminate Hleft.
  - intros s' (_ & _ & Hleft & _). unfold moves_left in Hleft.
    vm_compute in Hleft. discriminate Hleft.
Qed.

(** ** The recommended landing zone *)

Lemma for_range_S (lo : Z) (n : nat) :
  for_range lo (S n) = for_range lo n ++ [(lo + Z.of_nat n)%Z].
Proof.
  unfold for_range. rewrite seq_S, map_app. reflexivity.
Qed.

Lemma terrain_loop_length (libm : Libm Q) (n : nat) (i : Z) (g : Rng) :
  List.length (fst (terrain_loop n i g)) = n.
Proof.
  revert i g. induction n as [|n IH]; intros i g; [reflexivity|].
  cbn [terrain_loop].
  destruct (terrain_sample i g) as [h g1].
  specialize (IH (i + 1)%Z g1).
  destruct (terrain_loop n (i + 1) g1) as [rest g2].
  cbn in *. now rewrite IH.
Qed.

(** The score reads nothing but the terrain samples. *)
Lemma calculate_landing_safety_terrain (s1 s2 : GameState Q) (x : Q) :
  terrain_height (radar s1) = terrain_height (radar s2) ->
  calculate_landing_safety s1 x = calculate_landing_safety s2 x.
Proof.
  intros Ht. unfold calculate_landing_safety, terrain_at. rewrite Ht.
  reflexivity.
Qed.

Lemma best_landing_terrain (s1 s2 : GameState Q) :
  terrain_height (radar s1) = terrain_height (radar s2) ->
  best_landing s1 = best_landing s2.
Proof.
  intros Ht. unfold best_landing.
  assert (Hfold : forall l best,
            fold_left (best_step s1) l best = fold_left (best_step s2) l best).
  { induction l as [|i l IH]; intros best; [reflexivity|].
    cbn [fold_left]. rewrite IH. f_equal.
    unfold best_step.
    now rewrite (calculate_landing_safety_terrain s1 s2 (sample_x i) Ht). }
  apply Hfold.
Qed.

(** The second loop of generate_terrain_data after [n] candidates: the best
    so far is the leftmost candidate of maximal score. *)
Lemma best_scan (s : GameState Q) (n : nat) :
  let best := fold_left (best_step s) (for_range 1 n) (-1, 0) in
  (n = 0%nat /\ best = (-1, 0))
  \/ exists i : Z,
       (1 <= i < 1 + Z.of_nat n)%Z
       /\ best = (calculate_landing_safety s (sample_x i), sample_x i)
       /\ (forall j, (1 <= j < 1 + Z.of_nat n)%Z ->
             calculate_landing_safety s (sample_x j)
             <= calculate_landing_safety s (sample_x i))
       /\ (forall j, (1 <= j < i)%Z ->
             calculate_landing_safety s (sample_x j)
             < calculate_landing_safety s (sample_x i)).
Proof.
  induction n as [|n IH]; [left; split; reflexivity|].
  right. rewrite for_range_S, fold_left_app. cbn [fold_left].
  set (k := (1 + Z.of_nat n)%Z).
  set (fk := calculate_landing_safety s (sample_x k)).
  destruct (calculate_landing_safety_range s (sample_x k)) as (Hk0 & _).
  fold fk in Hk0.
  destruct IH as [(-> & Hbest) | (i & Hi & Hbest & Hmax & Hleft)].
  - cbn [for_range seq map fold_left] in *.
    unfold best_step at 1. fold fk. unfold d_gtb. q_ops. cbn [fst].
    assert (Hgt : Qltb (-1) fk = true) by (apply Qltb_lt; lra).
    rewrite Hgt. exists k. subst k. cbn.
    repeat split; try lia.
    + intros j Hj. assert (j = 1%Z) by lia. subst j. apply Qle_refl.
  - cbv zeta in Hbest. rewrite Hbest.
    unfold best_step at 1. fold fk. unfold d_gtb. q_ops. cbn [fst].
    set (fi := calculate_landing_safety s (sample_x i)) in *.
    destruct (Qltb fi fk) eqn:Hcmp.
    + apply Qltb_lt in Hcmp. exists k. repeat split; try lia.
      * intros j Hj. destruct (Z.eq_dec j k) as [-> | Hne];
          [apply Qle_refl|].
        apply Qlt_le_weak. apply Qle_lt_trans with fi; [|exact Hcmp].
        apply Hmax. lia.
      * intros j Hj. apply Qle_lt_trans with fi; [|exact Hcmp].
        apply Hmax. lia.
    + apply Qltb_ge in Hcmp. exists i. repeat split; try lia.
      * intros j Hj. destruct (Z.eq_dec j k) as [-> | Hne]; [exact Hcmp|].
        apply Hmax. lia.
      * exact Hleft.
Qed.

(** Sample [i] is read back at index [i]. *)
Lemma safety_index_sample (i : Z) :
  (0 <= i <= 20)%Z -> safety_index (D := Q) (sample_x i) = i.
Proof.
  intros Hi. unfold safety_index, sample_x. q_ops.
  set (q := (inject_Z (-100 + i * 10) + inject_Z 100) / inject_Z 10).
  assert (Hq : q == inject_Z i).
  { unfold q. rewrite <- inject_Z_plus.
    replace (-100 + i * 10 + 100)%Z with (i * 10)%Z by lia.
    rewrite inject_Z_mult. field. }
  assert (H0 : 0 <= q).
  { rewrite Hq. change 0 with (inject_Z 0). rewrite <- Zle_Qle. lia. }
  destruct (Q_to_int_nonneg q H0) as (_ & Hle & Hlt).
  assert (Hle' : inject_Z (Q_to_int q) <= inject_Z i)
    by (rewrite <- Hq; exact Hle).
  assert (Hlt' : inject_Z i < inject_Z (Q_to_int q + 1))
    by (rewrite <- Hq; exact Hlt).
  rewrite <- Zle_Qle in Hle'. rewrite <- Zlt_Qlt in Hlt'. lia.
Qed.

(** On the demonstration terrain the samples 9 and 10 tie at the best
    score, and the scan keeps the left one, x = -10. *)
Example best_landing_keeps_first_of_tie :
  calculate_landing_safety (D := Q) scenario_state (sample_x 9) == 100
  /\ calculate_landing_safety (D := Q) scenario_state (sample_x 10) == 100
  /\ fst (best_landing (D := Q) scenario_state) == 100
  /\ snd (best_landing (D := Q) scenario_state) == -10.
Proof. vm_compute. repeat split. Qed.

(** C4.  For every terrain that generate_terrain_data produces - whatever
    sin, cos and the random draws are - the radar holds 21 samples, and the
    stored recommendation is what the scan of the interior samples 1..19
    yields on the stored terrain: it is the coordinate -100 + 10 i and the
    score of an interior sample i whose score no interior sample exceeds
    and every interior sample to its left misses strictly (the first of the
    best wins).  Running the scan again on the stored state gives the
    stored pair back. *)
Theorem recommendation_is_leftmost_best (libm : Libm Q) (s : GameState Q)
    (g : Rng) :
  let s' := fst (generate_terrain_data s g) in
  List.length (terrain_height (radar s')) = 21%nat
  /\ best_landing s'
     = (safe_landing_score (radar s'), safe_landing_x (radar s'))
  /\ exists i : Z,
       (1 <= i <= 19)%Z
       /\ safe_landing_x (radar s') = sample_x i
       /\ safe_landing_score (radar s')
          = calculate_landing_safety s' (sample_x i)
       /\ (forall j, (1 <= j <= 19)%Z ->
             calculate_landing_safety s' (sample_x j)
             <= safe_landing_score (radar s'))
       /\ (forall j, (1 <= j < i)%Z ->
             calculate_landing_safety s' (sample_x j)
             < safe_landing_score (radar s')).
Proof.
  unfold generate_terrain_data.
  pose proof (terrain_loop_length libm 21 0 g) as Hlen.
  destruct (terrain_loop 21 0 g) as [heights g']. cbn [fst] in Hlen.
  set (s1 := set_radar s _).
  destruct (best_landing s1) as [bs bx] eqn:Hbest.
  cbn [fst]. set (s2 := set_radar s1 _).
  assert (Ht : terrain_height (radar s2) = terrain_height (radar s1))
    by reflexivity.
  assert (Hsame : forall x, calculate_landing_safety s2 x
                            = calculate_landing_safety s1 x)
    by (intros x; now apply calculate_landing_safety_terrain).
  split; [exact Hlen|].
  split; [rewrite (best_landing_terrain s2 s1 Ht); exact Hbest|].
  destruct (best_scan s1 19) as [(Hn & _) | (i & Hi & Hres & Hmax & Hleft)];
    [discriminate Hn|].
  cbv zeta in Hres.
  assert (Heq : (calculate_landing_safety s1 (sample_x i), sample_x i)
                = (bs, bx)) by (rewrite <- Hres; exact Hbest).
  injection Heq as <- <-.
  exists i.
  change (safe_landing_x (radar s2)) with (sample_x (D := Q) i).
  change (safe_landing_score (radar s2))
    with (calculate_landing_safety s1 (sample_x i)).
  split; [lia|]. split; [reflexivity|]. split; [symmetry; apply Hsame|].
  split.
  - intros j Hj. rewrite (Hsame (sample_x j)). apply Hmax. lia.
  - intros j Hj. rewrite (Hsame (sample_x j)). now apply Hleft.
Qed.

(** ** The theorems at concrete inputs *)

(** The touchdown after one left burn, in binary64: the sample has height
    3, the program computes 3.0 * 0.2 = 0.6000000000000001 and the bound
    1.5 - 0.6000000000000001 = 0.8999999999999999, which the horizontal
    velocity 3.0 * 0.3 = 0.8999999999999999 does not stay below: a crash. *)
Lemma check_landing_classifies_witness :
  check_landing touchdown_after_burn = (-1)%Z
  /\ PrimFloat.eqb
       (d_sub (d_lit 1.5)
          (d_mul (d_abs (terrain_at touchdown_after_burn 2)) (d_lit 0.2)))
       (vel_h touchdown_after_burn) = true.
Proof.
  split; [|vm_compute; reflexivity].
  assert (Hb : d_leb (B touchdown_after_burn) (d_of_Z 0) = true)
    by (vm_compute; reflexivity).
  apply (proj2 (proj1 (check_landing_classifies touchdown_after_burn) Hb)).
  right. vm_compute. reflexivity.
Defined.

(** The claim as worded, with the bounds taken in the real numbers, at that
    touchdown: the altitude is 0, the position -75 is on the map, and the
    exact values of the doubles satisfy both bounds (0 < 2.0 - 0.6 and
    3.0 * 0.3 < 1.5 - 0.6 = 0.9, the product being rounded down), yet the
    result is not success. *)
Lemma check_landing_rounds_its_bounds :
  let s := touchdown_after_burn in
  let p := 0.2 * Qabs (B64.to_Q (terrain_at s (clamped_index (B64.to_Q (A s))))) in
  B64.to_Q (B s) <= 0
  /\ -100 <= B64.to_Q (A s) /\ B64.to_Q (A s) <= 100
  /\ ~ (check_landing s = 1%Z
        <-> Qabs (B64.to_Q (vel_v s)) < 2 - p
            /\ Qabs (B64.to_Q (vel_h s)) < 1.5 - p).
Proof.
  intros s p.
  split; [vm_compute; discriminate|].
  split; [vm_compute; discriminate|].
  split; [vm_compute; discriminate|].
  intros [_ H].
  assert (Hcl : check_landing s = 1%Z).
  { apply H. split; vm_compute; reflexivity. }
  vm_compute in Hcl. discriminate Hcl.
Qed.

(** Landings on the demonstration terrain: at A = 25 the sample has height
    1, so the bounds are 1.8 and 1.3; at A = 250 there is no penalty. *)
Lemma check_landing_exact_examples :
  check_landing (grounded 25 0.5 (-1.7)) = 1%Z
  /\ check_landing (grounded 25 0.5 (-1.8)) = (-1)%Z
  /\ check_landing (grounded 250 1.4 (-1.9)) = 1%Z
  /\ check_landing (grounded 250 1.5 (-1.9)) = (-1)%Z
  /\ check_landing (D := Q) scenario_state = 0%Z.
Proof.
  destruct check_landing_exact as (Hin & Hout & Hfly).
  assert (Hb : forall a h v, B (grounded a h v) <= 0)
    by (intros; apply Qle_refl).
  assert (H25 : -100 <= A (grounded 25 0.5 (-1.7))
                /\ A (grounded 25 0.5 (-1.7)) <= 100)
    by (split; discriminate).
  assert (H250 : ~ (-100 <= A (grounded 250 1.4 (-1.9))
                    /\ A (grounded 250 1.4 (-1.9)) <= 100))
    by (intros [_ H]; apply H; reflexivity).
  split; [|split; [|split; [|split]]].
  - apply (proj1 (Hin (grounded 25 0.5 (-1.7)) (Hb _ _ _) H25)).
    split; reflexivity.
  - apply (proj2 (Hin (grounded 25 0.5 (-1.8)) (Hb _ _ _) H25)).
    left. discriminate.
  - apply (proj1 (Hout (grounded 250 1.4 (-1.9)) (Hb _ _ _) H250)).
    split; reflexivity.
  - apply (proj2 (Hout (grounded 250 1.5 (-1.9)) (Hb _ _ _) H250)).
    right. discriminate.
  - apply Hfly. reflexivity.
Qed.

(** The R command with an empty tank, and with 5 units of fuel. *)
Lemma radar_activation_costs_one_fuel_witness :
  (main_step (libm := poly_libm) (fun c => c) "r" radar_on_empty_tank
   = (Some radar_on_empty_tank, [Message MSG_RADAR_NO_FUEL])
   /\ forall ss',
        next_session (libm := poly_libm) (fun c => c) "r" radar_on_empty_tank
        = Some ss' ->
        ss' = radar_on_empty_tank
        /\ active (radar (state ss')) = 1%Z
        /\ turns_remaining (radar (state ss')) = 3%Z)
  /\ exists ss' out,
       main_step (libm := poly_libm) (fun c => c) "R"
         (demo_session scenario_state) = (Some ss', out)
       /\ C (state ss') = (5 - 1)%Z
       /\ active (radar (state ss')) = 1%Z
       /\ turns_remaining (radar (state ss')) = 3%Z.
Proof.
  split.
  - apply (radar_activation_costs_one_fuel (libm := poly_libm) (fun c => c)
             "r"%char radar_on_empty_tank);
      reflexivity.
  - apply (radar_activation_costs_one_fuel (libm := poly_libm) (fun c => c)
             "R"%char (demo_session scenario_state));
      [reflexivity | reflexivity | cbn; lia].
Defined.

(** The claim as worded has the refused command leave the radar inactive.
    A radar switched on with the last unit of fuel is active on an empty
    tank; the next R is refused and the radar is active afterwards. *)
Lemma radar_refused_while_active :
  next_session (libm := poly_libm) (fun c => c) "R"
    (demo_session (set_C scenario_state 1))
  = Some radar_on_empty_tank
  /\ game_over radar_on_empty_tank = 0%Z
  /\ C (state radar_on_empty_tank) = 0%Z
  /\ main_step (libm := poly_libm) (fun c => c) "R" radar_on_empty_tank
     = (Some radar_on_empty_tank, [Message MSG_RADAR_NO_FUEL])
  /\ ~ (forall ss',
          next_session (libm := poly_libm) (fun c => c) "R"
            radar_on_empty_tank = Some ss' ->
          active (radar (state ss')) = 0%Z).
Proof.
  split; [reflexivity|]. split; [reflexivity|]. split; [reflexivity|].
  split; [reflexivity|].
  intros H. specialize (H radar_on_empty_tank eq_refl).
  vm_compute in H. discriminate H.
Qed.

(** The R command on a radar with 2 turns left. *)
Lemma radar_reactivation_rewinds_window_witness :
  active (radar radar_running_state) = 1%Z
  /\ turns_remaining (radar radar_running_state) = 2%Z
  /\ exists ss' out,
       main_step (libm := poly_libm) (fun c => c) "r"
         (demo_session radar_running_state) = (Some ss', out)
       /\ ~ In (Message MSG_RADAR_NO_FUEL) out
       /\ C (state ss') = (5 - 1)%Z
       /\ active (radar (state ss')) = 1%Z
       /\ turns_remaining (radar (state ss')) = 3%Z.
Proof.
  split; [reflexivity|]. split; [reflexivity|].
  apply (radar_reactivation_rewinds_window (libm := poly_libm) (fun c => c)
           "r"%char (demo_session radar_running_state));
    [reflexivity | reflexivity | discriminate | cbn; lia].
Defined.

(** A right burn with 5 units of fuel and the engines off. *)
Lemma burn_with_engines_off_is_rejected_witness :
  handle_game_turn (set_engines_on scenario_state 0) scenario_config "Z" 0
  = (set_engines_on (D := Q) scenario_state 0, 0%Z,
     [Message MSG_CANNOT_BURN])
  /\ main_step (libm := poly_libm) (fun c => c) "z"
       (demo_session (set_engines_on scenario_state 0))
     = (Some (demo_session (set_engines_on scenario_state 0)),
        [Message MSG_CANNOT_BURN]).
Proof.
  apply (burn_with_engines_off_is_rejected (libm := poly_libm) (fun c => c)
           "z"%char (demo_session (set_engines_on scenario_state 0)));
    [right; reflexivity | reflexivity | cbn; lia | reflexivity].
Defined.

(** The scenario with the engines switched off. *)
Lemma drift_with_engines_off_witness :
  let s := set_engines_on (D := Q) scenario_state 0 in
  (vel_h (update_physics s scenario_config "Y") = vel_h s
   /\ C (update_physics s scenario_config "Y") = C s
   /\ vel_v (update_physics s scenario_config "Y")
      = d_sub (vel_v s) (d_mul (gravity scenario_config) (time_step s)))
  /\ (vel_h (turn_state (handle_game_turn s scenario_config "X" 0)) = vel_h s
      /\ C (turn_state (handle_game_turn s scenario_config "X" 0)) = C s
      /\ vel_v (turn_state (handle_game_turn s scenario_config "X" 0))
         = d_sub (vel_v s) (d_mul (gravity scenario_config) (time_step s))).
Proof.
  apply (drift_with_engines_off (set_engines_on scenario_state 0)
           scenario_config "Y"%char 0).
  reflexivity.
Defined.

Lemma same_flight_first {D} {ops : DoubleOps D} {libm : Libm D}
    menu (command : ascii) (ss ss1 ss' : Session D) :
  toupper command <> "V"%char ->
  next_session menu command ss = Some ss1 ->
  same_flight ss1 ss' ->
  same_flight ss ss'.
Proof.
  intros HV Hstep Hrest.
  induction Hrest as [| sa sb menu' command' _ IH HV' Hstep'].
  - apply flight_next with (ss := ss) (menu := menu) (command := command);
      [apply flight_here | exact HV | exact Hstep].
  - apply flight_next with (ss := sa) (menu := menu') (command := command');
      assumption.
Qed.

Lemma run_commands_same_flight {D} {ops : DoubleOps D} {libm : Libm D}
    menu (commands : list ascii) (ss ss' : Session D) :
  Forall (fun c => toupper c <> "V"%char) commands ->
  run_commands menu commands ss = Some ss' ->
  same_flight ss ss'.
Proof.
  revert ss. induction commands as [|c rest IH]; intros ss Hall Hrun.
  - cbn in Hrun. injection Hrun as <-. apply flight_here.
  - cbn [run_commands] in Hrun. inversion Hall as [|? ? Hc Hrest]; subst.
    destruct (next_session menu c ss) as [ss1|] eqn:Hstep; [|discriminate].
    apply (same_flight_first menu c ss ss1 ss' Hc Hstep).
    apply (IH ss1 Hrest Hrun).
Qed.

(** Three turns (drift, left burn, right burn) after switching the radar
    on in the scenario, and the first flight of a session. *)
Lemma radar_window_lasts_three_turns_witness :
  let s0 := fst (activate_landing_radar (D := Q) scenario_state) in
  let r1 := handle_game_turn s0 scenario_config "X" 0 in
  let r2 := handle_game_turn (turn_state r1) scenario_config "Y"
              (turn_game_over r1) in
  let r3 := handle_game_turn (turn_state r2) scenario_config "Z"
              (turn_game_over r2) in
  ((active (radar (turn_state r1)) <> 0%Z
    /\ turns_remaining (radar (turn_state r1)) = 2%Z
    /\ radar_lost_count (turn_output r1) = 0%nat)
   /\ (active (radar (turn_state r2)) <> 0%Z
       /\ turns_remaining (radar (turn_state r2)) = 1%Z
       /\ radar_lost_count (turn_output r2) = 0%nat)
   /\ (active (radar (turn_state r3)) = 0%Z
       /\ radar_lost_count (turn_output r3) = 1%nat)
   /\ (forall cfg4 c4 over4,
         let r4 := handle_game_turn (turn_state r3) cfg4 c4 over4 in
         active (radar (turn_state r4)) = 0%Z
         /\ radar_lost_count (turn_output r4) = 0%nat))
  /\ match first_flight with
     | Some ss => ~ (active (radar (state ss)) <> 0%Z
                     /\ turns_remaining (radar (state ss)) = 0%Z)
     | None => False
     end.
Proof.
  destruct (radar_window_lasts_three_turns (D := Q) (libm := poly_libm))
    as [Hthree Hinv].
  split.
  - apply (Hthree (fst (activate_landing_radar scenario_state))
             scenario_config scenario_config scenario_config
             "X"%char "Y"%char "Z"%char 0%Z);
      [discriminate | reflexivity | reflexivity | reflexivity | reflexivity].
  - destruct first_flight as [ss|] eqn:Hfirst.
    + apply Hinv.
      apply started_new
        with (ss := initial_session 0 scenario_state demo_rng)
             (menu := fun c => c) (command := "v"%char);
        [reflexivity | exact Hfirst].
    + vm_compute in Hfirst. discriminate Hfirst.
Defined.

(** A first flight with the default 50 units of fuel through seven
    commands, and a left burn asked of an empty tank. *)
Lemma fuel_stays_non_negative_witness :
  match first_flight with
  | Some ss0 =>
      match run_commands (libm := poly_libm) (fun c => c)
              ["w"; "y"; "r"; "x"; "z"; "s"; "y"]%char ss0 with
      | Some ss' =>
          C (state ss0) = 50%Z /\ (0 <= C (state ss') <= 50)%Z
      | None => False
      end
  | None => False
  end
  /\ (C (turn_state (handle_game_turn (D := Q) (set_C scenario_state 0)
                       scenario_config "Y" 0)) = 0%Z
      /\ engines_on (turn_state (handle_game_turn (D := Q)
                       (set_C scenario_state 0) scenario_config "Y" 0))
         = 0%Z).
Proof.
  destruct (fuel_stays_non_negative (D := Q) (libm := poly_libm))
    as (Hflight & _ & Hempty & _).
  split.
  - destruct first_flight as [ss0|] eqn:Hfirst;
      [|vm_compute in Hfirst; discriminate Hfirst].
    destruct (run_commands _ _ ss0) as [ss'|] eqn:Hrun.
    + apply (Hflight (fun c => c) "v"%char
               (initial_session 0 scenario_state demo_rng) ss0 ss');
        [reflexivity | cbn; lia | exact Hfirst |].
      eapply run_commands_same_flight; [|exact Hrun].
      repeat constructor; discriminate.
    + unfold first_flight in Hfirst. vm_compute in Hfirst.
      injection Hfirst as <-. vm_compute in Hrun. discriminate Hrun.
  - apply (Hempty (set_C scenario_state 0) scenario_config "Y"%char 0%Z).
    cbn. lia.
Defined.

(** The score at a coordinate inside the map, and at one whose index is -1. *)
Lemma safety_score_bounds_witness :
  (0 <= calculate_landing_safety (D := Q) scenario_state 25
   /\ calculate_landing_safety (D := Q) scenario_state 25 <= 100)
  /\ calculate_landing_safety (D := Q) scenario_state (-110) = 0.
Proof.
  split.
  - apply (safety_score_bounds scenario_state 25).
  - apply (safety_score_bounds scenario_state (-110)).
    vm_compute. intros [H _]. apply H. reflexivity.
Defined.

(** Terrain generation run on the stand-in for sin and cos and on the fixed
    random sequence. *)
Lemma recommendation_is_leftmost_best_witness :
  let s' := fst (generate_terrain_data (libm := poly_libm) scenario_state
                   demo_rng) in
  List.length (terrain_height (radar s')) = 21%nat
  /\ best_landing s'
     = (safe_landing_score (radar s'), safe_landing_x (radar s'))
  /\ exists i : Z,
       (1 <= i <= 19)%Z
       /\ safe_landing_x (radar s') = sample_x i
       /\ safe_landing_score (radar s')
          = calculate_landing_safety s' (sample_x i)
       /\ (forall j, (1 <= j <= 19)%Z ->
             calculate_landing_safety s' (sample_x j)
             <= safe_landing_score (radar s'))
       /\ (forall j, (1 <= j < i)%Z ->
             calculate_landing_safety s' (sample_x j)
             < safe_landing_score (radar s')).
Proof.
  exact (recommendation_is_leftmost_best poly_libm scenario_state demo_rng).
Defined.

(** ** Turns, thrust and fuel *)

Section TurnPhysics.

Context {D : Type} {ops : DoubleOps D}.

Local Open Scope Z_scope.

Lemma radar_decay_physics (s : GameState D) :
  A (fst (radar_decay s)) = A s
  /\ B (fst (radar_decay s)) = B s
  /\ prev_vel_h (fst (radar_decay s)) = prev_vel_h s
  /\ prev_vel_v (fst (radar_decay s)) = prev_vel_v s
  /\ time_step (fst (radar_decay s)) = time_step s.
Proof.
  unfold radar_decay.
  destruct (truthy (active (radar s)) && (turns_remaining (radar s) >? 0));
    [destruct (turns_remaining (radar s) - 1 <=? 0)|]; cbn; auto.
Qed.

(** A powered burn is resolved, takes one unit of fuel and adds the
    thrust; every other resolved turn only lets gravity act. *)
Lemma resolved_turn_velocity (s : GameState D) cfg cmd over :
  (cmd = "Y" \/ cmd = "Z" \/ cmd = "X")%char ->
  turn_rejected s cmd = false ->
  let s' := turn_state (handle_game_turn s cfg cmd over) in
  let v0 := d_sub (vel_v s) (d_mul (gravity cfg) (time_step s)) in
  let push := d_mul (d_mul (engine_force cfg) (time_step s)) (d_lit 0.3) in
  (powered_burn s cmd = true ->
   C s' = C s - 1
   /\ vel_v s' = d_add v0 (d_mul (engine_force cfg) (time_step s))
   /\ (cmd = "Y"%char -> vel_h s' = d_add (vel_h s) push)
   /\ (cmd = "Z"%char -> vel_h s' = d_sub (vel_h s) push))
  /\ (powered_burn s cmd = false ->
      C s' = C s /\ vel_v s' = v0 /\ vel_h s' = vel_h s).
Proof.
  intros Hcmd Hres s' v0 push. subst s'.
  rewrite (handle_game_turn_resolved s cfg cmd over Hres).
  unfold resolved_state.
  destruct (radar_decay_frame (pre_decay_state s cfg cmd))
    as (-> & _ & -> & ->).
  unfold pre_decay_state, powered_burn, turn_rejected in *.
  destruct (C s <=? 0) eqn:Hle.
  - assert (Hgt : (C s >? 0) = false) by lia. rewrite Hgt. cbn [andb].
    change (("X" =? "X")%char) with true. cbn [negb].
    split; [discriminate|]. intros _.
    unfold update_physics. cbn [set_engines_on engines_on]. cbn. auto.
  - assert (Hgt : (C s >? 0) = true) by lia. rewrite Hgt in *.
    cbn [andb] in *.
    destruct ((cmd =? "Y")%char) eqn:HY.
    + apply Ascii.eqb_eq in HY. subst cmd.
      change (("Y" =? "Z")%char) with false in *.
      change (("Y" =? "X")%char) with false. cbn [orb andb negb] in *.
      apply negb_false_iff in Hres. rewrite Hres.
      split; [|discriminate]. intros _.
      unfold update_physics. rewrite Hres. cbn.
      repeat split; auto. discriminate.
    + destruct ((cmd =? "Z")%char) eqn:HZ.
      * apply Ascii.eqb_eq in HZ. subst cmd.
        change (("Z" =? "X")%char) with false. cbn [orb andb negb] in *.
        apply negb_false_iff in Hres. rewrite Hres.
        split; [|discriminate]. intros _.
        unfold update_physics. rewrite Hres. cbn.
        repeat split; auto. discriminate.
      * assert (HX : cmd = "X"%char).
        { destruct Hcmd as [-> | [-> | ->]];
            [discriminate HY | discriminate HZ | reflexivity]. }
        subst cmd. cbn [orb andb]. split; [discriminate|]. intros _.
        change (("X" =? "X")%char) with true. cbn [negb].
        unfold update_physics.
        destruct (truthy (engines_on s)); cbn; auto.
Qed.

(** X1.  What handle_game_turn does to fuel and velocity on a turn
    command (Y, Z or X, the only ones main passes to it) is decided by one
    test: the turn is a powered burn (Y or Z with fuel left and the engines
    on).  A powered burn takes exactly one unit of fuel,
    adds engine_force * dt to the vertical velocity on top of gravity and
    shifts the horizontal velocity by 0.3 * engine_force * dt (up for Y,
    down for Z).  Any other call leaves fuel and horizontal velocity
    untouched. *)
Theorem only_powered_burns_spend_fuel (s : GameState D) cfg cmd over :
  (cmd = "Y" \/ cmd = "Z" \/ cmd = "X")%char ->
  let s' := turn_state (handle_game_turn s cfg cmd over) in
  let v0 := d_sub (vel_v s) (d_mul (gravity cfg) (time_step s)) in
  let push := d_mul (d_mul (engine_force cfg) (time_step s)) (d_lit 0.3) in
  (C s' = C s - 1 <-> powered_burn s cmd = true)
  /\ (C s' = C s <-> powered_burn s cmd = false)
  /\ (powered_burn s cmd = true ->
      vel_v s' = d_add v0 (d_mul (engine_force cfg) (time_step s))
      /\ (cmd = "Y"%char -> vel_h s' = d_add (vel_h s) push)
      /\ (cmd = "Z"%char -> vel_h s' = d_sub (vel_h s) push))
  /\ (powered_burn s cmd = false -> vel_h s' = vel_h s).
Proof.
  intros Hcmd s' v0 push.
  destruct (turn_rejected s cmd) eqn:Hrej.
  - assert (Hs : s' = s) by
      (subst s'; rewrite (handle_game_turn_rejected s cfg cmd over Hrej);
       reflexivity).
    assert (Hnp : powered_burn s cmd = false).
    { unfold turn_rejected in Hrej. unfold powered_burn.
      apply andb_true_iff in Hrej as [_ Hoff].
      apply negb_true_iff in Hoff. rewrite Hoff. apply andb_false_r. }
    rewrite Hs, Hnp.
    repeat split; try discriminate; auto; intros H; try lia.
  - destruct (resolved_turn_velocity s cfg cmd over Hcmd Hrej) as (Hon & Hoff).
    fold s' in Hon, Hoff. fold v0 in Hon. fold push in Hon.
    destruct (powered_burn s cmd).
    + destruct (Hon eq_refl) as (HC & Hv & HY & HZ).
      repeat split; auto; try discriminate; intros H; lia.
    + destruct (Hoff eq_refl) as (HC & Hv & Hh).
      repeat split; auto; try discriminate; intros H; lia.
Qed.

End TurnPhysics.

Lemma only_powered_burns_spend_fuel_witness :
  C (turn_state (handle_game_turn (D := Q) scenario_state scenario_config
                   "Y" 0))
  = (C (scenario_state (D := Q)) - 1)%Z
  /\ C (turn_state (handle_game_turn (D := Q) scenario_state scenario_config
                      "X" 0))
     = C (scenario_state (D := Q)).
Proof.
  split.
  - apply (proj1 (only_powered_burns_spend_fuel (D := Q) scenario_state
                    scenario_config "Y"%char 0 (or_introl eq_refl))).
    reflexivity.
  - apply (proj1 (proj2 (only_powered_burns_spend_fuel (D := Q) scenario_state
                    scenario_config "X"%char 0
                    (or_intror (or_intror eq_refl))))).
    reflexivity.
Defined.

(** ** Altitude, landing and the two index computations, over exact
    arithmetic *)

Lemma update_physics_altitude (s : GameState Q) (cfg : GameConfig Q)
    (cmd : ascii) :
  let s' := update_physics s cfg cmd in
  0 <= B s'
  /\ A s' = A s + vel_h s' * time_step s
  /\ ((0 <= B s + vel_v s' * time_step s
       /\ B s' = B s + vel_v s' * time_step s)
      \/ (B s + vel_v s' * time_step s < 0 /\ B s' = 0)).
Proof.
  unfold update_physics.
  destruct (if truthy (engines_on s)
            then if (cmd =? "Y")%char
                 then (d_add (d_sub (vel_v s) (d_mul (gravity cfg) (time_step s)))
                             (d_mul (engine_force cfg) (time_step s)),
                       d_add (vel_h s)
                             (d_mul (d_mul (engine_force cfg) (time_step s))
                                    (d_lit 0.3)))
                 else if (cmd =? "Z")%char
                      then (d_add (d_sub (vel_v s)
                                         (d_mul (gravity cfg) (time_step s)))
                                  (d_mul (engine_force cfg) (time_step s)),
                            d_sub (vel_h s)
                                  (d_mul (d_mul (engine_force cfg) (time_step s))
                                         (d_lit 0.3)))
                      else (d_sub (vel_v s) (d_mul (gravity cfg) (time_step s)),
                            vel_h s)
            else (d_sub (vel_v s) (d_mul (gravity cfg) (time_step s)),
                  vel_h s)) as [v1 h1].
  cbn [A B vel_h vel_v]. q_ops. change (inject_Z 0) with 0.
  destruct (Qltb (B s + v1 * time_step s) 0) eqn:Hneg.
  - apply Qltb_lt in Hneg. split; [apply Qle_refl|]. split; [reflexivity|].
    right. split; [exact Hneg | reflexivity].
  - apply Qltb_ge in Hneg. split; [exact Hneg|]. split; [reflexivity|].
    left. split; [exact Hneg | reflexivity].
Qed.

(** X2.  update_physics never leaves the altitude negative: it advances
    the position with the velocity it has just updated, and an altitude
    that would fall below 0 is set to 0.  The same holds after every
    resolved turn of handle_game_turn. *)
Theorem altitude_never_negative (s : GameState Q) (cfg : GameConfig Q)
    (cmd : ascii) (over : Z) :
  (let s' := update_physics s cfg cmd in
   0 <= B s'
   /\ A s' = A s + vel_h s' * time_step s
   /\ ((0 <= B s + vel_v s' * time_step s
        /\ B s' = B s + vel_v s' * time_step s)
       \/ (B s + vel_v s' * time_step s < 0 /\ B s' = 0)))
  /\ (turn_rejected s cmd = false ->
      0 <= B (turn_state (handle_game_turn s cfg cmd over))).
Proof.
  split; [apply update_physics_altitude|].
  intros Hres. rewrite (handle_game_turn_resolved s cfg cmd over Hres).
  unfold resolved_state.
  destruct (radar_decay_physics (pre_decay_state s cfg cmd)) as (_ & -> & _).
  unfold pre_decay_state.
  destruct (negb _); cbn [set_C B]; apply update_physics_altitude.
Qed.

(** A drift on the ground with a downward velocity of 3: the altitude is
    floored at 0. *)
Lemma altitude_never_negative_witness :
  0 <= B (turn_state (handle_game_turn
                        (grounded 0 0 (-3)) scenario_config "X" 0)).
Proof.
  apply (altitude_never_negative (grounded 0 0 (-3)) scenario_config "X" 0).
  reflexivity.
Defined.

(** X3.  A landing can only count as a success below the plain limits:
    check_landing returns 1 only on the ground, with |vertical velocity| <
    2.0 and |horizontal velocity| < 1.5, and, inside the mapped range, on
    a sample whose height is below 7.5 in size - on rougher ground the
    penalty leaves no velocity that passes, not even a standstill. *)
Theorem success_needs_base_limits (s : GameState Q) :
  check_landing s = 1%Z ->
  B s <= 0
  /\ Qabs (vel_v s) < 2
  /\ Qabs (vel_h s) < 1.5
  /\ (-100 <= A s /\ A s <= 100 ->
      Qabs (terrain_at s (clamped_index (A s))) < 7.5).
Proof.
  intros Hok.
  assert (Hb : B s <= 0).
  { destruct (Qlt_le_dec 0 (B s)) as [Hpos | Hle]; [|exact Hle].
    exfalso. unfold check_landing in Hok. revert Hok. q_ops.
    change (inject_Z 0) with 0.
    apply Qle_bool_gt in Hpos. rewrite Hpos. discriminate. }
  destruct (check_landing_ground s Hb) as (H1 & _).
  destruct (proj1 H1 Hok) as (Hv & Hh).
  destruct (terrain_penalty_cases s) as (Hin & Hout).
  pose proof (Qabs_nonneg (vel_v s)) as Hv0.
  pose proof (Qabs_nonneg (vel_h s)) as Hh0.
  pose proof (Qabs_nonneg (terrain_at s (clamped_index (A s)))) as Ht0.
  assert (Hp : 0 <= terrain_penalty s).
  { destruct (Qlt_le_dec (A s) (-100)) as [Hlo | Hlo].
    - rewrite Hout; [apply Qle_refl|]. intros [H _].
      apply (Qlt_not_le _ _ Hlo H).
    - destruct (Qlt_le_dec 100 (A s)) as [Hhi | Hhi].
      + rewrite Hout; [apply Qle_refl|]. intros [_ H].
        apply (Qlt_not_le _ _ Hhi H).
      + rewrite (Hin (conj Hlo Hhi)). lra. }
  split; [exact Hb|]. split; [lra|]. split; [lra|].
  intros Hrange. specialize (Hin Hrange). rewrite Hin in Hh. lra.
Qed.

(** A soft landing on the sample of height 1 at A = 25. *)
Lemma success_needs_base_limits_witness :
  B (grounded 25 0.5 (-1.7)) <= 0
  /\ Qabs (vel_v (grounded 25 0.5 (-1.7))) < 2
  /\ Qabs (vel_h (grounded 25 0.5 (-1.7))) < 1.5
  /\ (-100 <= A (grounded 25 0.5 (-1.7)) /\ A (grounded 25 0.5 (-1.7)) <= 100 ->
      Qabs (terrain_at (grounded 25 0.5 (-1.7))
              (clamped_index (A (grounded 25 0.5 (-1.7))))) < 7.5).
Proof.
  apply (success_needs_base_limits (grounded 25 0.5 (-1.7))). reflexivity.
Defined.

(** X4.  The Landing Evaluator and the Safety Scorer compute their index
    in two places.  The evaluator's index is always the scorer's, clamped to
    0..20; for a position inside [-100, 100] (each end included) the two
    are the same sample, so the logged safety of a landing there refers to
    the ground the penalty was taken from. *)
Theorem evaluator_and_scorer_share_the_sample (s : GameState Q) :
  landing_index s = Z.max 0 (Z.min 20 (safety_index (A s)))
  /\ (-100 <= A s /\ A s <= 100 ->
      landing_index s = safety_index (A s)
      /\ (0 <= safety_index (A s) <= 20)%Z).
Proof.
  assert (Hsame : safety_index (A s) = Q_to_int ((A s + 100) / 10))
    by reflexivity.
  rewrite landing_index_clamped, Hsame. split; [reflexivity|].
  intros [Hlo Hhi].
  destruct (landing_index_in_range (A s) Hlo Hhi) as (Hr & Hc).
  split; [exact Hc | exact Hr].
Qed.

(** The right edge of the map, A = 100: both read sample 20. *)
Lemma evaluator_and_scorer_share_the_sample_witness :
  landing_index (grounded 100 0 0) = 20%Z
  /\ safety_index (A (grounded 100 0 0)) = 20%Z.
Proof.
  destruct (evaluator_and_scorer_share_the_sample (grounded 100 0 0))
    as (_ & Hin).
  destruct Hin as (Heq & _); [split; discriminate|].
  split; [rewrite Heq|]; reflexivity.
Defined.

Lemma Qabs_zero (x : Q) : Qabs x == 0 <-> x == 0.
Proof.
  split.
  - intros H. assert (Hle : Qabs x <= 0) by (rewrite H; apply Qle_refl).
    apply Qabs_Qle_condition in Hle. destruct Hle as [H1 H2].
    apply Qle_antisym; [exact H2|]. assert (E : - 0 == 0) by reflexivity.
    rewrite E in H1. exact H1.
  - intros H. rewrite H. reflexivity.
Qed.

(** A double that compares equal to 0 is one of the two zeros. *)
Lemma B64_eqb_zero (x : float) :
  PrimFloat.eqb x PrimFloat.zero = true ->
  x = PrimFloat.zero \/ x = PrimFloat.neg_zero.
Proof.
  intros H. rewrite eqb_spec in H.
  rewrite <- (SF2Prim_Prim2SF x).
  change (Prim2SF PrimFloat.zero) with (S754_zero false) in H.
  destruct (Prim2SF x) as [[|] | [|] | | [|] m e]; try discriminate H.
  - right. reflexivity.
  - left. reflexivity.
Qed.

(** X5.  The full score of the Safety Scorer.  In exact arithmetic the
    score is 100 exactly on flat ground at height 0: the sample the
    coordinate maps to is 0 and, for an interior sample, so are both
    neighbours (the end samples 0 and 20 have no slope term: there the
    height alone decides).  In binary64, as the program computes, flat
    ground scores 100 as well, but not flat ground only: the deductions of
    a bump of 2^-60 are rounded away and the score is exactly 100. *)
Theorem full_score_iff_flat :
  (forall (s : GameState Q) (x : Q),
     (0 <= safety_index x <= 20)%Z ->
     (calculate_landing_safety s x == 100 <->
      terrain_at s (safety_index x) == 0
      /\ ((0 < safety_index x < 20)%Z ->
          terrain_at s (safety_index x - 1) == 0
          /\ terrain_at s (safety_index x + 1) == 0)))
  /\ (forall (s : GameState float) (x : float),
        (0 <= safety_index x <= 20)%Z ->
        PrimFloat.eqb (terrain_at s (safety_index x)) PrimFloat.zero = true ->
        ((0 < safety_index x < 20)%Z ->
         PrimFloat.eqb (terrain_at s (safety_index x - 1)) PrimFloat.zero
         = true
         /\ PrimFloat.eqb (terrain_at s (safety_index x + 1)) PrimFloat.zero
            = true) ->
        calculate_landing_safety s x = d_lit 100)
  /\ (safety_index (D := float) (d_of_Z 0) = 10%Z
      /\ PrimFloat.ltb PrimFloat.zero (terrain_at nearly_flat 10) = true
      /\ calculate_landing_safety nearly_flat (d_of_Z 0) = d_lit 100).
Proof.
  split; [|split].
  { intros s x.
    intros Hi. unfold calculate_landing_safety.
    set (i := safety_index x) in *. q_ops.
    change (inject_Z 0) with 0. change (inject_Z 10) with 10.
    change (inject_Z 5) with 5.
    assert (Hin : ((i <? 0)%Z || (i >=? 21)%Z) = false)
      by (apply orb_false_iff; split; lia).
    rewrite Hin.
    set (h := terrain_at s i). set (hl := terrain_at s (i - 1)).
    set (hr := terrain_at s (i + 1)).
    pose proof (Qabs_nonneg h) as Ha.
    pose proof (Qabs_nonneg (h - hl)) as Hl.
    pose proof (Qabs_nonneg (hr - h)) as Hr.
    pose proof (Qabs_zero h) as Za.
    pose proof (Qabs_zero (h - hl)) as Zl.
    pose proof (Qabs_zero (hr - h)) as Zr.
    set (a := Qabs h) in *.
    set (l := Qabs (h - hl)) in *.
    set (r := Qabs (hr - h)) in *.
    clearbody a l r h hl hr.
    destruct ((i >? 0)%Z && (i <? 20)%Z) eqn:Hint.
    - apply andb_true_iff in Hint as [Hi0 Hi20].
      destruct (Qle_bool 0 (100 - a * 10 - (l + r) * 5)) eqn:Hm.
      + split.
        * intros H. assert (Ea : a == 0) by lra. assert (El : l == 0) by lra.
          assert (Er : r == 0) by lra.
          apply Za in Ea. apply Zl in El. apply Zr in Er.
          split; [exact Ea|]. intros _. split; lra.
        * intros [E0 En]. destruct (En ltac:(lia)) as [El Er].
          assert (Ea : a == 0) by (apply Za; exact E0).
          assert (El' : l == 0) by (apply Zl; lra).
          assert (Er' : r == 0) by (apply Zr; lra).
          lra.
      + split; [intros H; discriminate H|].
        intros [E0 En]. destruct (En ltac:(lia)) as [El Er].
        assert (Ea : a == 0) by (apply Za; exact E0).
        assert (El' : l == 0) by (apply Zl; lra).
        assert (Er' : r == 0) by (apply Zr; lra).
        apply Qle_bool_gt in Hm. lra.
    - assert (Hedge : ~ (0 < i < 20)%Z).
      { intros [H1 H2]. apply andb_false_iff in Hint as [H | H]; lia. }
      destruct (Qle_bool 0 (100 - a * 10)) eqn:Hm.
      + split.
        * intros H. assert (Ea : a == 0) by lra. apply Za in Ea.
          split; [exact Ea|]. intros H'. contradiction.
        * intros [E0 _]. assert (Ea : a == 0) by (apply Za; exact E0). lra.
      + split; [intros H; discriminate H|].
        intros [E0 _]. assert (Ea : a == 0) by (apply Za; exact E0).
        apply Qle_bool_gt in Hm. lra.
  }
  { intros s x Hi H0 Hn. unfold calculate_landing_safety.
    set (i := safety_index x) in *.
    assert (Hin : ((i <? 0)%Z || (i >=? 21)%Z) = false)
      by (apply orb_false_iff; split; lia).
    rewrite Hin.
    apply B64_eqb_zero in H0.
    destruct ((i >? 0)%Z && (i <? 20)%Z) eqn:Hint.
    - apply andb_true_iff in Hint as [Hi0 Hi20].
      destruct (Hn ltac:(lia)) as [Hl Hr].
      apply B64_eqb_zero in Hl, Hr.
      destruct H0 as [-> | ->], Hl as [-> | ->], Hr as [-> | ->];
        vm_compute; reflexivity.
    - destruct H0 as [-> | ->]; vm_compute; reflexivity. }
  { vm_compute. repeat split. }
Qed.

(** A flat stretch of the sample terrain, in exact arithmetic and in
    binary64. *)
Lemma full_score_iff_flat_witness :
  calculate_landing_safety (D := Q) scenario_state (-10) == 100
  /\ calculate_landing_safety (D := float) scenario_state (d_of_Z (-10))
     = d_lit 100.
Proof.
  split.
  - apply (proj1 full_score_iff_flat scenario_state (-10)).
    + vm_compute. split; discriminate.
    + split; [reflexivity|]. intros _. split; reflexivity.
  - apply (proj1 (proj2 full_score_iff_flat) scenario_state (d_of_Z (-10))).
    + vm_compute. split; discriminate.
    + vm_compute. reflexivity.
    + intros _. split; vm_compute; reflexivity.
Defined.

(** ** How a turn ends a flight *)

Section TurnOutcome.

Context {D : Type} {ops : DoubleOps D}.

Local Open Scope Z_scope.

Lemma save_result_calls_app (l1 l2 : list (Output D)) :
  save_result_calls (l1 ++ l2) = save_result_calls l1 ++ save_result_calls l2.
Proof. apply flat_map_app. Qed.

Lemma radar_decay_calls_no_save (s : GameState D) :
  save_result_calls (snd (radar_decay s)) = [].
Proof.
  unfold radar_decay.
  destruct (truthy (active (radar s)) && (turns_remaining (radar s) >? 0));
    [destruct (turns_remaining (radar s) - 1 <=? 0)|]; reflexivity.
Qed.

(** game_over and the saved result after a resolved turn, by the result of
    check_landing on the state the turn leaves. *)
Lemma resolved_turn_outcome (s : GameState D) cfg cmd over :
  turn_rejected s cmd = false ->
  let r := handle_game_turn s cfg cmd over in
  (check_landing (turn_state r) = 0 ->
   turn_game_over r = over /\ save_result_calls (turn_output r) = [])
  /\ (check_landing (turn_state r) = 1 ->
      turn_game_over r = 1
      /\ save_result_calls (turn_output r) = ["SUCCESS"%string])
  /\ (check_landing (turn_state r) <> 0 ->
      check_landing (turn_state r) <> 1 ->
      turn_game_over r = 1
      /\ save_result_calls (turn_output r) = ["CRASHED"%string]).
Proof.
  intros Hres r. subst r.
  unfold turn_rejected, handle_game_turn, turn_state, turn_game_over,
    turn_output in *.
  destruct (C s <=? 0) eqn:Hle.
  - change (("X" =? "Y")%char) with false.
    change (("X" =? "Z")%char) with false.
    change (("X" =? "X")%char) with true. cbn [orb andb negb].
    pose proof (radar_decay_calls_no_save
                  (update_physics (set_engines_on s 0) cfg "X")) as Ho.
    destruct (radar_decay _) as [s3 o3]. cbn [snd fst] in *.
    unfold display_landing_radar.
    destruct (truthy (active (radar (set_engines_on s 0)))
              && (turns_remaining (radar (set_engines_on s 0)) >? 0));
      destruct (truthy (active (radar (set_engines_on s 0))));
      destruct (check_landing s3 =? 0) eqn:E0;
      destruct (check_landing s3 =? 1) eqn:E1;
      destruct (C s3 <=? 0);
      cbn [negb fst snd]; rewrite ?save_result_calls_app, Ho; cbn;
      repeat split; intros; auto; try lia; try discriminate.
  - assert (Hgt : (C s >? 0) = true) by lia.
    rewrite Hgt in Hres. cbn [andb] in Hres. rewrite Hres.
    match goal with
    | |- context [radar_decay ?a] =>
        pose proof (radar_decay_calls_no_save a) as Ho;
        destruct (radar_decay a) as [s3 o3]
    end.
    cbn [snd fst] in *. unfold display_landing_radar.
    destruct (truthy (active (radar s)) && (turns_remaining (radar s) >? 0));
      destruct (truthy (active (radar s)));
      destruct (check_landing s3 =? 0) eqn:E0;
      destruct (check_landing s3 =? 1) eqn:E1;
      destruct (C s3 <=? 0);
      cbn [negb fst snd]; rewrite ?save_result_calls_app, Ho; cbn;
      repeat split; intros; auto; try lia; try discriminate.
Qed.

End TurnOutcome.

(** X6.  A turn ends the flight exactly when it brings the lander to the
    ground.  A rejected burn never ends it and does not call save_result.
    A resolved turn that leaves the altitude at 0 sets game_over to 1 and
    calls save_result exactly once, with SUCCESS when check_landing says 1
    and with CRASHED otherwise (the record is then written if the file can
    be opened); a resolved turn that leaves the lander in the air keeps
    game_over as it was and does not call save_result.  (After a resolved
    turn the altitude is never below 0, so the two cases are all there
    are.) *)
Theorem flight_ends_exactly_on_touchdown (s : GameState Q)
    (cfg : GameConfig Q) (cmd : ascii) (over : Z) :
  let r := handle_game_turn s cfg cmd over in
  (turn_rejected s cmd = true ->
   turn_game_over r = over /\ save_result_calls (turn_output r) = [])
  /\ (turn_rejected s cmd = false ->
      (B (turn_state r) <= 0 ->
       turn_game_over r = 1%Z
       /\ save_result_calls (turn_output r)
          = [if (check_landing (turn_state r) =? 1)%Z
             then "SUCCESS"%string else "CRASHED"%string])
      /\ (0 < B (turn_state r) ->
          turn_game_over r = over /\ save_result_calls (turn_output r) = [])).
Proof.
  intros r. split.
  - intros Hrej. subst r.
    rewrite (handle_game_turn_rejected s cfg cmd over Hrej). split; reflexivity.
  - intros Hres.
    destruct (resolved_turn_outcome s cfg cmd over Hres) as (H0 & H1 & Hc).
    fold r in H0, H1, Hc. split.
    + intros Hb. destruct (check_landing_ground (turn_state r) Hb) as (G1 & G2).
      destruct (Z.eq_dec (check_landing (turn_state r)) 1) as [E1 | E1].
      * rewrite E1. cbn. apply H1. exact E1.
      * assert (Hne : (check_landing (turn_state r) =? 1)%Z = false)
          by (apply Z.eqb_neq; exact E1).
        rewrite Hne. apply Hc; [|exact E1].
        intros E0. revert E0. unfold check_landing. q_ops.
        change (inject_Z 0) with 0.
        apply Qle_bool_iff in Hb. rewrite Hb.
        destruct (_ && _); discriminate.
    + intros Hb. apply H0. unfold check_landing. q_ops.
      change (inject_Z 0) with 0.
      apply Qle_bool_gt in Hb. rewrite Hb. reflexivity.
Qed.

(** A hard touchdown, a soft one, a turn high above the ground and a
    rejected burn. *)
Lemma flight_ends_exactly_on_touchdown_witness :
  (turn_game_over (handle_game_turn (grounded 25 0.5 (-3)) scenario_config
                     "X" 0) = 1%Z
   /\ save_result_calls (turn_output (handle_game_turn (grounded 25 0.5 (-3))
                                    scenario_config "X" 0))
      = ["CRASHED"%string])
  /\ (turn_game_over (handle_game_turn (D := Q) scenario_state scenario_config
                        "Y" 0) = 0%Z
      /\ save_result_calls (turn_output (handle_game_turn (D := Q) scenario_state
                                       scenario_config "Y" 0)) = [])
  /\ (turn_game_over (handle_game_turn (grounded 25 0.5 (-3)) scenario_config
                        "Y" 0) = 0%Z
      /\ save_result_calls (turn_output (handle_game_turn (grounded 25 0.5 (-3))
                                       scenario_config "Y" 0)) = []).
Proof.
  split; [|split].
  - destruct (flight_ends_exactly_on_touchdown (grounded 25 0.5 (-3))
                scenario_config "X" 0) as (_ & Hres).
    destruct (Hres eq_refl) as (Hground & _).
    apply Hground. vm_compute. discriminate.
  - destruct (flight_ends_exactly_on_touchdown scenario_state
                scenario_config "Y" 0) as (_ & Hres).
    destruct (Hres eq_refl) as (_ & Hair).
    apply Hair. vm_compute. reflexivity.
  - destruct (flight_ends_exactly_on_touchdown (grounded 25 0.5 (-3))
                scenario_config "Y" 0) as (Hrej & _).
    apply Hrej. reflexivity.
Defined.

(** What a resolved turn keeps, and the snapshot it takes. *)
Lemma resolved_turn_frame {D} {ops : DoubleOps D} (s : GameState D) cfg cmd
    over :
  turn_rejected s cmd = false ->
  let s' := turn_state (handle_game_turn s cfg cmd over) in
  time_step s' = time_step s
  /\ prev_vel_h s' = vel_h s
  /\ prev_vel_v s' = vel_v s
  /\ ((0 < C s)%Z -> engines_on s' = engines_on s).
Proof.
  intros Hres s'. subst s'.
  rewrite (handle_game_turn_resolved s cfg cmd over Hres).
  unfold resolved_state.
  destruct (radar_decay_physics (pre_decay_state s cfg cmd))
    as (_ & _ & -> & -> & ->).
  destruct (radar_decay_frame (pre_decay_state s cfg cmd)) as (_ & -> & _).
  unfold pre_decay_state.
  destruct (C s <=? 0)%Z eqn:Hle.
  - change (("X" =? "X")%char) with true. cbn [negb].
    unfold update_physics. cbn. repeat split; auto. lia.
  - destruct (negb _); cbn [set_C time_step prev_vel_h prev_vel_v engines_on];
      destruct (update_physics_frame s cfg cmd) as (_ & He & _ & Ht);
      rewrite He, Ht; unfold update_physics;
      destruct (truthy (engines_on s)), (cmd =? "Y")%char, (cmd =? "Z")%char;
      cbn; auto.
Qed.

(** X7.  A left burn and a right burn, in either order, cancel in the
    horizontal velocity (over exact arithmetic): with the engines on and at
    least 2 units of fuel, the two turns leave the horizontal velocity
    where it was, take 2 units of fuel, and change the vertical velocity by
    twice (engine_force - gravity) * dt. *)
Theorem opposite_burns_cancel (s : GameState Q) (cfg : GameConfig Q)
    (c1 c2 : ascii) (over : Z) :
  (c1 = "Y" /\ c2 = "Z")%char \/ (c1 = "Z" /\ c2 = "Y")%char ->
  engines_on s <> 0%Z ->
  (2 <= C s)%Z ->
  let r1 := handle_game_turn s cfg c1 over in
  let r2 := handle_game_turn (turn_state r1) cfg c2 (turn_game_over r1) in
  vel_h (turn_state r2) == vel_h s
  /\ vel_v (turn_state r2)
     == vel_v s + 2 * ((engine_force cfg - gravity cfg) * time_step s)
  /\ C (turn_state r2) = (C s - 2)%Z.
Proof.
  intros Hc Heng Hfuel r1 r2.
  assert (Hon : truthy (engines_on s) = true) by now apply truthy_true.
  assert (Hcmd1 : (c1 = "Y" \/ c1 = "Z" \/ c1 = "X")%char)
    by (destruct Hc as [[-> _] | [-> _]]; auto).
  assert (Hcmd2 : (c2 = "Y" \/ c2 = "Z" \/ c2 = "X")%char)
    by (destruct Hc as [[_ ->] | [_ ->]]; auto).
  assert (Hres1 : turn_rejected s c1 = false)
    by (unfold turn_rejected; rewrite Hon; apply andb_false_r).
  assert (Hpow1 : powered_burn s c1 = true).
  { unfold powered_burn. rewrite Hon.
    assert (Hgt : (C s >? 0)%Z = true) by lia. rewrite Hgt.
    destruct Hc as [[-> _] | [-> _]]; reflexivity. }
  destruct (resolved_turn_velocity s cfg c1 over Hcmd1 Hres1) as (Hb1 & _).
  destruct (Hb1 Hpow1) as (HC1 & Hv1 & HY1 & HZ1).
  destruct (resolved_turn_frame s cfg c1 over Hres1) as (Ht1 & _ & _ & He1).
  specialize (He1 ltac:(lia)).
  fold r1 in HC1, Hv1, HY1, HZ1, Ht1, He1.
  set (s1 := turn_state r1) in *.
  assert (Hon1 : truthy (engines_on s1) = true) by (rewrite He1; exact Hon).
  assert (Hres2 : turn_rejected s1 c2 = false)
    by (unfold turn_rejected; rewrite Hon1; apply andb_false_r).
  assert (Hpow2 : powered_burn s1 c2 = true).
  { unfold powered_burn. rewrite Hon1.
    assert (Hgt : (C s1 >? 0)%Z = true) by lia. rewrite Hgt.
    destruct Hc as [[_ ->] | [_ ->]]; reflexivity. }
  destruct (resolved_turn_velocity s1 cfg c2 (turn_game_over r1) Hcmd2 Hres2)
    as (Hb2 & _).
  destruct (Hb2 Hpow2) as (HC2 & Hv2 & HY2 & HZ2).
  fold r2 in HC2, Hv2, HY2, HZ2.
  rewrite Ht1 in Hv2, HY2, HZ2.
  split; [|split; [|lia]].
  - destruct Hc as [[E1 E2] | [E1 E2]].
    + rewrite (HZ2 E2), (HY1 E1). q_ops. ring.
    + rewrite (HY2 E2), (HZ1 E1). q_ops. ring.
  - rewrite Hv2, Hv1. q_ops. ring.
Qed.

(** A left burn followed by a right burn in the scenario. *)
Lemma opposite_burns_cancel_witness :
  let r1 := handle_game_turn (D := Q) scenario_state scenario_config "Y" 0 in
  let r2 := handle_game_turn (turn_state r1) scenario_config "Z"
              (turn_game_over r1) in
  vel_h (turn_state r2) == vel_h (D := Q) scenario_state
  /\ vel_v (turn_state r2)
     == vel_v (D := Q) scenario_state
        + 2 * ((engine_force scenario_config - gravity scenario_config)
               * time_step (D := Q) scenario_state)
  /\ C (turn_state r2) = (5 - 2)%Z.
Proof.
  apply (opposite_burns_cancel scenario_state scenario_config "Y" "Z" 0);
    [left; split; reflexivity | discriminate | cbn; lia].
Defined.

(** X8.  In Delta V mode the status after a resolved turn shows the change
    of that turn: update_physics snapshots both velocities before it
    changes them, so the two figures are the new velocity minus the old one,
    computed with the program's subtraction - in every arithmetic (first
    part).  In exact arithmetic the horizontal figure is therefore 0 unless
    the turn was a powered burn, when it is +/- 0.3 * engine_force * dt, and
    the vertical figure is minus gravity * dt, plus engine_force * dt for a
    powered burn (second part).  In binary64 the figures can differ from
    these in the last digits: a drift at -15 under gravity 1.6 shows
    (-15 - 1.6) - (-15) = -1.6000000000000014. *)
Theorem delta_v_shows_the_turn :
  (forall (D : Type) (ops : DoubleOps D) (s : GameState D)
          (cfg : GameConfig D) (cmd : ascii) (over : Z),
     (cmd = "Y" \/ cmd = "Z" \/ cmd = "X")%char ->
     turn_rejected s cmd = false ->
     let s' := turn_state (handle_game_turn s cfg cmd over) in
     let fall := d_sub (vel_v s) (d_mul (gravity cfg) (time_step s)) in
     let lift := d_mul (engine_force cfg) (time_step s) in
     let push := d_mul (d_mul (engine_force cfg) (time_step s)) (d_lit 0.3) in
     status_delta_h s' = d_sub (vel_h s') (vel_h s)
     /\ status_delta_v s' = d_sub (vel_v s') (vel_v s)
     /\ (powered_burn s cmd = false ->
         status_delta_h s' = d_sub (vel_h s) (vel_h s)
         /\ status_delta_v s' = d_sub fall (vel_v s))
     /\ (powered_burn s cmd = true ->
         status_delta_v s' = d_sub (d_add fall lift) (vel_v s)
         /\ (cmd = "Y"%char ->
             status_delta_h s' = d_sub (d_add (vel_h s) push) (vel_h s))
         /\ (cmd = "Z"%char ->
             status_delta_h s' = d_sub (d_sub (vel_h s) push) (vel_h s))))
  /\ (forall (s : GameState Q) (cfg : GameConfig Q) (cmd : ascii) (over : Z),
        (cmd = "Y" \/ cmd = "Z" \/ cmd = "X")%char ->
        turn_rejected s cmd = false ->
        let s' := turn_state (handle_game_turn s cfg cmd over) in
        (powered_burn s cmd = false ->
         status_delta_h s' == 0
         /\ status_delta_v s' == - (gravity cfg * time_step s))
        /\ (powered_burn s cmd = true ->
            status_delta_v s' == (engine_force cfg - gravity cfg) * time_step s
            /\ (cmd = "Y"%char ->
                status_delta_h s' == 0.3 * engine_force cfg * time_step s)
            /\ (cmd = "Z"%char ->
                status_delta_h s'
                == - (0.3 * engine_force cfg * time_step s)))).
Proof.
  assert (Hgen : forall (D : Type) (ops : DoubleOps D) (s : GameState D)
          (cfg : GameConfig D) (cmd : ascii) (over : Z),
     (cmd = "Y" \/ cmd = "Z" \/ cmd = "X")%char ->
     turn_rejected s cmd = false ->
     let s' := turn_state (handle_game_turn s cfg cmd over) in
     let fall := d_sub (vel_v s) (d_mul (gravity cfg) (time_step s)) in
     let lift := d_mul (engine_force cfg) (time_step s) in
     let push := d_mul (d_mul (engine_force cfg) (time_step s)) (d_lit 0.3) in
     status_delta_h s' = d_sub (vel_h s') (vel_h s)
     /\ status_delta_v s' = d_sub (vel_v s') (vel_v s)
     /\ (powered_burn s cmd = false ->
         status_delta_h s' = d_sub (vel_h s) (vel_h s)
         /\ status_delta_v s' = d_sub fall (vel_v s))
     /\ (powered_burn s cmd = true ->
         status_delta_v s' = d_sub (d_add fall lift) (vel_v s)
         /\ (cmd = "Y"%char ->
             status_delta_h s' = d_sub (d_add (vel_h s) push) (vel_h s))
         /\ (cmd = "Z"%char ->
             status_delta_h s' = d_sub (d_sub (vel_h s) push) (vel_h s)))).
  { intros D ops s cfg cmd over Hcmd Hres s' fall lift push.
    destruct (resolved_turn_frame s cfg cmd over Hres) as (_ & Hph & Hpv & _).
    destruct (resolved_turn_velocity s cfg cmd over Hcmd Hres)
      as (Hon & Hoff).
    fold s' in Hph, Hpv, Hon, Hoff. fold fall in Hon, Hoff.
    fold push in Hon. fold lift in Hon.
    unfold status_delta_h, status_delta_v. rewrite Hph, Hpv.
    split; [reflexivity|]. split; [reflexivity|]. split.
    - intros Hnp. destruct (Hoff Hnp) as (_ & -> & ->). auto.
    - intros Hp. destruct (Hon Hp) as (_ & -> & HY & HZ).
      split; [reflexivity|]. split; intros E.
      + now rewrite (HY E).
      + now rewrite (HZ E). }
  split; [exact Hgen|].
  intros s cfg cmd over Hcmd Hres s'.
  destruct (Hgen Q Q_double s cfg cmd over Hcmd Hres)
    as (_ & _ & Hoff & Hon).
  fold s' in Hoff, Hon. split.
  - intros Hnp. destruct (Hoff Hnp) as (-> & ->). q_ops. split; ring.
  - intros Hp. destruct (Hon Hp) as (Hv & HY & HZ).
    split; [rewrite Hv; q_ops; ring|]. split; intros E.
    + rewrite (HY E). q_ops. ring.
    + rewrite (HZ E). q_ops. ring.
Qed.

(** The first burn of the scenario in exact arithmetic: 0.9 sideways, 1.4
    upward; and a drift at -15 in binary64, where the vertical figure is
    not the double -1.6. *)
Lemma delta_v_shows_the_turn_witness :
  (let s' := turn_state (handle_game_turn (D := Q) scenario_state
                           scenario_config "Y" 0) in
   status_delta_h s' == 0.3 * engine_force scenario_config
                        * time_step (D := Q) scenario_state
   /\ status_delta_v s'
      == (engine_force scenario_config - gravity scenario_config)
         * time_step (D := Q) scenario_state)
  /\ (let s' := turn_state (handle_game_turn (D := float)
                              (descending (d_of_Z (-15))) scenario_config
                              "X" 0) in
      status_delta_v s'
      = d_sub (d_sub (d_of_Z (-15)) (d_mul (d_lit 1.6) (d_lit 1)))
              (d_of_Z (-15))
      /\ PrimFloat.eqb (status_delta_v s') (PrimFloat.opp (d_lit 1.6))
         = false
      /\ PrimFloat.ltb (status_delta_v s') (PrimFloat.opp (d_lit 1.6))
         = true).
Proof.
  split.
  - destruct (proj2 delta_v_shows_the_turn scenario_state scenario_config
                "Y"%char 0%Z) as (_ & Hp); [auto | reflexivity |].
    destruct (Hp eq_refl) as (Hv & HY & _).
    split; [apply HY; reflexivity | exact Hv].
  - destruct (proj1 delta_v_shows_the_turn float B64_double
                (descending (d_of_Z (-15))) scenario_config "X"%char 0%Z)
      as (_ & _ & Hoff & _); [auto | reflexivity |].
    destruct (Hoff eq_refl) as (_ & Hv).
    split; [exact Hv|]. split; vm_compute; reflexivity.
Defined.

(** ** The command loop *)

Lemma toupper_idempotent (c : ascii) : toupper (toupper c) = toupper c.
Proof.
  destruct c as [[] [] [] [] [] [] [] []]; reflexivity.
Qed.

Section CommandLoop.

Context {D : Type} {ops : DoubleOps D} {libm : Libm D}.

Local Open Scope Z_scope.

(** X9.  Commands are case-insensitive: the main loop does with a
    character exactly what it does with its upper-case form - same session,
    same output. *)
Theorem commands_are_case_insensitive menu (command : ascii)
    (ss : Session D) :
  main_step menu (toupper command) ss = main_step menu command ss.
Proof.
  unfold main_step. rewrite toupper_idempotent. reflexivity.
Qed.

Lemma known_command_false (c : ascii) :
  known_command c = false ->
  (c =? "V")%char = false /\ (c =? "C")%char = false
  /\ (c =? "Q")%char = false /\ (c =? "W")%char = false
  /\ (c =? "S")%char = false /\ (c =? "R")%char = false
  /\ (c =? "Y")%char = false /\ (c =? "Z")%char = false
  /\ (c =? "X")%char = false.
Proof.
  unfold known_command. cbn [existsb]. intros H.
  repeat (apply orb_false_iff in H; destruct H as [? H]).
  repeat split; assumption.
Qed.

(** X10.  A character that is none of the nine commands never changes
    anything: the session after the pass is the session before, and the
    only output is one line, the game-over reminder while no flight is in
    progress and the list of commands otherwise. *)
Theorem unknown_commands_change_nothing menu (command : ascii)
    (ss : Session D) :
  known_command (toupper command) = false ->
  main_step menu command ss
  = (Some ss, [Message (if truthy (game_over ss)
                        then MSG_GAME_OVER else MSG_UNKNOWN)]).
Proof.
  intros Hun.
  destruct (known_command_false _ Hun)
    as (HV & HC & HQ & HW & HS & HR & HY & HZ & HX).
  unfold main_step. rewrite HV, HC, HQ, HW, HS, HR, HY, HZ, HX.
  destruct (truthy (game_over ss)); reflexivity.
Qed.

(** X11.  The program ends only on the Q command: a pass of the main loop
    returns from [main] exactly when the character is q or Q, whatever the
    session, also while no flight is in progress. *)
Theorem program_ends_only_on_Q menu (command : ascii) (ss : Session D) :
  next_session menu command ss = None <-> toupper command = "Q"%char.
Proof.
  unfold next_session, main_step. split.
  - intros Hnone. apply Ascii.eqb_eq.
    destruct ((toupper command =? "Q")%char); [reflexivity|].
    exfalso. revert Hnone.
    destruct (truthy (game_over ss)); cbn [andb negb];
      destruct ((toupper command =? "V")%char); cbn [andb negb];
      try (destruct (init_game _ _ _); discriminate);
      destruct ((toupper command =? "C")%char); cbn [andb negb];
      try discriminate;
      destruct ((toupper command =? "W")%char); try discriminate;
      destruct ((toupper command =? "S")%char); try discriminate;
      destruct ((toupper command =? "R")%char);
      try (destruct (C (state ss) >? 0); discriminate);
      destruct ((toupper command =? "Y")%char || (toupper command =? "Z")%char
                || (toupper command =? "X")%char);
      try (cbn [negb]; destruct (handle_game_turn _ _ _ _) as [[? ?] ?];
           discriminate);
      discriminate.
  - intros ->. change (("Q" =? "Q")%char) with true.
    change (("Q" =? "V")%char) with false.
    change (("Q" =? "C")%char) with false.
    cbn [negb andb]. rewrite andb_false_r. reflexivity.
Qed.



End CommandLoop.


(** The character '?' during the scenario's flight. *)
Lemma unknown_commands_change_nothing_witness :
  main_step (libm := poly_libm) (fun c => c) "?"
    (demo_session scenario_state)
  = (Some (demo_session scenario_state), [Message MSG_UNKNOWN]).
Proof.
  apply (unknown_commands_change_nothing (libm := poly_libm) (fun c => c)
           "?"%char (demo_session scenario_state)).
  reflexivity.
Defined.

(** ** Command-line arguments *)

Lemma parse_args_flag (args : list string) (flag : Z) :
  (parse_args args flag = None <-> exists a, In a args /\ is_help_flag a)
  /\ (forall v, parse_args args flag = Some v ->
        (v = 1%Z /\ exists a, In a args /\ is_delta_v_flag a)
        \/ (v = flag /\ forall a, In a args -> ~ is_delta_v_flag a)).
Proof.
  revert flag. induction args as [|a rest IH]; intros flag.
  - cbn. split.
    + split; [discriminate|]. intros (a & [] & _).
    + intros v [= <-]. right. split; [reflexivity|]. intros a [].
  - cbn [parse_args].
    destruct ((a =? "--delta-v")%string || (a =? "-d")%string) eqn:Hd.
    + assert (Hda : is_delta_v_flag a).
      { apply orb_true_iff in Hd as [H | H]; apply String.eqb_eq in H;
          [left | right]; exact H. }
      destruct (IH 1%Z) as (IHn & IHs). split.
      * rewrite IHn. split.
        -- intros (b & Hin & Hb). exists b. cbn. auto.
        -- intros (b & [<- | Hin] & Hb).
           ++ exfalso. destruct Hda as [-> | ->], Hb as [Hb | Hb];
                discriminate Hb.
           ++ exists b. auto.
      * intros v Hv. left.
        destruct (IHs v Hv) as [(-> & _) | (-> & _)];
          (split; [reflexivity|]; exists a; cbn; auto).
    + assert (Hnd : ~ is_delta_v_flag a).
      { apply orb_false_iff in Hd as [H1 H2].
        apply String.eqb_neq in H1. apply String.eqb_neq in H2.
        intros [H | H]; contradiction. }
      destruct ((a =? "--help")%string || (a =? "-h")%string) eqn:Hh.
      * assert (Hha : is_help_flag a).
        { apply orb_true_iff in Hh as [H | H]; apply String.eqb_eq in H;
            [left | right]; exact H. }
        split; [|discriminate]. split; [|reflexivity].
        intros _. exists a. cbn. auto.
      * assert (Hnh : ~ is_help_flag a).
        { apply orb_false_iff in Hh as [H1 H2].
          apply String.eqb_neq in H1. apply String.eqb_neq in H2.
          intros [H | H]; contradiction. }
        destruct (IH flag) as (IHn & IHs). split.
        -- rewrite IHn. split.
           ++ intros (b & Hin & Hb). exists b. cbn. auto.
           ++ intros (b & [<- | Hin] & Hb); [contradiction|].
              exists b. auto.
        -- intros v Hv.
           destruct (IHs v Hv) as [(-> & b & Hin & Hb) | (-> & Hnone)].
           ++ left. split; [reflexivity|]. exists b. cbn. auto.
           ++ right. split; [reflexivity|].
              intros b [<- | Hin]; [exact Hnd | now apply Hnone].
Qed.

(** X13.  The command line.  The program prints the help text and exits
    exactly when one of the arguments is --help or -h, wherever it stands;
    otherwise it starts, with the Delta V display on exactly when one of
    the arguments is --delta-v or -d.  Every other argument is ignored. *)
Theorem command_line_flags (args : list string) :
  (parse_args args 0 = None <-> exists a, In a args /\ is_help_flag a)
  /\ (parse_args args 0 = Some 1%Z <->
      (forall a, In a args -> ~ is_help_flag a)
      /\ exists a, In a args /\ is_delta_v_flag a)
  /\ (parse_args args 0 = Some 0%Z <->
      (forall a, In a args -> ~ is_help_flag a)
      /\ forall a, In a args -> ~ is_delta_v_flag a).
Proof.
  destruct (parse_args_flag args 0) as (Hnone & Hsome).
  assert (Hnohelp : forall v, parse_args args 0 = Some v ->
                      forall a, In a args -> ~ is_help_flag a).
  { intros v Hv a Hin Ha.
    assert (Hn : parse_args args 0 = None) by (apply Hnone; eauto).
    congruence. }
  assert (Hstart : (forall a, In a args -> ~ is_help_flag a) ->
                   exists v, parse_args args 0 = Some v).
  { intros Hno. destruct (parse_args args 0) as [v|] eqn:E; [eauto|].
    exfalso. destruct (proj1 Hnone eq_refl) as (a & Hin & Ha).
    exact (Hno a Hin Ha). }
  split; [exact Hnone|]. split; split.
  - intros Hv. split; [exact (Hnohelp _ Hv)|].
    destruct (Hsome _ Hv) as [(_ & He) | (Hbad & _)];
      [exact He | discriminate Hbad].
  - intros (Hno & b & Hin & Hb). destruct (Hstart Hno) as (v & Hv).
    destruct (Hsome _ Hv) as [(-> & _) | (-> & Hnd)]; [exact Hv|].
    exfalso. exact (Hnd b Hin Hb).
  - intros Hv. split; [exact (Hnohelp _ Hv)|].
    destruct (Hsome _ Hv) as [(Hbad & _) | (_ & Hnd)];
      [discriminate Hbad | exact Hnd].
  - intros (Hno & Hnd). destruct (Hstart Hno) as (v & Hv).
    destruct (Hsome _ Hv) as [(-> & b & Hin & Hb) | (-> & _)]; [|exact Hv].
    exfalso. exact (Hnd b Hin Hb).
Qed.

(** Three arguments with the display flag among them, and a help flag after
    the display flag. *)
Lemma command_line_flags_witness :
  parse_args ["--fast"; "-d"; "moon"]%string 0 = Some 1%Z
  /\ parse_args ["-d"; "--help"]%string 0 = None.
Proof.
  destruct (command_line_flags ["--fast"; "-d"; "moon"]%string)
    as (_ & Hon & _).
  destruct (command_line_flags ["-d"; "--help"]%string) as (Hhelp & _).
  split.
  - apply Hon. split.
    + intros a [<- | [<- | [<- | []]]] [H | H]; discriminate H.
    + exists "-d"%string. split; [cbn; auto | right; reflexivity].
  - apply Hhelp. exists "--help"%string. split; [cbn; auto | left; reflexivity].
Defined.

(** ** A new flight *)

Section NewFlight.

Context {D : Type} {ops : DoubleOps D} {libm : Libm D}.

Local Open Scope Z_scope.

Lemma calculate_landing_safety_reads_terrain (s1 s2 : GameState D) (x : D) :
  terrain_height (radar s1) = terrain_height (radar s2) ->
  calculate_landing_safety s1 x = calculate_landing_safety s2 x.
Proof.
  intros Ht. unfold calculate_landing_safety, terrain_at. rewrite Ht.
  reflexivity.
Qed.

Lemma best_landing_reads_terrain (s1 s2 : GameState D) :
  terrain_height (radar s1) = terrain_height (radar s2) ->
  best_landing s1 = best_landing s2.
Proof.
  intros Ht. unfold best_landing.
  assert (Hfold : forall l best,
            fold_left (best_step s1) l best = fold_left (best_step s2) l best).
  { induction l as [|i l IH]; intros best; [reflexivity|].
    cbn [fold_left]. rewrite IH. f_equal. unfold best_step.
    now rewrite (calculate_landing_safety_reads_terrain s1 s2 (sample_x i) Ht). }
  apply Hfold.
Qed.

Lemma init_game_forgets (s1 s2 : GameState D) cfg (g : Rng) :
  init_game s1 cfg g = init_game s2 cfg g.
Proof.
  unfold init_game, generate_terrain_data. cbn [rand].
  destruct (terrain_loop 21 0 _) as [heights g'].
  cbn [set_radar radar active turns_remaining terrain_height].
  match goal with
  | |- (let '(_, _) := best_landing ?a in _) = (let '(_, _) := best_landing ?b in _) =>
      rewrite (best_landing_reads_terrain a b eq_refl);
      destruct (best_landing b) as [bs bx]
  end.
  reflexivity.
Qed.

(** X14.  A new flight keeps nothing of what came before: the V command
    gives the same session from any two sessions that agree on the
    configuration and on the random generator - position, velocity, fuel,
    engines, radar, terrain and recommendation are all written anew, and
    game_over is cleared, also in the middle of a flight. *)
Theorem new_flight_forgets_the_past menu1 menu2 (command : ascii)
    (ss1 ss2 : Session D) :
  toupper command = "V"%char ->
  config ss1 = config ss2 ->
  rng ss1 = rng ss2 ->
  next_session menu1 command ss1 = next_session menu2 command ss2
  /\ exists ss', next_session menu1 command ss1 = Some ss'
                 /\ game_over ss' = 0 /\ config ss' = config ss1.
Proof.
  intros HV Hcfg Hrng. unfold next_session, main_step.
  rewrite HV. change (("V" =? "V")%char) with true. cbn [negb andb].
  rewrite !andb_false_r. rewrite Hcfg, Hrng.
  rewrite (init_game_forgets (state ss1) (state ss2)).
  destruct (init_game _ _ _) as [st g']. cbn. split; [reflexivity|].
  eexists. split; [reflexivity|]. cbn. auto.
Qed.

(** The number of rand() calls of one sample, and of the loop. *)
Lemma terrain_sample_draws (i : Z) (g : Rng) :
  exists k, (1 <= k <= 2)%nat
            /\ forall n, snd (terrain_sample i g) n = g (k + n)%nat.
Proof.
  unfold terrain_sample. cbn [rand].
  destruct (Z.rem (g 0%nat) 100 <? 15).
  - exists 2%nat. split; [lia|]. intros n. reflexivity.
  - exists 1%nat. split; [lia|]. intros n. reflexivity.
Qed.

Lemma terrain_loop_draws (m : nat) (i : Z) (g : Rng) :
  exists k, (m <= k <= 2 * m)%nat
            /\ forall n, snd (terrain_loop m i g) n = g (k + n)%nat.
Proof.
  revert i g. induction m as [|m IH]; intros i g.
  - exists 0%nat. split; [lia|]. intros n. reflexivity.
  - cbn [terrain_loop].
    destruct (terrain_sample_draws i g) as (k1 & Hk1 & Hg1).
    destruct (terrain_sample i g) as [h g1]. cbn [snd] in Hg1.
    destruct (IH (i + 1) g1) as (k2 & Hk2 & Hg2).
    destruct (terrain_loop m (i + 1) g1) as [rest g2]. cbn [snd] in *.
    exists (k1 + k2)%nat. split; [lia|]. intros n.
    rewrite Hg2, Hg1. f_equal. lia.
Qed.

Lemma generate_terrain_data_draws (s : GameState D) (g : Rng) :
  exists k, (21 <= k <= 42)%nat
            /\ forall n, snd (generate_terrain_data s g) n = rng_skip k g n.
Proof.
  unfold generate_terrain_data.
  destruct (terrain_loop_draws 21 0 g) as (k & Hk & Hg).
  destruct (terrain_loop 21 0 g) as [heights g']. cbn [snd] in Hg.
  destruct (best_landing _) as [bs bx]. cbn [snd].
  exists k. split; [lia | exact Hg].
Qed.

Lemma init_game_draws (s : GameState D) (cfg : GameConfig D) (g : Rng) :
  exists k, (25 <= k <= 46)%nat
            /\ forall n, snd (init_game s cfg g) n = rng_skip k g n.
Proof.
  unfold init_game. cbn [rand].
  match goal with
  | |- context [generate_terrain_data ?a ?b] =>
      destruct (generate_terrain_data_draws a b) as (k & Hk & Hg)
  end.
  exists (4 + k)%nat. split; [lia|]. intros n. rewrite Hg.
  unfold rng_skip. f_equal; lia.
Qed.


End NewFlight.

(** The same new flight from the untouched first session and from the
    middle of the scenario's flight. *)
Lemma new_flight_forgets_the_past_witness :
  next_session (libm := poly_libm) (fun c => c) "v"
    (initial_session 0 scenario_state demo_rng)
  = next_session (libm := poly_libm) (fun c => c) "v"
      {| config := config (initial_session (D := Q) 0 scenario_state demo_rng);
         state := radar_running_state; game_over := 0; rng := demo_rng |}
  /\ exists ss',
       next_session (libm := poly_libm) (fun c => c) "v"
         (initial_session 0 scenario_state demo_rng) = Some ss'
       /\ game_over ss' = 0%Z
       /\ config ss' = config (initial_session (D := Q) 0 scenario_state
                                demo_rng).
Proof.
  apply (new_flight_forgets_the_past (libm := poly_libm)
           (fun c => c) (fun c => c) "v"%char
           (initial_session 0 scenario_state demo_rng)
           {| config := config (initial_session (D := Q) 0 scenario_state
                                  demo_rng);
              state := radar_running_state; game_over := 0;
              rng := demo_rng |});
    reflexivity.
Defined.

Section FlightFrame.

Context {D : Type} {ops : DoubleOps D} {libm : Libm D}.

Local Open Scope Z_scope.

Lemma radar_decay_same_ground (s : GameState D) :
  same_ground s (fst (radar_decay s)).
Proof.
  unfold same_ground, radar_decay.
  destruct (truthy (active (radar s)) && (turns_remaining (radar s) >? 0));
    [destruct (turns_remaining (radar s) - 1 <=? 0)|]; cbn; auto.
Qed.

Lemma turn_same_ground (s : GameState D) cfg cmd over :
  same_ground s (turn_state (handle_game_turn s cfg cmd over)).
Proof.
  destruct (turn_rejected s cmd) eqn:Hrej.
  - rewrite (handle_game_turn_rejected s cfg cmd over Hrej).
    unfold same_ground. cbn. auto.
  - rewrite (handle_game_turn_resolved s cfg cmd over Hrej).
    unfold resolved_state.
    destruct (radar_decay_same_ground (pre_decay_state s cfg cmd))
      as (H1 & H2 & H3 & H4).
    pose proof (pre_decay_state_radar s cfg cmd) as Hr.
    unfold same_ground. rewrite H1, H2, H3, H4, Hr.
    repeat split. unfold pre_decay_state.
    destruct (C s <=? 0); destruct (negb _); cbn [set_C time_step];
      match goal with
      | |- context [update_physics ?a ?b ?c] =>
          destruct (update_physics_frame a b c) as (_ & _ & _ & ->)
      end; reflexivity.
Qed.

(** X16.  The ground of a flight is fixed: no command of the flight - no
    turn, no radar activation, no engine switch - changes the 21 terrain
    samples, the recommended landing zone and its score, or the turn
    duration; only the V command that starts the next flight writes them.
    So the Safety Scorer answers the same at every moment of a flight. *)
Theorem ground_is_fixed_during_a_flight (ss0 ss' : Session D) :
  same_flight ss0 ss' ->
  same_ground (state ss0) (state ss')
  /\ forall x, calculate_landing_safety (state ss') x
               = calculate_landing_safety (state ss0) x.
Proof.
  intros Hflight.
  assert (Hground : same_ground (state ss0) (state ss')); [|split].
  2: exact Hground.
  2: { intros x. apply calculate_landing_safety_reads_terrain.
       apply Hground. }
  induction Hflight as [| ss ss' menu command _ IH HV Hstep].
  - unfold same_ground. auto.
  - assert (Hstep' : same_ground (state ss) (state ss')).
    { destruct (next_session_cases menu command ss ss' Hstep)
        as [Hs | [(HV' & _) | [(v & Hs) | [(_ & _ & _ & Hs) | (_ & Hs)]]]];
        try rewrite Hs.
      - unfold same_ground. auto.
      - contradiction.
      - unfold same_ground. cbn. auto.
      - unfold same_ground. cbn. auto.
      - apply turn_same_ground. }
    unfold same_ground in *. intuition congruence.
Qed.

End FlightFrame.

(** The first flight after seven commands: the terrain it started with. *)
Lemma ground_is_fixed_during_a_flight_witness :
  match first_flight with
  | Some ss0 =>
      match run_commands (libm := poly_libm) (fun c => c)
              ["w"; "y"; "r"; "x"; "z"; "s"; "y"]%char ss0 with
      | Some ss' =>
          same_ground (state ss0) (state ss')
          /\ forall x, calculate_landing_safety (state ss') x
                       = calculate_landing_safety (state ss0) x
      | None => False
      end
  | None => False
  end.
Proof.
  destruct first_flight as [ss0|] eqn:Hfirst;
    [|vm_compute in Hfirst; discriminate Hfirst].
  destruct (run_commands _ _ ss0) as [ss'|] eqn:Hrun.
  - apply (ground_is_fixed_during_a_flight (libm := poly_libm) ss0 ss').
    eapply run_commands_same_flight; [|exact Hrun].
    repeat constructor; discriminate.
  - unfold first_flight in Hfirst. vm_compute in Hfirst.
    injection Hfirst as <-. vm_compute in Hrun. discriminate Hrun.
Defined.

Section EngineSwitch.

Context {D : Type} {ops : DoubleOps D} {libm : Libm D}.

Local Open Scope Z_scope.

(** X17.  The engine switch decides what a burn does, and costs nothing
    itself.  During a flight with fuel left: W sets engines_on and leaves
    the rest of the state alone, and a burn right after it is resolved and
    takes one unit of fuel; S clears engines_on likewise, and a burn right
    after it is rejected and changes nothing. *)
Theorem engine_switch_decides_burns menu (burn : ascii) (ss : Session D) :
  game_over ss = 0 ->
  0 < C (state ss) ->
  (toupper burn = "Y" \/ toupper burn = "Z")%char ->
  (exists ss1 ss2,
     next_session menu "W" ss = Some ss1
     /\ state ss1 = set_engines_on (state ss) 1
     /\ game_over ss1 = 0
     /\ next_session menu burn ss1 = Some ss2
     /\ C (state ss2) = C (state ss) - 1)
  /\ (exists ss1,
        next_session menu "S" ss = Some ss1
        /\ state ss1 = set_engines_on (state ss) 0
        /\ game_over ss1 = 0
        /\ next_session menu burn ss1 = Some ss1).
Proof.
  intros Hover Hfuel Hburn.
  assert (Hcmd : (toupper burn = "Y" \/ toupper burn = "Z"
                  \/ toupper burn = "X")%char) by tauto.
  assert (Hoff : truthy (game_over ss) = false) by (rewrite Hover; reflexivity).
  split.
  - set (ss1 := {| config := config ss; state := set_engines_on (state ss) 1;
                   game_over := game_over ss; rng := rng ss |}).
    assert (HW : next_session menu "W" ss = Some ss1).
    { unfold next_session, main_step. change (toupper "W") with "W"%char.
      rewrite Hoff. reflexivity. }
    exists ss1. eexists. split; [exact HW|]. split; [reflexivity|].
    split; [exact Hover|].
    unfold next_session. rewrite (main_step_turn menu burn ss1 Hcmd Hover).
    split; [reflexivity|]. cbn [fst state].
    destruct (resolved_turn_velocity (state ss1) (config ss1) (toupper burn)
                (game_over ss1) Hcmd) as (Hpow & _).
    { unfold turn_rejected. cbn. apply andb_false_r. }
    destruct Hpow as (HC & _).
    { unfold powered_burn. cbn [ss1 state set_engines_on C engines_on].
      assert (Hgt : (C (state ss) >? 0) = true) by lia. rewrite Hgt.
      destruct Hburn as [-> | ->]; reflexivity. }
    exact HC.
  - set (ss1 := {| config := config ss; state := set_engines_on (state ss) 0;
                   game_over := game_over ss; rng := rng ss |}).
    assert (HS : next_session menu "S" ss = Some ss1).
    { unfold next_session, main_step. change (toupper "S") with "S"%char.
      rewrite Hoff. reflexivity. }
    exists ss1. split; [exact HS|]. split; [reflexivity|].
    split; [exact Hover|].
    unfold next_session. rewrite (main_step_turn menu burn ss1 Hcmd Hover).
    rewrite handle_game_turn_rejected.
    + reflexivity.
    + unfold turn_rejected. cbn [ss1 state set_engines_on C engines_on].
      assert (Hgt : (C (state ss) >? 0) = true) by lia. rewrite Hgt.
      destruct Hburn as [-> | ->]; reflexivity.
Qed.

End EngineSwitch.

(** The scenario with the engines off, then W and a left burn, or S and a
    left burn. *)
Lemma engine_switch_decides_burns_witness :
  (exists ss1 ss2,
     next_session (libm := poly_libm) (fun c => c) "W"
       (demo_session (set_engines_on scenario_state 0)) = Some ss1
     /\ state ss1 = set_engines_on (set_engines_on scenario_state 0) 1
     /\ game_over ss1 = 0%Z
     /\ next_session (libm := poly_libm) (fun c => c) "y" ss1 = Some ss2
     /\ C (state ss2) = (5 - 1)%Z)
  /\ (exists ss1,
        next_session (libm := poly_libm) (fun c => c) "S"
          (demo_session (set_engines_on scenario_state 0)) = Some ss1
        /\ state ss1 = set_engines_on (set_engines_on scenario_state 0) 0
        /\ game_over ss1 = 0%Z
        /\ next_session (libm := poly_libm) (fun c => c) "y" ss1 = Some ss1).
Proof.
  apply (engine_switch_decides_burns (libm := poly_libm) (fun c => c)
           "y"%char (demo_session (set_engines_on scenario_state 0)));
    [reflexivity | cbn; lia | left; reflexivity].
Defined.

(** ** What holds in every session of the program *)

Section ProgramInvariants.

Context {D : Type} {ops : DoubleOps D} {libm : Libm D}.

Local Open Scope Z_scope.

(** One pass of the main loop, with what it does to game_over and to the
    random generator. *)
Lemma next_session_outcome menu (command : ascii) (ss ss' : Session D) :
  next_session menu command ss = Some ss' ->
  (state ss' = state ss /\ game_over ss' = game_over ss /\ rng ss' = rng ss)
  \/ (toupper command = "V"%char
      /\ state ss' = fst (init_game (state ss) (config ss) (rng ss))
      /\ rng ss' = snd (init_game (state ss) (config ss) (rng ss))
      /\ game_over ss' = 0)
  \/ (game_over ss = 0 /\ game_over ss' = 0 /\ rng ss' = rng ss
      /\ exists v, (v = 0 \/ v = 1)
                   /\ state ss' = set_engines_on (state ss) v)
  \/ (game_over ss = 0 /\ game_over ss' = 0 /\ rng ss' = rng ss
      /\ 0 < C (state ss)
      /\ state ss' = set_C (fst (activate_landing_radar (state ss)))
                           (C (state ss) - 1))
  \/ (game_over ss = 0 /\ rng ss' = rng ss
      /\ state ss' = turn_state (handle_game_turn (state ss) (config ss)
                                   (toupper command) (game_over ss))
      /\ game_over ss' = turn_game_over
                            (handle_game_turn (state ss) (config ss)
                               (toupper command) (game_over ss))).
Proof.
  unfold next_session, main_step.
  destruct (truthy (game_over ss)) eqn:Hover; cbn [andb negb].
  - destruct ((toupper command =? "V")%char) eqn:HV; cbn [andb negb].
    + destruct (init_game _ _ _) as [st g] eqn:Hinit. cbn.
      intros [= <-]. right; left. cbn.
      split; [now apply Ascii.eqb_eq|]. auto.
    + destruct ((toupper command =? "Q")%char) eqn:HQ; cbn [andb negb].
      * destruct ((toupper command =? "C")%char); cbn; [|discriminate].
        intros [= <-]. left. cbn. auto.
      * destruct ((toupper command =? "C")%char); cbn;
          intros [= <-]; left; cbn; auto.
  - apply truthy_false in Hover.
    destruct ((toupper command =? "V")%char) eqn:HV.
    { destruct (init_game _ _ _) as [st g] eqn:Hinit. cbn.
      intros [= <-]. right; left. cbn.
      split; [now apply Ascii.eqb_eq|]. auto. }
    destruct ((toupper command =? "C")%char).
    { cbn. intros [= <-]. left. cbn. auto. }
    destruct ((toupper command =? "Q")%char); [discriminate|].
    destruct ((toupper command =? "W")%char).
    { cbn. intros [= <-]. right; right; left. cbn.
      repeat split; auto. exists 1. auto. }
    destruct ((toupper command =? "S")%char).
    { cbn. intros [= <-]. right; right; left. cbn.
      repeat split; auto. exists 0. auto. }
    destruct ((toupper command =? "R")%char) eqn:HR.
    { destruct (C (state ss) >? 0) eqn:Hfuel.
      - cbn. intros [= <-]. right; right; right; left. cbn.
        repeat split; auto; lia.
      - cbn. intros [= <-]. left. auto. }
    destruct ((toupper command =? "Y")%char || (toupper command =? "Z")%char
              || (toupper command =? "X")%char).
    + cbn [negb]. destruct (handle_game_turn _ _ _ _) as [[st over] out].
      cbn. intros [= <-]. right; right; right; right. cbn. auto.
    + cbn. intros [= <-]. left. auto.
Qed.

Lemma terrain_loop_size (m : nat) (i : Z) (g : Rng) :
  List.length (fst (terrain_loop m i g)) = m.
Proof.
  revert i g. induction m as [|m IH]; intros i g; [reflexivity|].
  cbn [terrain_loop].
  destruct (terrain_sample i g) as [h g1].
  specialize (IH (i + 1) g1).
  destruct (terrain_loop m (i + 1) g1) as [rest g2].
  cbn in *. now rewrite IH.
Qed.

Lemma init_game_flight_ok (s : GameState D) cfg (g : Rng) :
  flight_ok (fst (init_game s cfg g)).
Proof.
  unfold flight_ok, radar_consistent, init_game, generate_terrain_data.
  cbn [rand].
  pose proof (terrain_loop_size 21 0 (fun n => g (S (S (S (S n)))))) as Hlen.
  destruct (terrain_loop 21 0 _) as [heights g']. cbn [fst] in Hlen.
  destruct (best_landing _) as [bs bx]. cbn.
  split; [exact Hlen|]. split; [now left|]. split; [left; auto | reflexivity].
Qed.

Lemma radar_decay_consistent (s : GameState D) :
  radar_consistent s -> radar_consistent (fst (radar_decay s)).
Proof.
  unfold radar_consistent, radar_decay.
  intros [(Ha & Ht) | (Ha & Ht)].
  - rewrite Ha. cbn. auto.
  - rewrite Ha. cbn [truthy Z.eqb negb andb].
    assert (H1 : (turns_remaining (radar s) >? 0) = true) by lia.
    rewrite H1.
    destruct (turns_remaining (radar s) - 1 <=? 0) eqn:Hz; cbn.
    + left. split; [reflexivity | lia].
    + right. split; [reflexivity | lia].
Qed.

Lemma turn_flight_ok (s : GameState D) cfg cmd over :
  flight_ok s -> flight_ok (turn_state (handle_game_turn s cfg cmd over)).
Proof.
  intros (Hlen & Heng & Hrad & Hdt).
  destruct (turn_same_ground s cfg cmd over) as (Ht & _ & _ & Hstep).
  unfold flight_ok. rewrite Ht, Hstep.
  split; [exact Hlen|]. split; [|split; [|exact Hdt]].
  - destruct (turn_rejected s cmd) eqn:Hrej.
    + rewrite (handle_game_turn_rejected s cfg cmd over Hrej). exact Heng.
    + rewrite (handle_game_turn_resolved s cfg cmd over Hrej).
      unfold resolved_state.
      destruct (radar_decay_frame (pre_decay_state s cfg cmd))
        as (_ & -> & _).
      unfold pre_decay_state.
      destruct (C s <=? 0); destruct (negb _); cbn [set_C engines_on];
        match goal with
        | |- context [update_physics ?a ?b ?c] =>
            destruct (update_physics_frame a b c) as (_ & -> & _)
        end; cbn; auto.
  - destruct (turn_rejected s cmd) eqn:Hrej.
    + rewrite (handle_game_turn_rejected s cfg cmd over Hrej). exact Hrad.
    + rewrite (handle_game_turn_resolved s cfg cmd over Hrej).
      unfold resolved_state. apply radar_decay_consistent.
      unfold radar_consistent. rewrite pre_decay_state_radar. exact Hrad.
Qed.

Lemma turn_game_over_values (s : GameState D) cfg cmd over :
  turn_game_over (handle_game_turn s cfg cmd over) = over
  \/ turn_game_over (handle_game_turn s cfg cmd over) = 1.
Proof.
  destruct (turn_rejected s cmd) eqn:Hrej.
  - rewrite (handle_game_turn_rejected s cfg cmd over Hrej). now left.
  - destruct (resolved_turn_outcome s cfg cmd over Hrej) as (H0 & H1 & Hc).
    destruct (Z.eq_dec (check_landing (turn_state
                (handle_game_turn s cfg cmd over))) 0) as [E0 | E0].
    + left. now apply H0.
    + destruct (Z.eq_dec (check_landing (turn_state
                  (handle_game_turn s cfg cmd over))) 1) as [E1 | E1].
      * right. now apply H1.
      * right. now apply Hc.
Qed.

(** X18.  In every session the program can reach, game_over is 0 or 1,
    and unless no flight has been started yet (the state is still
    unwritten and game_over is 1) the state is well formed: the terrain has
    its 21 samples, engines_on is 0 or 1, the turn duration is 1.0, and the
    radar is either off with 0 turns left or on with 1 to 3 turns left. *)
Theorem program_keeps_the_state_well_formed (delta_v : Z)
    (garbage : GameState D) (g : Rng) (ss : Session D) :
  program_reachable delta_v garbage g ss ->
  ((game_over ss = 1 /\ state ss = garbage)
   \/ ((game_over ss = 0 \/ game_over ss = 1) /\ flight_ok (state ss)))
  /\ (game_over ss = 0 -> flight_ok (state ss)).
Proof.
  intros Hreach.
  assert (Hinv : (game_over ss = 1 /\ state ss = garbage)
                 \/ ((game_over ss = 0 \/ game_over ss = 1)
                     /\ flight_ok (state ss))).
  { induction Hreach as [| ss ss' menu command _ IH Hstep].
    - left. split; reflexivity.
    - destruct (next_session_outcome menu command ss ss' Hstep)
        as [(Hs & Hg & _) | [(_ & Hs & _ & Hg) | [(H0 & Hg & _ & v & Hv & Hs)
           | [(H0 & Hg & _ & _ & Hs) | (H0 & _ & Hs & Hg)]]]].
      + rewrite Hs, Hg. exact IH.
      + right. rewrite Hs, Hg. split; [now left|]. apply init_game_flight_ok.
      + right. rewrite Hg. split; [now left|].
        destruct IH as [(H1 & _) | (_ & Hok)]; [congruence|].
        rewrite Hs. destruct Hok as (Hlen & _ & Hrad & Hdt).
        unfold flight_ok. cbn. auto.
      + right. rewrite Hg. split; [now left|].
        destruct IH as [(H1 & _) | (_ & Hok)]; [congruence|].
        rewrite Hs. destruct Hok as (Hlen & Heng & _ & Hdt).
        unfold flight_ok, radar_consistent. cbn.
        repeat split; auto. right. split; [reflexivity | lia].
      + right.
        destruct IH as [(H1 & _) | (_ & Hok)]; [congruence|].
        rewrite Hs, Hg. split; [|now apply turn_flight_ok].
        destruct (turn_game_over_values (state ss) (config ss)
                    (toupper command) (game_over ss)) as [-> | ->]; auto. }
  split; [exact Hinv|].
  intros H0. destruct Hinv as [(H1 & _) | (_ & Hok)]; [congruence | exact Hok].
Qed.

End ProgramInvariants.

Lemma run_commands_reachable {D} {ops : DoubleOps D} {libm : Libm D}
    (delta_v : Z) (garbage : GameState D) (g : Rng) menu
    (commands : list ascii) (ss ss' : Session D) :
  program_reachable delta_v garbage g ss ->
  run_commands menu commands ss = Some ss' ->
  program_reachable delta_v garbage g ss'.
Proof.
  revert ss. induction commands as [|c rest IH]; intros ss Hreach Hrun.
  - cbn in Hrun. injection Hrun as <-. exact Hreach.
  - cbn [run_commands] in Hrun.
    destruct (next_session menu c ss) as [ss1|] eqn:Hstep; [|discriminate].
    apply (IH ss1); [|exact Hrun].
    apply reach_step with (ss := ss) (menu := menu) (command := c);
      assumption.
Qed.

(** The program after v, w, y, r, x: a flight in progress. *)
Lemma program_keeps_the_state_well_formed_witness :
  match run_commands (libm := poly_libm) (fun c => c)
          ["v"; "w"; "y"; "r"; "x"]%char
          (initial_session 0 scenario_state demo_rng) with
  | Some ss => flight_ok (state ss)
  | None => False
  end.
Proof.
  destruct (run_commands _ _ _) as [ss|] eqn:Hrun.
  - apply (program_keeps_the_state_well_formed (libm := poly_libm)
             0 scenario_state demo_rng ss).
    + apply (run_commands_reachable 0 scenario_state demo_rng (fun c => c)
               ["v"; "w"; "y"; "r"; "x"]%char
               (initial_session 0 scenario_state demo_rng) ss);
        [apply reach_start | exact Hrun].
    + vm_compute in Hrun. injection Hrun as <-. reflexivity.
  - vm_compute in Hrun. discriminate Hrun.
Defined.

(** ** Start values and altitude, over exact arithmetic *)

Lemma generate_terrain_data_physics {D} {ops : DoubleOps D} {libm : Libm D}
    (s : GameState D) (g : Rng) :
  let s' := fst (generate_terrain_data s g) in
  A s' = A s /\ B s' = B s /\ vel_h s' = vel_h s /\ vel_v s' = vel_v s
  /\ prev_vel_h s' = prev_vel_h s /\ prev_vel_v s' = prev_vel_v s
  /\ time_step s' = time_step s.
Proof.
  unfold generate_terrain_data.
  destruct (terrain_loop 21 0 g) as [hs g'].
  destruct (best_landing _) as [bs bx]. cbn. repeat split.
Qed.

Lemma rng_skip_nonneg (k : nat) (g g' : Rng) :
  rng_nonneg g -> (forall n, g' n = rng_skip k g n) -> rng_nonneg g'.
Proof.
  intros Hg Hskip n. rewrite Hskip. apply Hg.
Qed.

Lemma check_landing_airborne (s : GameState Q) :
  check_landing s = 0%Z <-> 0 < B s.
Proof.
  unfold check_landing. q_ops. change (inject_Z 0) with 0.
  destruct (Qle_bool (B s) 0) eqn:Hb.
  - apply Qle_bool_iff in Hb. split.
    + destruct (_ && _); discriminate.
    + intros Hpos. exfalso. apply (Qlt_not_le _ _ Hpos Hb).
  - apply Qle_bool_gt in Hb. split; auto.
Qed.

Lemma init_game_start_values (libm : Libm Q) (s : GameState Q)
    (cfg : GameConfig Q) (g : Rng) :
  rng_nonneg g ->
  let s' := fst (init_game s cfg g) in
  (-100 <= A s' <= 99)
  /\ (100 <= B s' <= 599)
  /\ (-5 <= vel_h s' <= 4.5)
  /\ (-15 <= vel_v s' <= 4)
  /\ prev_vel_h s' = vel_h s' /\ prev_vel_v s' = vel_v s'.
Proof.
  intros Hg. unfold init_game. cbn [rand].
  match goal with
  | |- context [generate_terrain_data ?a ?b] =>
      destruct (generate_terrain_data_physics a b)
        as (-> & -> & -> & -> & -> & -> & _)
  end.
  cbn [A B vel_h vel_v prev_vel_h prev_vel_v]. q_ops.
  pose proof (Z.rem_bound_pos (g 0%nat) 200 (Hg _) ltac:(lia)) as H1.
  pose proof (Z.rem_bound_pos (g 1%nat) 500 (Hg _) ltac:(lia)) as H2.
  pose proof (Z.rem_bound_pos (g 2%nat) 20 (Hg _) ltac:(lia)) as H3.
  pose proof (Z.rem_bound_pos (g 3%nat) 20 (Hg _) ltac:(lia)) as H4.
  assert (Hinj : forall lo hi z, (lo <= z <= hi)%Z ->
                   inject_Z lo <= inject_Z z <= inject_Z hi).
  { intros lo hi z [Hl Hh]. split; rewrite <- Zle_Qle; assumption. }
  pose proof (Hinj (-100)%Z 99%Z (Z.rem (g 0%nat) 200 - 100)%Z ltac:(lia)) as HA.
  pose proof (Hinj 100%Z 599%Z (Z.rem (g 1%nat) 500 + 100)%Z ltac:(lia)) as HB.
  pose proof (Hinj (-10)%Z 9%Z (Z.rem (g 2%nat) 20 - 10)%Z ltac:(lia)) as Hh.
  pose proof (Hinj (-15)%Z 4%Z (Z.rem (g 3%nat) 20 - 15)%Z ltac:(lia)) as Hv.
  set (h := inject_Z (Z.rem (g 2%nat) 20 - 10)) in *. clearbody h.
  change (inject_Z (-100)) with (-100) in HA.
  change (inject_Z 99) with 99 in HA.
  change (inject_Z 100) with 100 in HB.
  change (inject_Z 599) with 599 in HB.
  change (inject_Z (-10)) with (-10) in Hh.
  change (inject_Z 9) with 9 in Hh.
  change (inject_Z (-15)) with (-15) in Hv.
  change (inject_Z 4) with 4 in Hv.
  split; [exact HA|]. split; [exact HB|]. split; [|split; [exact Hv|]].
  - assert (E : h / 2 == h * (1 # 2)) by (field).
    rewrite E. split; lra.
  - split; reflexivity.
Qed.

Lemma next_session_new_game_rng {D} {ops : DoubleOps D} {libm : Libm D}
    menu (command : ascii) (ss ss' : Session D) :
  toupper command = "V"%char ->
  next_session menu command ss = Some ss' ->
  rng ss' = snd (init_game (state ss) (config ss) (rng ss)).
Proof.
  intros HV. unfold next_session, main_step. rewrite HV.
  change (("V" =? "V")%char) with true. cbn [negb andb].
  rewrite !andb_false_r.
  destruct (init_game _ _ _) as [st g]. cbn. intros [= <-]. reflexivity.
Qed.

(** X19.  Every new flight starts in the air and over the map.  With
    rand() returning non-negative values, the V command leaves the
    horizontal position in [-100, 99], the altitude in [100, 599], the
    horizontal velocity in [-5, 4.5], the vertical velocity in [-15, 4] with
    the previous-velocity snapshot equal to them (so both Delta V figures
    are 0), the fuel at the configured initial fuel, the engines and the
    radar off, and check_landing at 0 (still flying). *)
Theorem new_flight_start_values (libm : Libm Q) menu (command : ascii)
    (ss ss' : Session Q) :
  toupper command = "V"%char ->
  rng_nonneg (rng ss) ->
  next_session menu command ss = Some ss' ->
  (-100 <= A (state ss') <= 99)
  /\ (100 <= B (state ss') <= 599)
  /\ (-5 <= vel_h (state ss') <= 4.5)
  /\ (-15 <= vel_v (state ss') <= 4)
  /\ status_delta_h (state ss') == 0
  /\ status_delta_v (state ss') == 0
  /\ C (state ss') = initial_fuel (config ss)
  /\ engines_on (state ss') = 0%Z
  /\ active (radar (state ss')) = 0%Z
  /\ check_landing (state ss') = 0%Z
  /\ game_over ss' = 0%Z
  /\ rng_nonneg (rng ss').
Proof.
  intros HV Hg Hstep.
  destruct (next_session_new_game menu command ss ss' HV Hstep)
    as (Hs & _ & Hover).
  pose proof (next_session_new_game_rng menu command ss ss' HV Hstep) as Hr.
  destruct (init_game_start_values libm (state ss) (config ss) (rng ss) Hg)
    as (HA & HB & Hh & Hv & Hph & Hpv).
  destruct (init_game_state (state ss) (config ss) (rng ss))
    as (Hact & _ & HC & Heng).
  destruct (init_game_draws (state ss) (config ss) (rng ss))
    as (k & _ & Hskip).
  rewrite <- Hs in HA, HB, Hh, Hv, Hph, Hpv, Hact, HC, Heng.
  rewrite <- Hr in Hskip.
  split; [exact HA|]. split; [exact HB|]. split; [exact Hh|].
  split; [exact Hv|].
  split; [unfold status_delta_h; rewrite Hph; q_ops; ring|].
  split; [unfold status_delta_v; rewrite Hpv; q_ops; ring|].
  split; [exact HC|]. split; [exact Heng|]. split; [exact Hact|].
  split; [apply check_landing_airborne; lra|].
  split; [exact Hover|].
  apply (rng_skip_nonneg k (rng ss)); assumption.
Qed.

Lemma demo_rng_nonneg : rng_nonneg demo_rng.
Proof.
  intros n. unfold demo_rng. apply Z.mod_pos_bound. reflexivity.
Qed.

(** The first flight of the demonstration session. *)
Lemma new_flight_start_values_witness :
  match first_flight with
  | Some ss' =>
      (-100 <= A (state ss') <= 99)
      /\ (100 <= B (state ss') <= 599)
      /\ (-5 <= vel_h (state ss') <= 4.5)
      /\ (-15 <= vel_v (state ss') <= 4)
      /\ status_delta_h (state ss') == 0
      /\ status_delta_v (state ss') == 0
      /\ C (state ss') = 50%Z
      /\ engines_on (state ss') = 0%Z
      /\ active (radar (state ss')) = 0%Z
      /\ check_landing (state ss') = 0%Z
      /\ game_over ss' = 0%Z
      /\ rng_nonneg (rng ss')
  | None => False
  end.
Proof.
  destruct first_flight as [ss'|] eqn:Hfirst.
  - apply (new_flight_start_values poly_libm (fun c => c) "v"%char
             (initial_session 0 scenario_state demo_rng) ss');
      [reflexivity | exact demo_rng_nonneg | exact Hfirst].
  - vm_compute in Hfirst. discriminate Hfirst.
Defined.

Lemma resolved_turn_touchdown (s : GameState Q) (cfg : GameConfig Q)
    (cmd : ascii) (over : Z) :
  turn_rejected s cmd = false ->
  let r := handle_game_turn s cfg cmd over in
  (0 < B (turn_state r) /\ turn_game_over r = over)
  \/ (B (turn_state r) == 0 /\ turn_game_over r = 1%Z).
Proof.
  intros Hres r.
  assert (Hb : 0 <= B (turn_state r)).
  { subst r. rewrite (handle_game_turn_resolved s cfg cmd over Hres).
    unfold resolved_state.
    destruct (radar_decay_physics (pre_decay_state s cfg cmd)) as (_ & -> & _).
    unfold pre_decay_state.
    destruct (negb _); cbn [set_C B]; apply update_physics_altitude. }
  destruct (resolved_turn_outcome s cfg cmd over Hres) as (H0 & H1 & Hc).
  fold r in H0, H1, Hc.
  destruct (Qlt_le_dec 0 (B (turn_state r))) as [Hpos | Hle].
  - left. split; [exact Hpos|]. apply H0. now apply check_landing_airborne.
  - right. split; [apply Qle_antisym; assumption|].
    assert (Hne : check_landing (turn_state r) <> 0%Z).
    { intros E. apply check_landing_airborne in E.
      apply (Qlt_not_le _ _ E Hle). }
    destruct (Z.eq_dec (check_landing (turn_state r)) 1) as [E1 | E1].
    + now apply H1.
    + now apply Hc.
Qed.

(** X20.  A flight is in progress exactly while the lander is in the air.
    With rand() returning non-negative values, every session the program
    can reach is of one of three kinds: no flight started yet (state
    unwritten, game_over 1), a flight in progress (game_over 0) with the
    altitude strictly above 0, or a flight that is over (game_over 1) with
    the altitude exactly 0.  So the altitude is never negative, and no
    command is ever resolved for a lander that has touched down. *)
Theorem flight_in_progress_iff_airborne (libm : Libm Q) (delta_v : Z)
    (garbage : GameState Q) (g : Rng) (ss : Session Q) :
  rng_nonneg g ->
  program_reachable delta_v garbage g ss ->
  ((game_over ss = 1%Z /\ state ss = garbage)
   \/ (game_over ss = 0%Z /\ 0 < B (state ss))
   \/ (game_over ss = 1%Z /\ B (state ss) == 0))
  /\ rng_nonneg (rng ss).
Proof.
  intros Hg Hreach.
  induction Hreach as [| ss ss' menu command _ IH Hstep].
  - split; [left; split; reflexivity | exact Hg].
  - destruct IH as (IH & Hrng).
    destruct (next_session_outcome menu command ss ss' Hstep)
      as [(Hs & Hover & Hr) | [(HV & _) | [(H0 & Hover & Hr & v & _ & Hs)
         | [(H0 & Hover & Hr & _ & Hs) | (H0 & Hr & Hs & Hover)]]]].
    + rewrite Hs, Hover, Hr. split; assumption.
    + destruct (next_session_new_game menu command ss ss' HV Hstep)
        as (Hs & _ & Hover).
      pose proof (next_session_new_game_rng menu command ss ss' HV Hstep)
        as Hr.
      destruct (init_game_start_values libm (state ss) (config ss) (rng ss)
                  Hrng) as (_ & HB & _).
      destruct (init_game_draws (state ss) (config ss) (rng ss))
        as (k & _ & Hskip).
      rewrite <- Hs in HB. rewrite <- Hr in Hskip.
      split; [|apply (rng_skip_nonneg k (rng ss)); assumption].
      right; left. split; [exact Hover | lra].
    + rewrite Hr. split; [|exact Hrng]. right; left.
      split; [exact Hover|]. rewrite Hs. cbn.
      destruct IH as [(H1 & _) | [(_ & Hb) | (H1 & _)]];
        [congruence | exact Hb | congruence].
    + rewrite Hr. split; [|exact Hrng]. right; left.
      split; [exact Hover|]. rewrite Hs. cbn.
      destruct IH as [(H1 & _) | [(_ & Hb) | (H1 & _)]];
        [congruence | exact Hb | congruence].
    + rewrite Hr. split; [|exact Hrng].
      destruct IH as [(H1 & _) | [(_ & Hb) | (H1 & _)]];
        [congruence | | congruence].
      rewrite Hs, Hover.
      destruct (turn_rejected (state ss) (toupper command)) eqn:Hrej.
      * rewrite (handle_game_turn_rejected _ (config ss) _ (game_over ss) Hrej).
        right; left. split; [exact H0 | exact Hb].
      * destruct (resolved_turn_touchdown (state ss) (config ss)
                    (toupper command) (game_over ss) Hrej)
          as [(Hpos & Hg') | (Hzero & Hg')].
        -- right; left. split; [congruence | exact Hpos].
        -- right; right. split; [exact Hg' | exact Hzero].
Qed.

(** The demonstration session after v, w, y, r, x. *)
Lemma flight_in_progress_iff_airborne_witness :
  match run_commands (libm := poly_libm) (fun c => c)
          ["v"; "w"; "y"; "r"; "x"]%char
          (initial_session 0 scenario_state demo_rng) with
  | Some ss =>
      ((game_over ss = 1%Z /\ state ss = scenario_state)
       \/ (game_over ss = 0%Z /\ 0 < B (state ss))
       \/ (game_over ss = 1%Z /\ B (state ss) == 0))
      /\ rng_nonneg (rng ss)
  | None => False
  end.
Proof.
  destruct (run_commands _ _ _) as [ss|] eqn:Hrun.
  - apply (flight_in_progress_iff_airborne poly_libm 0 scenario_state
             demo_rng ss demo_rng_nonneg).
    apply (run_commands_reachable 0 scenario_state demo_rng (fun c => c)
             ["v"; "w"; "y"; "r"; "x"]%char
             (initial_session 0 scenario_state demo_rng) ss);
      [apply reach_start | exact Hrun].
  - vm_compute in Hrun. discriminate Hrun.
Defined.

(** ** The visualizer *)

Lemma list_set_length {T} (l : list T) (n : nat) (v : T) :
  List.length (list_set l n v) = List.length l.
Proof.
  revert n. induction l as [|h t IH]; intros [|n]; cbn; auto.
Qed.

Lemma nth_list_set {T} (l : list T) (n m : nat) (v d : T) :
  nth m (list_set l n v) d
  = if ((n =? m) && (n <? List.length l))%nat then v else nth m l d.
Proof.
  revert n m. induction l as [|h t IH]; intros n m.
  - cbn. rewrite andb_false_r. reflexivity.
  - destruct n as [|n], m as [|m]; cbn; try reflexivity.
    rewrite IH. reflexivity.
Qed.

Lemma Forall_list_set {T} (P : T -> Prop) (l : list T) (n : nat) (v : T) :
  Forall P l -> ((n < List.length l)%nat -> P v) ->
  Forall P (list_set l n v).
Proof.
  intros Hl. revert n. induction Hl as [|h t Hh Ht IH]; intros [|n] Hv; cbn;
    constructor; auto.
  - apply Hv. cbn. lia.
  - apply IH. intros Hn. apply Hv. cbn. lia.
Qed.

Lemma set_cell_shape (canvas : Canvas) (y x : Z) (c : ascii) :
  canvas_shape canvas -> canvas_shape (set_cell canvas y x c).
Proof.
  intros [Hrows Hcols]. unfold canvas_shape, set_cell. split.
  - rewrite list_set_length. exact Hrows.
  - apply Forall_list_set; [exact Hcols|]. intros Hy.
    rewrite list_set_length.
    rewrite Forall_forall in Hcols. apply Hcols. now apply nth_In.
Qed.

Lemma set_cell_glyphs (canvas : Canvas) (y x : Z) (c : ascii) :
  Forall (Forall glyph) canvas -> glyph c ->
  Forall (Forall glyph) (set_cell canvas y x c).
Proof.
  intros Hg Hc. unfold set_cell.
  apply Forall_list_set; [exact Hg|]. intros Hy.
  apply Forall_list_set; [|intros _; exact Hc].
  rewrite Forall_forall in Hg. apply Hg. now apply nth_In.
Qed.

(** Reading a cell after writing one, for rows and columns from 0 on. *)
Lemma get_set_cell (canvas : Canvas) (y x y' x' : Z) (c : ascii) :
  canvas_shape canvas ->
  (0 <= y)%Z -> (0 <= x)%Z -> (0 <= y')%Z -> (0 <= x')%Z ->
  get_cell (set_cell canvas y x c) y' x'
  = if ((y =? y') && (x =? x') && (y <? VIS_HEIGHT) && (x <? VIS_WIDTH))%Z
    then c else get_cell canvas y' x'.
Proof.
  intros [Hrows Hcols] Hy Hx Hy' Hx'. unfold get_cell, set_cell.
  rewrite nth_list_set. rewrite Hrows.
  destruct (Z.eqb_spec y y') as [<- | Hne].
  - rewrite Nat.eqb_refl. cbn [andb].
    destruct (Z.ltb_spec y VIS_HEIGHT) as [Hlt | Hge].
    + assert (Hn : (Z.to_nat y <? Z.to_nat VIS_HEIGHT)%nat = true)
        by (apply Nat.ltb_lt; lia).
      rewrite Hn. rewrite nth_list_set.
      assert (Hlen : List.length (nth (Z.to_nat y) canvas [])
                     = Z.to_nat VIS_WIDTH).
      { rewrite Forall_forall in Hcols. apply Hcols. apply nth_In.
        rewrite Hrows. lia. }
      rewrite Hlen.
      destruct (Z.eqb_spec x x') as [<- | Hnx].
      * rewrite Nat.eqb_refl. cbn [andb].
        destruct (Z.ltb_spec x VIS_WIDTH) as [Hxl | Hxg].
        -- assert (Hm : (Z.to_nat x <? Z.to_nat VIS_WIDTH)%nat = true)
             by (apply Nat.ltb_lt; lia).
           rewrite Hm. reflexivity.
        -- assert (Hm : (Z.to_nat x <? Z.to_nat VIS_WIDTH)%nat = false)
             by (apply Nat.ltb_ge; lia).
           rewrite Hm. reflexivity.
      * assert (Hm : (Z.to_nat x =? Z.to_nat x')%nat = false)
          by (apply Nat.eqb_neq; lia).
        rewrite Hm. reflexivity.
    + assert (Hn : (Z.to_nat y <? Z.to_nat VIS_HEIGHT)%nat = false)
        by (apply Nat.ltb_ge; lia).
      rewrite Hn. rewrite andb_false_r. reflexivity.
  - assert (Hn : (Z.to_nat y =? Z.to_nat y')%nat = false)
      by (apply Nat.eqb_neq; lia).
    rewrite Hn. reflexivity.
Qed.

Lemma blank_canvas_shape : canvas_shape blank_canvas.
Proof.
  unfold canvas_shape, blank_canvas. split.
  - apply repeat_length.
  - apply Forall_forall. intros row Hin. apply repeat_spec in Hin.
    subst row. apply repeat_length.
Qed.

Lemma blank_canvas_glyphs : Forall (Forall glyph) blank_canvas.
Proof.
  unfold blank_canvas. apply Forall_forall. intros row Hin.
  apply repeat_spec in Hin. subst row.
  apply Forall_forall. intros c Hc. apply repeat_spec in Hc. subst c.
  left. reflexivity.
Qed.

Lemma blank_canvas_cell (y x : Z) : get_cell blank_canvas y x = " "%char.
Proof.
  unfold get_cell, blank_canvas.
  destruct (Nat.lt_ge_cases (Z.to_nat y) (Z.to_nat VIS_HEIGHT)) as [Hy | Hy].
  - rewrite nth_repeat_lt by exact Hy.
    destruct (Nat.lt_ge_cases (Z.to_nat x) (Z.to_nat VIS_WIDTH)) as [Hx | Hx].
    + now rewrite nth_repeat_lt.
    + rewrite nth_overflow; [reflexivity|]. now rewrite repeat_length.
  - rewrite (nth_overflow (repeat _ _)) by now rewrite repeat_length.
    destruct (Z.to_nat x); reflexivity.
Qed.

Lemma fill_shape (x : Z) (rows : list Z) (canvas : Canvas) :
  canvas_shape canvas ->
  canvas_shape (fold_left (fun cv fill_y => set_cell cv fill_y x "#"%char)
                  rows canvas).
Proof.
  revert canvas. induction rows as [|r rest IH]; intros canvas Hs; [exact Hs|].
  cbn [fold_left]. apply IH. now apply set_cell_shape.
Qed.

Lemma fill_glyphs (x : Z) (rows : list Z) (canvas : Canvas) :
  Forall (Forall glyph) canvas ->
  Forall (Forall glyph)
    (fold_left (fun cv fill_y => set_cell cv fill_y x "#"%char) rows canvas).
Proof.
  revert canvas. induction rows as [|r rest IH]; intros canvas Hg; [exact Hg|].
  cbn [fold_left]. apply IH. apply set_cell_glyphs; [exact Hg|].
  cbn. tauto.
Qed.

(** The fill loop writes '#' into the rows [lo], ..., [lo + n - 1] of column
    [x] and nothing else. *)
Lemma fill_cells (x lo : Z) (n : nat) (canvas : Canvas) (y' x' : Z) :
  canvas_shape canvas ->
  (0 <= x < VIS_WIDTH)%Z -> (0 <= lo)%Z -> (lo + Z.of_nat n <= VIS_HEIGHT)%Z ->
  (0 <= y')%Z -> (0 <= x')%Z ->
  get_cell (fold_left (fun cv fill_y => set_cell cv fill_y x "#"%char)
              (for_range lo n) canvas) y' x'
  = if ((x' =? x) && (lo <=? y') && (y' <? lo + Z.of_nat n))%Z
    then "#"%char else get_cell canvas y' x'.
Proof.
  intros Hs Hx Hlo. induction n as [|n IH]; intros Hhi Hy' Hx'.
  - cbn [for_range seq map fold_left].
    assert (E : ((lo <=? y') && (y' <? lo + Z.of_nat 0))%Z = false).
    { apply andb_false_iff. destruct (Z.leb_spec lo y'); [right|left; auto].
      apply Z.ltb_ge. lia. }
    rewrite <- andb_assoc, E, andb_false_r. reflexivity.
  - rewrite for_range_S, fold_left_app. cbn [fold_left].
    rewrite get_set_cell; try lia;
      [|apply fill_shape; exact Hs].
    rewrite IH by lia.
    destruct (Z.eqb_spec x' x) as [-> | Hne].
    + rewrite Z.eqb_refl. cbn [andb].
      destruct (Z.eqb_spec (lo + Z.of_nat n) y') as [<- | Hny].
      * assert (H1 : (lo + Z.of_nat n <? VIS_HEIGHT)%Z = true) by lia.
        assert (H2 : (x <? VIS_WIDTH)%Z = true) by lia.
        assert (H3 : (lo <=? lo + Z.of_nat n)%Z = true) by lia.
        assert (H4 : (lo + Z.of_nat n <? lo + Z.of_nat (S n))%Z = true)
          by (apply Z.ltb_lt; rewrite Nat2Z.inj_succ; lia).
        rewrite H1, H2, H3, H4. reflexivity.
      * cbn [andb].
        destruct (Z.leb_spec lo y'); cbn [andb]; [|reflexivity].
        rewrite Nat2Z.inj_succ in *.
        destruct (Z.ltb_spec y' (lo + Z.of_nat n));
          destruct (Z.ltb_spec y' (lo + Z.succ (Z.of_nat n)));
          try reflexivity; lia.
    + assert (E : (x =? x')%Z = false) by (apply Z.eqb_neq; congruence).
      rewrite E, andb_false_r. cbn [andb]. reflexivity.
Qed.

Lemma get_cell_outside (cv : Canvas) (y x : Z) :
  canvas_shape cv -> (0 <= y)%Z -> (0 <= x)%Z ->
  ~ ((y < VIS_HEIGHT)%Z /\ (x < VIS_WIDTH)%Z) ->
  get_cell cv y x = " "%char.
Proof.
  intros [Hrows Hcols] Hy Hx Hout. unfold get_cell.
  destruct (Z_lt_dec y VIS_HEIGHT) as [Hin | Hge].
  - apply nth_overflow.
    assert (Hlen : List.length (nth (Z.to_nat y) cv []) = Z.to_nat VIS_WIDTH).
    { rewrite Forall_forall in Hcols. apply Hcols. apply nth_In.
      rewrite Hrows. lia. }
    rewrite Hlen. lia.
  - rewrite (nth_overflow cv) by (rewrite Hrows; lia).
    now destruct (Z.to_nat x).
Qed.

Lemma string_of_list_ascii_length (l : list ascii) :
  String.length (string_of_list_ascii l) = List.length l.
Proof.
  induction l as [|c l IH]; cbn; [reflexivity | now rewrite IH].
Qed.

(** *** The picture, in every arithmetic *)

Section VisualizerPicture.

Context {D : Type} {ops : DoubleOps D} {rnd : DoubleRound D}.

Lemma draw_column_shape (s : GameState D) (canvas : Canvas) (prev : D)
    (x : Z) :
  canvas_shape canvas ->
  Forall (Forall glyph) canvas ->
  canvas_shape (fst (draw_column s (canvas, prev) x))
  /\ Forall (Forall glyph) (fst (draw_column s (canvas, prev) x)).
Proof.
  intros Hs Hg. unfold draw_column.
  destruct ((_ >=? 0)%Z && (_ <? VIS_HEIGHT)%Z); cbn [fst]; [|auto].
  split.
  - apply fill_shape. now apply set_cell_shape.
  - apply fill_glyphs. apply set_cell_glyphs; [exact Hg|].
    destruct ((x >? 0)%Z && d_ltb (column_height s x) (d_sub prev (d_lit 0.5)));
      [cbn; tauto|].
    destruct ((x >? 0)%Z && d_gtb (column_height s x) (d_add prev (d_lit 0.5)));
      cbn; tauto.
Qed.

(** One pass of the column loop touches column [x] only, and there draws
    the surface glyph over the fill. *)
Lemma draw_column_cells (s : GameState D) (canvas : Canvas) (prev : D)
    (x : Z) :
  canvas_shape canvas ->
  (0 <= x < VIS_WIDTH)%Z ->
  exists ch,
    surface_glyph ch /\ (x = 0%Z -> ch = "_"%char)
    /\ forall y' x', (0 <= y')%Z -> (0 <= x')%Z ->
         get_cell (fst (draw_column s (canvas, prev) x)) y' x'
         = if ((x' =? x) && (surface_row s x >=? 0)
               && (surface_row s x <? VIS_HEIGHT))%Z
           then if (y' =? surface_row s x)%Z then ch
                else if ((surface_row s x <? y') && (y' <? VIS_HEIGHT))%Z
                     then "#"%char else get_cell canvas y' x'
           else get_cell canvas y' x'.
Proof.
  intros Hs Hx. unfold draw_column. fold (surface_row s x).
  set (cy := surface_row s x).
  set (ch := if (x >? 0)%Z && d_ltb (column_height s x) (d_sub prev (d_lit 0.5))
             then "\"%char
             else if (x >? 0)%Z && d_gtb (column_height s x) (d_add prev (d_lit 0.5))
                  then "/"%char else "_"%char).
  exists ch. split; [|split].
  - unfold ch, surface_glyph.
    destruct (_ && d_ltb (column_height s x) (d_sub prev (d_lit 0.5))); [tauto|].
    destruct (_ && d_gtb (column_height s x) (d_add prev (d_lit 0.5))); tauto.
  - intros ->. reflexivity.
  - intros y' x' Hy' Hx'.
    destruct ((cy >=? 0)%Z && (cy <? VIS_HEIGHT)%Z) eqn:Hin.
    + apply andb_true_iff in Hin as [H0 H16].
      assert (Hcy : (0 <= cy < VIS_HEIGHT)%Z) by lia.
      assert (Hfill : (cy + 1 + Z.of_nat (Z.to_nat (VIS_HEIGHT - (cy + 1)))
                       = VIS_HEIGHT)%Z) by lia.
      cbn [fst]. fold ch.
      rewrite fill_cells;
        [| now apply set_cell_shape | exact Hx | lia | lia | exact Hy'
         | exact Hx'].
      rewrite get_set_cell; [| exact Hs | lia | lia | exact Hy' | exact Hx'].
      rewrite H0, H16.
      destruct (Z.eqb_spec x' x) as [-> | Hne].
      * rewrite Z.eqb_refl. cbn [andb].
        assert (Hxw : (x <? VIS_WIDTH)%Z = true) by lia. rewrite ?Hxw.
        rewrite ?H16, ?andb_true_r. rewrite Hfill.
        destruct (Z.eqb_spec y' cy) as [-> | Hny].
        -- rewrite Z.eqb_refl.
           assert (E : (cy + 1 <=? cy)%Z = false) by lia.
           rewrite E. reflexivity.
        -- assert (E : (cy =? y')%Z = false) by (apply Z.eqb_neq; congruence).
           rewrite E.
           destruct (Z.leb_spec (cy + 1) y'), (Z.ltb_spec cy y');
             try reflexivity; lia.
      * cbn [andb].
        assert (E : (x =? x')%Z = false) by (apply Z.eqb_neq; congruence).
        rewrite E, andb_false_r. cbn [andb]. reflexivity.
    + cbn [fst]. rewrite <- andb_assoc, Hin, andb_false_r. reflexivity.
Qed.

Lemma column_drawn_ext (s : GameState D) (cv cv' : Canvas) (x : Z) :
  (forall y, (0 <= y)%Z -> get_cell cv' y x = get_cell cv y x) ->
  column_drawn s cv x -> column_drawn s cv' x.
Proof.
  intros Hsame. unfold column_drawn.
  destruct ((surface_row s x >=? 0)%Z && (surface_row s x <? VIS_HEIGHT)%Z)
    eqn:Hin.
  - apply andb_true_iff in Hin as [H0 _].
    intros (Ha & Hg & Hb). split; [|split].
    + intros y Hy. rewrite Hsame by lia. now apply Ha.
    + rewrite Hsame by lia. exact Hg.
    + intros y Hy. rewrite Hsame by lia. now apply Hb.
  - intros Hblank y Hy. rewrite Hsame by lia. now apply Hblank.
Qed.

(** The terrain loop after [k] columns: the canvas keeps its size, the
    columns done look as [column_drawn] says, the others are blank. *)
Lemma terrain_loop_columns (s : GameState D) (k : nat) :
  (Z.of_nat k <= VIS_WIDTH)%Z ->
  let cv := fst (fold_left (draw_column s) (for_range 0 k) (blank_canvas, d_lit 0)) in
  canvas_shape cv
  /\ Forall (Forall glyph) cv
  /\ (forall x, (0 <= x < Z.of_nat k)%Z -> column_drawn s cv x)
  /\ (forall y x, (0 <= y)%Z -> (Z.of_nat k <= x)%Z ->
        get_cell cv y x = " "%char).
Proof.
  induction k as [|k IH]; intros Hk.
  - cbn [for_range seq map fold_left fst].
    split; [apply blank_canvas_shape|]. split; [apply blank_canvas_glyphs|].
    split; [intros x Hx; lia|]. intros y x _ _. apply blank_canvas_cell.
  - rewrite for_range_S, fold_left_app. cbn [fold_left].
    specialize (IH ltac:(lia)). cbv zeta in IH.
    destruct (fold_left (draw_column s) (for_range 0 k) (blank_canvas, d_lit 0))
      as [cv prev].
    cbn [fst] in IH. destruct IH as (Hs & Hg & Hdone & Hblank).
    rewrite Z.add_0_l.
    destruct (draw_column_shape s cv prev (Z.of_nat k) Hs Hg) as (Hs' & Hg').
    destruct (draw_column_cells s cv prev (Z.of_nat k) Hs ltac:(lia))
      as (ch & Hch & _ & Hcells).
    cbv zeta. split; [exact Hs'|]. split; [exact Hg'|]. split.
    + intros x Hx. destruct (Z.eq_dec x (Z.of_nat k)) as [-> | Hne].
      * unfold column_drawn.
        destruct ((surface_row s (Z.of_nat k) >=? 0)%Z
                  && (surface_row s (Z.of_nat k) <? VIS_HEIGHT)%Z) eqn:Hin.
        -- apply andb_true_iff in Hin as [H0 H16].
           split; [|split].
           ++ intros y Hy. rewrite Hcells by lia.
              rewrite Z.eqb_refl, H0, H16. cbn [andb].
              assert (E1 : (y =? surface_row s (Z.of_nat k))%Z = false) by lia.
              assert (E2 : (surface_row s (Z.of_nat k) <? y)%Z = false) by lia.
              rewrite E1, E2. cbn [andb]. apply Hblank; lia.
           ++ rewrite Hcells by lia.
              rewrite !Z.eqb_refl, H0, H16. cbn [andb]. exact Hch.
           ++ intros y Hy. rewrite Hcells by lia.
              rewrite Z.eqb_refl, H0, H16. cbn [andb].
              assert (E1 : (y =? surface_row s (Z.of_nat k))%Z = false) by lia.
              assert (E2 : (surface_row s (Z.of_nat k) <? y)%Z = true) by lia.
              assert (E3 : (y <? VIS_HEIGHT)%Z = true) by lia.
              rewrite E1, E2, E3. reflexivity.
        -- intros y Hy. rewrite Hcells by lia.
           rewrite Z.eqb_refl. cbn [andb]. rewrite Hin.
           apply Hblank; lia.
      * apply (column_drawn_ext s cv); [|apply Hdone; lia].
        intros y Hy. rewrite Hcells by lia.
        assert (E : (x =? Z.of_nat k)%Z = false) by lia.
        rewrite E. reflexivity.
    + intros y x Hy Hx. rewrite Hcells by lia.
      assert (E : (x =? Z.of_nat k)%Z = false) by lia.
      rewrite E. cbn [andb]. apply Hblank; lia.
Qed.

(** *** The terrain canvas and the overlays *)

Lemma terrain_canvas_columns (s : GameState D) :
  canvas_shape (terrain_canvas s)
  /\ Forall (Forall glyph) (terrain_canvas s)
  /\ forall x, (0 <= x < VIS_WIDTH)%Z -> column_drawn s (terrain_canvas s) x.
Proof.
  pose proof (terrain_loop_columns s (Z.to_nat VIS_WIDTH)) as H.
  rewrite Z2Nat.id in H by (unfold VIS_WIDTH; lia).
  specialize (H (Z.le_refl _)). cbv zeta in H.
  destruct H as (Hs & Hg & Hcols & _).
  unfold terrain_canvas. auto.
Qed.

Lemma draw_lander_shape (s : GameState D) (cv : Canvas) :
  canvas_shape cv -> Forall (Forall glyph) cv ->
  canvas_shape (draw_lander s cv) /\ Forall (Forall glyph) (draw_lander s cv).
Proof.
  intros Hs Hg. unfold draw_lander.
  destruct ((_ >=? 0)%Z && _ && _ && _); [|auto].
  assert (H1 : canvas_shape
                 (if (get_cell cv (lander_y s) (lander_x s) =? " ")%char
                  then set_cell cv (lander_y s) (lander_x s) "A"%char else cv)
               /\ Forall (Forall glyph)
                 (if (get_cell cv (lander_y s) (lander_x s) =? " ")%char
                  then set_cell cv (lander_y s) (lander_x s) "A"%char else cv)).
  { destruct (get_cell cv (lander_y s) (lander_x s) =? " ")%char; [|auto].
    split; [now apply set_cell_shape|].
    apply set_cell_glyphs; [exact Hg|]. unfold glyph. cbn. tauto. }
  destruct H1 as [Hs1 Hg1].
  destruct (truthy (engines_on s) && _ && _); [|auto].
  split; [now apply set_cell_shape|].
  apply set_cell_glyphs; [exact Hg1|]. unfold glyph. cbn. tauto.
Qed.

Lemma draw_lander_cells (s : GameState D) (cv : Canvas) (y x : Z) :
  canvas_shape cv -> (0 <= y)%Z -> (0 <= x)%Z ->
  get_cell (draw_lander s cv) y x
  = if lander_on_canvas s && (x =? lander_x s)%Z
       && (get_cell cv y x =? " ")%char && (y =? lander_y s)%Z
    then "A"%char
    else if lander_on_canvas s && (x =? lander_x s)%Z
            && (get_cell cv y x =? " ")%char && (y =? lander_y s + 1)%Z
            && truthy (engines_on s) && (lander_y s <? VIS_HEIGHT - 1)%Z
    then "*"%char
    else get_cell cv y x.
Proof.
  intros Hs Hy Hx. unfold draw_lander.
  fold (lander_on_canvas s).
  destruct (lander_on_canvas s) eqn:Hon; cbn [andb]; [|reflexivity].
  unfold lander_on_canvas in Hon.
  assert (Hb : (0 <= lander_y s < VIS_HEIGHT)%Z
               /\ (0 <= lander_x s < VIS_WIDTH)%Z) by lia.
  destruct Hb as [Hly Hlx].
  set (ly := lander_y s) in *. set (lx := lander_x s) in *.
  clearbody ly lx.
  set (cv1 := if (get_cell cv ly lx =? " ")%char
              then set_cell cv ly lx "A"%char else cv).
  assert (Hs1 : canvas_shape cv1).
  { unfold cv1. destruct (get_cell cv ly lx =? " ")%char;
      [now apply set_cell_shape | exact Hs]. }
  assert (Hc1 : forall y' x', (0 <= y')%Z -> (0 <= x')%Z ->
            get_cell cv1 y' x'
            = if (x' =? lx)%Z && (get_cell cv y' x' =? " ")%char
                 && (y' =? ly)%Z
              then "A"%char else get_cell cv y' x').
  { intros y' x' Hy' Hx'. unfold cv1.
    destruct (Z.eqb_spec x' lx) as [-> | Hnx];
      destruct (Z.eqb_spec y' ly) as [-> | Hny]; cbn [andb].
    - destruct (get_cell cv ly lx =? " ")%char eqn:Hbl; [|reflexivity].
      rewrite get_set_cell by (try exact Hs; lia).
      rewrite !Z.eqb_refl. cbn [andb].
      assert (E1 : (ly <? VIS_HEIGHT)%Z = true) by lia.
      assert (E2 : (lx <? VIS_WIDTH)%Z = true) by lia.
      now rewrite E1, E2.
    - rewrite andb_false_r.
      destruct (get_cell cv ly lx =? " ")%char; [|reflexivity].
      rewrite get_set_cell by (try exact Hs; lia).
      assert (E : (ly =? y')%Z = false) by lia. now rewrite E.
    - destruct (get_cell cv ly lx =? " ")%char; [|reflexivity].
      rewrite get_set_cell by (try exact Hs; lia).
      assert (E : (lx =? x')%Z = false) by lia.
      rewrite E, andb_false_r. reflexivity.
    - destruct (get_cell cv ly lx =? " ")%char; [|reflexivity].
      rewrite get_set_cell by (try exact Hs; lia).
      assert (E : (lx =? x')%Z = false) by lia.
      rewrite E, andb_false_r. reflexivity. }
  fold cv1.
  assert (Hbelow : get_cell cv1 (ly + 1) lx = get_cell cv (ly + 1) lx).
  { rewrite Hc1 by lia.
    assert (E : (ly + 1 =? ly)%Z = false) by lia.
    rewrite E, andb_false_r. reflexivity. }
  rewrite Hbelow.
  destruct (truthy (engines_on s) && (ly <? VIS_HEIGHT - 1)%Z
            && (get_cell cv (ly + 1) lx =? " ")%char) eqn:Hex.
  - apply andb_true_iff in Hex as [Hex Hbl].
    apply andb_true_iff in Hex as [Heng Hlow].
    rewrite get_set_cell by (try exact Hs1; lia).
    rewrite Hc1 by lia.
    destruct (Z.eqb_spec x lx) as [-> | Hnx]; cbn [andb].
    + rewrite Z.eqb_refl, andb_true_r.
      destruct (Z.eqb_spec y ly) as [-> | Hny].
      * assert (E : (ly + 1 =? ly)%Z = false) by lia.
        rewrite E. cbn [andb]. rewrite andb_true_r. 
        destruct (get_cell cv ly lx =? " ")%char; reflexivity.
      * rewrite !andb_false_r.
        destruct (Z.eqb_spec y (ly + 1)) as [-> | Hny1].
        -- rewrite Z.eqb_refl, Hbl, Heng, Hlow. cbn [andb].
           assert (E1 : (ly + 1 <? VIS_HEIGHT)%Z = true) by lia.
           assert (E2 : (lx <? VIS_WIDTH)%Z = true) by lia.
           now rewrite E1, E2.
        -- assert (E : (ly + 1 =? y)%Z = false) by lia.
           rewrite E. cbn [andb]. rewrite !andb_false_r. reflexivity.
    + assert (E : (lx =? x)%Z = false) by lia.
      rewrite E, andb_false_r. reflexivity.
  - rewrite Hc1 by lia.
    destruct (Z.eqb_spec x lx) as [-> | Hnx]; cbn [andb]; [|reflexivity].
    destruct (Z.eqb_spec y ly) as [-> | Hny].
    + rewrite andb_true_r.
      destruct (get_cell cv ly lx =? " ")%char eqn:Hbl0; [reflexivity|].
      reflexivity.
    + rewrite !andb_false_r.
      destruct (Z.eqb_spec y (ly + 1)) as [-> | Hny1].
      * rewrite andb_true_r.
        destruct (get_cell cv (ly + 1) lx =? " ")%char eqn:Hbl;
          cbn [andb]; [|reflexivity].
        rewrite andb_true_r in Hex. rewrite Hex. reflexivity.
      * rewrite !andb_false_r. reflexivity.
Qed.

Lemma terrain_cell_blank_iff (s : GameState D) (y x : Z) :
  (0 <= y < VIS_HEIGHT)%Z -> (0 <= x < VIS_WIDTH)%Z ->
  get_cell (terrain_canvas s) y x = " "%char
  <-> ~ (0 <= surface_row s x <= y)%Z.
Proof.
  intros Hy Hx.
  destruct (terrain_canvas_columns s) as (_ & _ & Hcols).
  specialize (Hcols x Hx). unfold column_drawn in Hcols.
  destruct ((surface_row s x >=? 0)%Z && (surface_row s x <? VIS_HEIGHT)%Z)
    eqn:Hin.
  - destruct Hcols as (Ha & Hg & Hb).
    destruct (Z_lt_dec y (surface_row s x)) as [Hlt | Hge].
    + split; [lia|]. intros _. apply Ha. lia.
    + split; [|lia]. intros Hbl. exfalso.
      destruct (Z.eq_dec y (surface_row s x)) as [-> | Hne].
      * rewrite Hbl in Hg. destruct Hg as [E | [E | E]]; discriminate E.
      * rewrite Hb in Hbl by lia. discriminate Hbl.
  - split; [lia|]. intros _. now apply Hcols.
Qed.

Lemma terrain_cell_not_overlay (s : GameState D) (y x : Z) :
  (0 <= y)%Z -> (0 <= x)%Z ->
  get_cell (terrain_canvas s) y x <> "A"%char
  /\ get_cell (terrain_canvas s) y x <> "*"%char.
Proof.
  intros Hy Hx.
  destruct (terrain_canvas_columns s) as (Hs & _ & Hcols).
  destruct (Z_lt_dec y VIS_HEIGHT) as [Hyin | Hyout];
    [destruct (Z_lt_dec x VIS_WIDTH) as [Hxin | Hxout]|].
  - specialize (Hcols x ltac:(lia)). unfold column_drawn in Hcols.
    destruct ((surface_row s x >=? 0)%Z && (surface_row s x <? VIS_HEIGHT)%Z).
    + destruct Hcols as (Ha & Hg & Hb).
      destruct (Z_lt_dec y (surface_row s x)) as [Hlt | Hge].
      * rewrite Ha by lia. split; discriminate.
      * destruct (Z.eq_dec y (surface_row s x)) as [-> | Hne].
        -- destruct Hg as [E | [E | E]]; rewrite E; split; discriminate.
        -- rewrite Hb by lia. split; discriminate.
    + rewrite Hcols by lia. split; discriminate.
  - rewrite get_cell_outside by (try exact Hs; lia). split; discriminate.
  - rewrite get_cell_outside by (try exact Hs; lia). split; discriminate.
Qed.

(** X23. In every screen column the finished picture keeps the terrain, in
    every arithmetic and so in the program's binary64.  Let the surface row
    of the column be the row the program computes for it (canvas_y, line
    288).  Where it is on the canvas, that cell holds a surface character,
    every cell below it is '#', and the cells above hold nothing but
    blanks, the lander or its exhaust.  Where it is off the canvas (also
    when the ground is above the window) the column holds no terrain at
    all. *)
Theorem overlay_never_covers_terrain (s : GameState D) (x : Z) :
  (0 <= x < VIS_WIDTH)%Z ->
  let cy := surface_row s x in
  if ((cy >=? 0) && (cy <? VIS_HEIGHT))%Z then
    (forall y, (0 <= y < cy)%Z ->
       overlay_glyph (get_cell (visualizer_canvas s) y x))
    /\ surface_glyph (get_cell (visualizer_canvas s) cy x)
    /\ (forall y, (cy < y < VIS_HEIGHT)%Z ->
          get_cell (visualizer_canvas s) y x = "#"%char)
  else
    forall y, (0 <= y < VIS_HEIGHT)%Z ->
      overlay_glyph (get_cell (visualizer_canvas s) y x).
Proof.
  intros Hx cy.
  destruct (terrain_canvas_columns s) as (Hs & _ & Hcols).
  specialize (Hcols x Hx). unfold column_drawn in Hcols. fold cy in Hcols.
  assert (Hkeep : forall y, (0 <= y)%Z ->
            get_cell (terrain_canvas s) y x <> " "%char ->
            get_cell (visualizer_canvas s) y x
            = get_cell (terrain_canvas s) y x).
  { intros y Hy Hnb. unfold visualizer_canvas.
    rewrite draw_lander_cells by (try exact Hs; lia).
    assert (E : (get_cell (terrain_canvas s) y x =? " ")%char = false)
      by (now apply Ascii.eqb_neq).
    rewrite E, !andb_false_r. reflexivity. }
  assert (Hover : forall y, (0 <= y)%Z ->
            get_cell (terrain_canvas s) y x = " "%char ->
            overlay_glyph (get_cell (visualizer_canvas s) y x)).
  { intros y Hy Hbl. unfold visualizer_canvas, overlay_glyph.
    rewrite draw_lander_cells by (try exact Hs; lia).
    destruct (_ && (y =? lander_y s)%Z); [now (right; left)|].
    destruct (_ && (lander_y s <? VIS_HEIGHT - 1)%Z); [now (right; right)|].
    now left. }
  destruct ((cy >=? 0)%Z && (cy <? VIS_HEIGHT)%Z) eqn:Hin.
  - destruct Hcols as (Ha & Hg & Hb).
    assert (H0 : (0 <= cy)%Z) by lia.
    split; [|split].
    + intros y Hy. apply Hover; [lia | now apply Ha].
    + rewrite Hkeep; [exact Hg | exact H0 |].
      intros E. rewrite E in Hg. destruct Hg as [F | [F | F]]; discriminate F.
    + intros y Hy. rewrite Hkeep by (try lia; rewrite Hb by lia; discriminate).
      now apply Hb.
  - intros y Hy. apply Hover; [lia | now apply Hcols].
Qed.

(** X24. Where the lander is shown, in every arithmetic and so in the
    program's binary64, with the lander's cell (lander_y, lander_x) and the
    surface row of a column (canvas_y) as the program computes them.  The
    lander 'A' is in a cell exactly when that cell is the lander's, lies on
    the canvas and is not at or below the surface row of its column; the
    exhaust '*' exactly in the cell below the lander's, under the same
    condition on that cell, with the engines on.  So a lander at or below
    the surface row of its column is not shown. *)
Theorem lander_shown_iff_above_surface (s : GameState D) (y x : Z) :
  (0 <= y)%Z -> (0 <= x)%Z ->
  (get_cell (visualizer_canvas s) y x = "A"%char
   <-> lander_on_canvas s = true /\ y = lander_y s /\ x = lander_x s
       /\ ~ (0 <= surface_row s x <= y)%Z)
  /\ (get_cell (visualizer_canvas s) y x = "*"%char
      <-> lander_on_canvas s = true /\ y = (lander_y s + 1)%Z
          /\ x = lander_x s /\ (y < VIS_HEIGHT)%Z /\ engines_on s <> 0%Z
          /\ ~ (0 <= surface_row s x <= y)%Z).
Proof.
  intros Hy Hx.
  destruct (terrain_canvas_columns s) as (Hs & _ & _).
  destruct (terrain_cell_not_overlay s y x Hy Hx) as [HnA HnS].
  unfold visualizer_canvas.
  rewrite draw_lander_cells by (try exact Hs; lia).
  assert (Hon : lander_on_canvas s = true ->
                (0 <= lander_y s < VIS_HEIGHT)%Z
                /\ (0 <= lander_x s < VIS_WIDTH)%Z).
  { unfold lander_on_canvas. lia. }
  destruct (lander_on_canvas s) eqn:On; cbn [andb].
  2:{ split; (split; [intros E; contradiction | intros (F & _); discriminate F]). }
  destruct (Hon eq_refl) as [Hly Hlx].
  destruct (Z.eqb_spec x (lander_x s)) as [Ex | Nx]; cbn [andb].
  2:{ split; (split; [intros E; contradiction | intros (_ & _ & F & _); contradiction]). }
  destruct (Z.eqb_spec y (lander_y s)) as [Ey | Ny].
  - assert (N1 : (y =? lander_y s + 1)%Z = false) by lia.
    rewrite N1, andb_true_r. cbn [andb]. rewrite !andb_false_r; cbn [andb].
    pose proof (terrain_cell_blank_iff s y x ltac:(lia) ltac:(lia)) as Hbl.
    destruct (get_cell (terrain_canvas s) y x =? " ")%char eqn:Hb.
    + apply Ascii.eqb_eq in Hb. split.
      * split; [intros _ | reflexivity].
        repeat split; try assumption; now apply Hbl.
      * split; [discriminate | intros (_ & F & _); lia].
    + apply Ascii.eqb_neq in Hb. split.
      * split; [intros E; contradiction|].
        intros (_ & _ & _ & F). apply Hbl in F. contradiction.
      * split; [intros E; contradiction | intros (_ & F & _); lia].
  - rewrite andb_false_r.
    destruct (Z.eqb_spec y (lander_y s + 1)) as [Ey1 | Ny1].
    + assert (Hlow : (lander_y s <? VIS_HEIGHT - 1)%Z = (y <? VIS_HEIGHT)%Z)
        by lia.
      rewrite Hlow.
      destruct (Z.ltb_spec y VIS_HEIGHT) as [Hin | Hout].
      * pose proof (terrain_cell_blank_iff s y x ltac:(lia) ltac:(lia)) as Hbl.
        destruct (get_cell (terrain_canvas s) y x =? " ")%char eqn:Hb;
          cbn [andb].
        -- apply Ascii.eqb_eq in Hb.
           destruct (truthy (engines_on s)) eqn:He; cbn [andb].
           ++ apply truthy_true in He. split.
              ** split; [discriminate | intros (_ & F & _); lia].
              ** split; [intros _ | reflexivity].
                 repeat split; try assumption; now apply Hbl.
           ++ apply truthy_false in He. split.
              ** split; [intros E; contradiction | intros (_ & F & _); lia].
              ** split; [intros E; contradiction|].
                 intros (_ & _ & _ & _ & F & _). contradiction.
        -- apply Ascii.eqb_neq in Hb. split.
           ++ split; [intros E; contradiction | intros (_ & F & _); lia].
           ++ split; [intros E; contradiction|].
              intros (_ & _ & _ & _ & _ & F). apply Hbl in F. contradiction.
      * rewrite !andb_false_r. split.
        -- split; [intros E; contradiction | intros (_ & F & _); lia].
        -- split; [intros E; contradiction|].
           intros (_ & _ & _ & F & _). lia.
    + rewrite !andb_false_r. cbn [andb]. split.
      * split; [intros E; contradiction | intros (_ & F & _); lia].
      * split; [intros E; contradiction | intros (_ & F & _); lia].
Qed.

End VisualizerPicture.

(** Column 5 of the sample terrain seen from 10 m: the interpolated height
    is 7/3, which lies exactly halfway between two rows (the scaled height
    is 6.5).  Binary64 computes 6.499999999999999 and puts the surface in
    row 9, as the program prints it; exact arithmetic rounds 6.5 up and
    puts it in row 8. *)
Lemma overlay_never_covers_terrain_witness :
  ((forall y, (0 <= y < 9)%Z ->
      overlay_glyph (get_cell (visualizer_canvas (hovering64 0 10)) y 5))
   /\ surface_glyph (get_cell (visualizer_canvas (hovering64 0 10)) 9 5)
   /\ (forall y, (9 < y < VIS_HEIGHT)%Z ->
         get_cell (visualizer_canvas (hovering64 0 10)) y 5 = "#"%char))
  /\ ((forall y, (0 <= y < 8)%Z ->
         overlay_glyph (get_cell (visualizer_canvas (hovering 0 10)) y 5))
      /\ surface_glyph (get_cell (visualizer_canvas (hovering 0 10)) 8 5)
      /\ (forall y, (8 < y < VIS_HEIGHT)%Z ->
            get_cell (visualizer_canvas (hovering 0 10)) y 5 = "#"%char)).
Proof.
  assert (E64 : surface_row (hovering64 0 10) 5 = 9%Z)
    by (vm_compute; reflexivity).
  assert (EQ : surface_row (hovering 0 10) 5 = 8%Z)
    by (vm_compute; reflexivity).
  pose proof (overlay_never_covers_terrain (hovering64 0 10) 5
                ltac:(unfold VIS_WIDTH; lia)) as H64.
  pose proof (overlay_never_covers_terrain (hovering 0 10) 5
                ltac:(unfold VIS_WIDTH; lia)) as HQ.
  cbv zeta in H64, HQ. rewrite E64 in H64. rewrite EQ in HQ.
  split; [exact H64 | exact HQ].
Defined.

(** The lander at 10 m over the middle of the map, in binary64; and at
    A = -83, B = 3, whose cell is row 8 of column 5: binary64 has the
    surface of that column in row 9 and the program draws the lander,
    exact arithmetic has it in row 8 and the lander is hidden. *)
Lemma lander_shown_iff_above_surface_witness :
  get_cell (visualizer_canvas (hovering64 0 10)) 6 30 = "A"%char
  /\ get_cell (visualizer_canvas (hovering64 0 10)) 7 30 = "*"%char
  /\ get_cell (visualizer_canvas (hovering64 (-83) 3)) 8 5 = "A"%char
  /\ get_cell (visualizer_canvas (hovering (-83) 3)) 8 5 <> "A"%char.
Proof.
  split; [|split; [|split]].
  - apply (proj1 (lander_shown_iff_above_surface (hovering64 0 10) 6 30
                    ltac:(lia) ltac:(lia))).
    vm_compute. repeat split; intros [H1 H2]; apply H2; reflexivity.
  - apply (proj2 (lander_shown_iff_above_surface (hovering64 0 10) 7 30
                    ltac:(lia) ltac:(lia))).
    vm_compute. repeat split; try discriminate.
    intros [H1 H2]; apply H2; reflexivity.
  - apply (proj1 (lander_shown_iff_above_surface (hovering64 (-83) 3) 8 5
                    ltac:(lia) ltac:(lia))).
    vm_compute. repeat split; intros [H1 H2]; apply H2; reflexivity.
  - intros HA.
    apply (proj1 (lander_shown_iff_above_surface (hovering (-83) 3) 8 5
                    ltac:(lia) ltac:(lia))) in HA.
    destruct HA as (_ & _ & _ & Hn). apply Hn.
    vm_compute. split; discriminate.
Defined.

(** *** The visualizer over exact arithmetic *)

(** *** Rounding *)


Lemma Q_round_comp (q q' : Q) : q == q' -> Q_round q = Q_round q'.
Proof.
  intros Heq. unfold Q_round.
  assert (E1 : Qle_bool 0 q = Qle_bool 0 q') by (now rewrite Heq).
  assert (E2 : Qfloor (q + (1 # 2)) = Qfloor (q' + (1 # 2)))
    by (now rewrite Heq).
  assert (E3 : Qfloor (- q + (1 # 2)) = Qfloor (- q' + (1 # 2)))
    by (now rewrite Heq).
  now rewrite E1, E2, E3.
Qed.

Lemma Q_round_nonneg (q : Q) : 0 <= q -> Q_round q = Qfloor (q + (1 # 2)).
Proof.
  intros Hq. unfold Q_round.
  apply Qle_bool_iff in Hq. now rewrite Hq.
Qed.


Lemma Q_round_between (q : Q) (lo hi : Z) :
  0 <= q -> inject_Z lo - (1 # 2) <= q -> q < inject_Z hi + (1 # 2) ->
  (lo <= Q_round q <= hi)%Z.
Proof.
  intros H0 Hlo Hhi. rewrite Q_round_nonneg by exact H0. split.
  - rewrite <- (Qfloor_Z lo). apply Qfloor_resp_le. lra.
  - apply Z.lt_succ_r. apply Z.lt_nge. intros Hge.
    rewrite Zle_Qle in Hge. pose proof (Qfloor_le (q + (1 # 2))) as Hf.
    unfold Z.succ in Hge. rewrite inject_Z_plus in Hge.
    change (inject_Z 1) with 1 in Hge. lra.
Qed.

Lemma Q_round_error (q : Q) : Qabs (q - inject_Z (Q_round q)) <= 1 # 2.
Proof.
  unfold Q_round. destruct (Qle_bool 0 q).
  - pose proof (Qfloor_le (q + (1 # 2))) as Hlo.
    pose proof (Qlt_floor (q + (1 # 2))) as Hhi.
    rewrite inject_Z_plus in Hhi. change (inject_Z 1) with 1 in Hhi.
    set (f := inject_Z (Qfloor (q + (1 # 2)))) in *. clearbody f.
    apply Qabs_Qle_condition. split; lra.
  - pose proof (Qfloor_le (- q + (1 # 2))) as Hlo.
    pose proof (Qlt_floor (- q + (1 # 2))) as Hhi.
    rewrite inject_Z_plus in Hhi. change (inject_Z 1) with 1 in Hhi.
    rewrite inject_Z_opp.
    set (f := inject_Z (Qfloor (- q + (1 # 2)))) in *. clearbody f.
    apply Qabs_Qle_condition. split; lra.
Qed.

(** *** Where the lander is drawn *)


Lemma view_window_landing (s : GameState Q) :
  B s < 60 -> view_window s = (40, -15).
Proof.
  intros HB. unfold view_window.
  change (d_ltb (B s) (d_lit 60)) with (Qltb (B s) 60).
  apply Qltb_lt in HB. now rewrite HB.
Qed.


Lemma lander_y_landing (s : GameState Q) :
  0 <= B s -> B s < 79 # 3 -> (0 <= lander_y s <= 9)%Z.
Proof.
  intros H0 Hlt. unfold lander_y.
  rewrite view_window_landing by lra. unfold canvas_row.
  q_ops. q_round_ops.
  change (inject_Z (VIS_HEIGHT - 1)) with 15.
  assert (H : (6 <= Q_round ((B s - -15) / 40 * 15) <= 15)%Z).
  { set (b := B s) in *. clearbody b.
    apply Q_round_between.
    - apply Qmult_le_0_compat; [|lra].
      apply Qle_shift_div_l; lra.
    - change (inject_Z 6) with 6.
      assert (E : (b - -15) / 40 * 15 == (b + 15) * (3 # 8)) by field.
      rewrite E. lra.
    - change (inject_Z 15) with 15.
      assert (E : (b - -15) / 40 * 15 == (b + 15) * (3 # 8)) by field.
      rewrite E. lra. }
  unfold VIS_HEIGHT. lia.
Qed.

Lemma lander_y_landing_hidden (s : GameState Q) :
  79 # 3 <= B s -> B s < 60 -> (lander_y s < 0)%Z.
Proof.
  intros Hlo Hhi. unfold lander_y.
  rewrite view_window_landing by exact Hhi. unfold canvas_row.
  q_ops. q_round_ops.
  change (inject_Z (VIS_HEIGHT - 1)) with 15.
  assert (H : (16 <= Q_round ((B s - -15) / 40 * 15) <= 28)%Z).
  { set (b := B s) in *. clearbody b.
    assert (E : (b - -15) / 40 * 15 == (b + 15) * (3 # 8)) by field.
    apply Q_round_between.
    - rewrite E. lra.
    - change (inject_Z 16) with 16. rewrite E. lra.
    - change (inject_Z 28) with 28. rewrite E. lra. }
  unfold VIS_HEIGHT. lia.
Qed.



(** X21. The 61 screen columns span the 21 terrain samples three to a
    sample: column 3k shows sample k itself, and the two columns after it
    the line from sample k to sample k+1 at one and two thirds. *)
Theorem three_columns_per_sample (s : GameState Q) (x : Z) :
  (0 <= x <= 60)%Z ->
  column_height s x
  == terrain_at s (x / 3)
     + (terrain_at s (x / 3 + 1) - terrain_at s (x / 3))
       * (inject_Z (x mod 3) / 3).
Proof.
  intros Hx. unfold column_height, WORLD_X_MIN, WORLD_X_MAX. q_ops. q_round_ops.
  change (inject_Z (VIS_WIDTH - 1)) with 60.
  set (pos := (-100 + inject_Z x / 60 * (100 - -100) - -100) / 10).
  assert (Hpos : pos == x # 3).
  { unfold pos. rewrite (Qmake_Qdiv x 3). change (inject_Z (Z.pos 3)) with 3.
    field. }
  assert (Hfl : Qfloor pos = (x / 3)%Z).
  { rewrite (Qfloor_comp _ _ Hpos). reflexivity. }
  assert (Hce : Qceiling pos = (- ((- x) / 3))%Z).
  { unfold Qceiling.
    assert (E : - pos == (- x) # 3) by (rewrite Hpos; reflexivity).
    rewrite (Qfloor_comp _ _ E). reflexivity. }
  rewrite Hfl, Hce.
  assert (Hdiv : (x = 3 * (x / 3) + x mod 3)%Z) by (apply Z.div_mod; lia).
  assert (Hmod : (0 <= x mod 3 < 3)%Z) by (apply Z.mod_pos_bound; lia).
  assert (Hq : (0 <= x / 3 <= 20)%Z).
  { split; [apply Z.div_pos; lia|]. apply Z.div_le_upper_bound; lia. }
  assert (Hposq : pos == inject_Z (x / 3) + inject_Z (x mod 3) / 3).
  { rewrite Hpos, (Qmake_Qdiv x 3). change (inject_Z (Z.pos 3)) with 3.
    rewrite Hdiv at 1. rewrite inject_Z_plus, inject_Z_mult.
    change (inject_Z 3) with 3. field. }
  destruct (Z.eq_dec (x mod 3) 0) as [Hz | Hnz].
  - assert (Hc : (- ((- x) / 3) = x / 3)%Z).
    { rewrite Z.div_opp_l_z by lia. lia. }
    rewrite Hc.
    replace (Z.max 0 (Z.min 20 (x / 3))) with (x / 3)%Z by lia.
    rewrite Z.eqb_refl, Hz. change (inject_Z 0) with 0. field.
  - assert (Hc : (- ((- x) / 3) = x / 3 + 1)%Z).
    { rewrite Z.div_opp_l_nz by lia. lia. }
    rewrite Hc.
    assert (H19 : (x / 3 <= 19)%Z) by lia.
    replace (Z.max 0 (Z.min 20 (x / 3))) with (x / 3)%Z by lia.
    replace (Z.max 0 (Z.min 20 (x / 3 + 1))) with (x / 3 + 1)%Z by lia.
    assert (E : (x / 3 =? x / 3 + 1)%Z = false) by lia.
    rewrite E, Hposq. field.
Qed.

Lemma three_columns_per_sample_witness :
  column_height (hovering 0 10) 7 == 3 + (2 - 3) * (1 / 3).
Proof.
  exact (three_columns_per_sample (hovering 0 10) 7 ltac:(lia)).
Defined.

(** X22. display_visualizer always prints 16 rows of 61 characters, and
    draws them with seven characters only: blank, the three surface
    characters, the fill, the lander and its exhaust. *)
Theorem visualizer_prints_16_rows_of_61 (s : GameState Q) :
  canvas_shape (visualizer_canvas s)
  /\ Forall (Forall glyph) (visualizer_canvas s)
  /\ List.length (display_visualizer s) = 16%nat
  /\ Forall (fun row => String.length (fst row) = 61%nat)
       (display_visualizer s).
Proof.
  destruct (terrain_canvas_columns s) as (Hs & Hg & _).
  destruct (draw_lander_shape s _ Hs Hg) as [Hs' Hg'].
  fold (visualizer_canvas s) in Hs', Hg'.
  split; [exact Hs'|]. split; [exact Hg'|].
  unfold display_visualizer. split.
  - rewrite length_map. unfold for_range. rewrite length_map, length_seq.
    reflexivity.
  - apply Forall_forall. intros row Hin.
    apply in_map_iff in Hin as (i & <- & Hi). cbn [fst].
    rewrite string_of_list_ascii_length.
    destruct Hs' as [Hrows Hcols].
    unfold for_range in Hi. apply in_map_iff in Hi as (n & <- & Hn).
    apply in_seq in Hn.
    rewrite Forall_forall in Hcols. apply (Hcols _). apply nth_In.
    rewrite Hrows. unfold VIS_HEIGHT in *. lia.
Qed.



(** X26. Landing mode (altitude below 60): the window is fixed, from -15 m
    to 25 m.  A lander below 79/3 m (about 26.3 m) has its row on the
    canvas, between rows 0 and 9; from 79/3 m up to 60 m its row is above
    the canvas and the picture shows the terrain alone. *)
Theorem landing_view_loses_the_lander (s : GameState Q) :
  0 <= B s -> B s < 60 ->
  view_window s = (40, -15)
  /\ (B s < 79 # 3 -> (0 <= lander_y s <= 9)%Z)
  /\ (79 # 3 <= B s ->
      lander_on_canvas s = false /\ visualizer_canvas s = terrain_canvas s).
Proof.
  intros H0 H60. split; [now apply view_window_landing|]. split.
  - intros Hlt. now apply lander_y_landing.
  - intros Hge. pose proof (lander_y_landing_hidden s Hge H60) as Hneg.
    assert (Hoff : lander_on_canvas s = false).
    { unfold lander_on_canvas.
      assert (E : (lander_y s >=? 0)%Z = false) by lia.
      now rewrite E. }
    split; [exact Hoff|].
    unfold visualizer_canvas, draw_lander.
    fold (lander_on_canvas s). now rewrite Hoff.
Qed.

Lemma landing_view_loses_the_lander_witness :
  (0 <= lander_y (hovering 0 10) <= 9)%Z
  /\ visualizer_canvas (hovering 0 30) = terrain_canvas (hovering 0 30).
Proof.
  split.
  - apply (landing_view_loses_the_lander (hovering 0 10));
      vm_compute; solve [discriminate | reflexivity].
  - apply (landing_view_loses_the_lander (hovering 0 30));
      vm_compute; solve [discriminate | reflexivity].
Defined.

(** X27. Drawing and labelling agree: the altitude printed beside the row
    a height is drawn in differs from that height by at most half a row,
    a thirtieth of the window's height (4/3 m in landing mode, 5 m in
    approach mode). *)
Theorem row_label_is_within_half_a_row (s : GameState Q) (h : Q) :
  Qabs (h - row_altitude s (canvas_row (view_window s) h))
  <= fst (view_window s) / 30.
Proof.
  unfold row_altitude, canvas_row.
  assert (Hw : view_window s = (40, -15)
               \/ view_window s = (150, B s + 30 - 150)).
  { unfold view_window. destruct (d_ltb (B s) (d_lit 60)); auto. }
  destruct Hw as [-> | ->]; cbn [fst]; q_ops; q_round_ops;
    change (inject_Z (VIS_HEIGHT - 1)) with 15.
  - set (t := (h - -15) / 40 * 15).
    pose proof (Q_round_error t) as Herr.
    apply Qabs_Qle_condition in Herr. destruct Herr as [Hlo Hhi].
    unfold Z.sub. rewrite inject_Z_plus, inject_Z_opp.
    change (inject_Z (VIS_HEIGHT + - (1))) with 15.
    set (r := inject_Z (Q_round t)) in *.
    assert (Ht : h == -15 + t * (8 # 3)) by (unfold t; field).
    clearbody r t.
    apply Qabs_Qle_condition.
    assert (E : h - (-15 + 40 - (15 + - r) / 15 * 40)
                == (t - r) * (8 # 3)) by (rewrite Ht; field).
    rewrite E. split.
    + assert (F : - (40 / 30) == - (1 # 2) * (8 # 3)) by reflexivity.
      rewrite F. lra.
    + assert (F : 40 / 30 == (1 # 2) * (8 # 3)) by reflexivity.
      rewrite F. lra.
  - set (m := B s + 30 - 150).
    set (t := (h - m) / 150 * 15).
    pose proof (Q_round_error t) as Herr.
    apply Qabs_Qle_condition in Herr. destruct Herr as [Hlo Hhi].
    unfold Z.sub. rewrite inject_Z_plus, inject_Z_opp.
    change (inject_Z (VIS_HEIGHT + - (1))) with 15.
    set (r := inject_Z (Q_round t)) in *.
    assert (Ht : h == m + t * 10) by (unfold t; field).
    clearbody r t m.
    apply Qabs_Qle_condition.
    assert (E : h - (m + 150 - (15 + - r) / 15 * 150)
                == (t - r) * 10) by (rewrite Ht; field).
    rewrite E. split.
    + assert (F : - (150 / 30) == - (1 # 2) * 10) by reflexivity.
      rewrite F. lra.
    + assert (F : 150 / 30 == (1 # 2) * 10) by reflexivity.
      rewrite F. lra.
Qed.

(** X28. The picture and the landing check read the same place: with the
    position within [-100, 100], the lander's screen column lies between
    the column of the terrain sample check_landing evaluates (three times
    its index) and the column of the next sample, both included.  At the
    right end of that range the lander is drawn over the next sample while
    the landing is judged on the one before. *)
Theorem lander_column_brackets_the_judged_sample (s : GameState Q) :
  -100 <= A s -> A s <= 100 ->
  (3 * landing_index s <= lander_x s <= 3 * landing_index s + 3)%Z.
Proof.
  intros Hlo Hhi. rewrite landing_index_clamped.
  destruct (landing_index_in_range (A s) Hlo Hhi) as [Hrange ->].
  assert (H0 : 0 <= (A s + 100) / 10).
  { apply Qle_shift_div_l; lra. }
  destruct (Q_to_int_nonneg _ H0) as (_ & Hi & Hi1).
  rewrite inject_Z_plus in Hi1. change (inject_Z 1) with 1 in Hi1.
  unfold lander_x, WORLD_X_MIN, WORLD_X_MAX. q_ops. q_round_ops.
  change (inject_Z (VIS_WIDTH - 1)) with 60.
  set (i := Q_to_int ((A s + 100) / 10)) in *.
  set (u := (A s + 100) / 10) in *.
  assert (E : (A s - -100) / (100 - -100) * 60 == 3 * u)
    by (unfold u; field).
  rewrite (Q_round_comp _ _ E).
  clearbody u. clearbody i.
  apply Q_round_between.
  - lra.
  - rewrite inject_Z_mult. change (inject_Z 3) with 3. lra.
  - rewrite inject_Z_plus, inject_Z_mult. change (inject_Z 3) with 3. lra.
Qed.

Lemma lander_column_brackets_the_judged_sample_witness :
  (3 * landing_index (hovering 9 10) <= lander_x (hovering 9 10)
   <= 3 * landing_index (hovering 9 10) + 3)%Z
  /\ landing_index (hovering 9 10) = 10%Z
  /\ lander_x (hovering 9 10) = 33%Z.
Proof.
  split; [|split; reflexivity].
  apply (lander_column_brackets_the_judged_sample (hovering 9 10));
    vm_compute; discriminate.
Defined.
